(** * Chariot backend: the order ledger endpoints of [server.js]

    A shallow embedding of the endpoints of [chariot-backend/server.js] that
    read or write the tables ["order"], [order_line_item], ["transaction"]
    and ["authorization"] of [chariot-backend/schema.sql].

    - A table is the list of its rows, in insertion order.
    - A handler is a function from the database, the values the environment
      supplies (random uuids, the clock, the payment gateway's answer) and
      the request to the new database and the HTTP response.
    - A request body field that is absent, [undefined] or [null] is [None].
      Fields are typed by the column they are written to: text fields are
      strings, BIGINT fields integers, NUMERIC(n,2) fields integers counting
      hundredths, timestamps integers.
    - The transition system has the six endpoints that write the four
      tables or decide a transaction: the updates of an order, a line item
      and a transaction, the creation of a line item and of a transaction,
      and the payment confirmation. The creation of an order is left out:
      it adds a row, assigns none of the calculated columns, and its
      statement names columns the ["order"] table of schema.sql does not
      declare. No statement of the server deletes a row. *)

From Stdlib Require Import ZArith List String Ascii Bool Lia.
From Stdlib Require Import Permutation Sorted DecimalString.
Import ListNotations.

Local Open Scope string_scope.
Local Open Scope Z_scope.

(** ** JavaScript values *)

Module js.

(** [!v] is false exactly for these: a present, non-empty string. *)
Definition truthy_string (v : option string) : bool :=
  match v with
  | Some s => negb (s =? "")%string
  | None => false
  end.

(** A present number other than 0. *)
Definition truthy_number (v : option Z) : bool :=
  match v with
  | Some n => negb (n =? 0)
  | None => false
  end.

(** [a || b], both possibly undefined. *)
Definition or_else (a b : option string) : option string :=
  if truthy_string a then a else b.

(** [a || 'literal'] *)
Definition or_string (a : option string) (b : string) : string :=
  match or_else a (Some b) with
  | Some s => s
  | None => b
  end.

(** [a || 0] *)
Definition or_number (a : option Z) (b : Z) : Z :=
  match a with
  | Some n => if truthy_number a then n else b
  | None => b
  end.

End js.

(** ** PostgreSQL: column types, errors, COALESCE *)

Definition uuid := N.
Definition timestamp := Z.

Module pg.

Inductive error : Type :=
| invalid_text_representation (type_name input : string)
| not_null_violation (column : string)
| foreign_key_violation (column : string)
| unique_violation (column : string)
| string_data_right_truncation (limit : nat)
| numeric_value_out_of_range (type_name : string).

Definition result (A : Type) : Type := (error + A)%type.

Definition ok {A : Type} (a : A) : result A := inr a.
Definition raise {A : Type} (e : error) : result A := inl e.

Definition bind {A B : Type} (m : result A) (k : A -> result B) : result B :=
  match m with
  | inl e => inl e
  | inr a => k a
  end.

Definition COALESCE {A : Type} (a b : option A) : option A :=
  match a with
  | Some _ => a
  | None => b
  end.

Definition hex_value (c : ascii) : option N :=
  let n := N_of_ascii c in
  (if (48 <=? n) && (n <=? 57) then Some (n - 48)
   else if (97 <=? n) && (n <=? 102) then Some (n - 87)
   else if (65 <=? n) && (n <=? 70) then Some (n - 55)
   else None)%N.

(** The sixteen bytes of a uuid: two hex digits each, an optional hyphen
    after every second byte but the last. [i] is the byte's index. *)
Fixpoint uuid_bytes (remaining i : nat) (src : string) (acc : N)
  : option (N * string) :=
  match remaining with
  | O => Some (acc, src)
  | S k =>
      match src with
      | String c0 (String c1 rest) =>
          match hex_value c0, hex_value c1 with
          | Some h, Some l =>
              let rest' :=
                match rest with
                | String "-"%char r =>
                    if Nat.odd i && (i <? 15)%nat then r else rest
                | _ => rest
                end in
              uuid_bytes k (S i) rest' (acc * 256 + (h * 16 + l))%N
          | _, _ => None
          end
      | _ => None
      end
  end.

(** Input syntax of the [uuid] type: the digits, optionally in braces. *)
Definition uuid_in (source : string) : result uuid :=
  let bad := raise (invalid_text_representation "uuid" source) in
  let '(braces, src) :=
    match source with
    | String "{"%char r => (true, r)
    | _ => (false, source)
    end in
  match uuid_bytes 16 0 src 0%N with
  | Some (u, rest) =>
      match braces, rest with
      | true, String "}"%char EmptyString => ok u
      | false, EmptyString => ok u
      | _, _ => bad
      end
  | None => bad
  end.

(** A nullable uuid parameter. *)
Definition uuid_in_opt (source : option string) : result (option uuid) :=
  match source with
  | Some s => bind (uuid_in s) (fun u => ok (Some u))
  | None => ok None
  end.

Definition not_null {A : Type} (column : string) (v : option A) : result A :=
  match v with
  | Some a => ok a
  | None => raise (not_null_violation column)
  end.

Fixpoint all_spaces (s : string) : bool :=
  match s with
  | EmptyString => true
  | String c r => (c =? " ")%char && all_spaces r
  end.

(** Assignment to a VARCHAR(n) column: too long a value is an error unless
    only spaces are cut off. *)
Definition varchar (n : nat) (s : string) : result string :=
  if (String.length s <=? n)%nat then ok s
  else if all_spaces (substring n (String.length s - n) s)
       then ok (substring 0 n s)
       else raise (string_data_right_truncation n).

Definition varchar_opt (n : nat) (s : option string) : result (option string) :=
  match s with
  | Some v => bind (varchar n v) (fun v' => ok (Some v'))
  | None => ok None
  end.

Definition bigint (z : Z) : result Z :=
  if (- 2 ^ 63 <=? z) && (z <? 2 ^ 63) then ok z
  else raise (numeric_value_out_of_range "bigint").

Definition bigint_opt (z : option Z) : result (option Z) :=
  match z with
  | Some v => bind (bigint v) (fun v' => ok (Some v'))
  | None => ok None
  end.

(** NUMERIC(10,2), the value counted in hundredths: fewer than eight digits
    before the decimal point. *)
Definition numeric_10_2 (hundredths : Z) : result Z :=
  if Z.abs hundredths <? 10 ^ 10 then ok hundredths
  else raise (numeric_value_out_of_range "numeric").

Definition numeric_10_2_opt (z : option Z) : result (option Z) :=
  match z with
  | Some v => bind (numeric_10_2 v) (fun v' => ok (Some v'))
  | None => ok None
  end.

(** SET c = COALESCE($n, c) on a column of a constrained type: a given
    parameter is brought to the column's type, a stored value has it. *)
Definition coalesce_into {A : Type} (coerce : A -> result A)
  (param stored : option A) : result (option A) :=
  match param with
  | Some v => bind (coerce v) (fun v' => ok (Some v'))
  | None => ok stored
  end.

(** The same on a NOT NULL column. *)
Definition coalesce_into_not_null {A : Type} (coerce : A -> result A)
  (param : option A) (stored : A) : result A :=
  match param with
  | Some v => coerce v
  | None => ok stored
  end.

(** REFERENCES t(id) on a nullable column. *)
Definition references (column : string) (ids : list uuid) (v : option uuid)
  : result unit :=
  match v with
  | None => ok tt
  | Some u =>
      if existsb (N.eqb u) ids then ok tt
      else raise (foreign_key_violation column)
  end.

(** PRIMARY KEY *)
Definition primary_key (ids : list uuid) (u : uuid) : result unit :=
  if existsb (N.eqb u) ids then raise (unique_violation "id") else ok tt.

End pg.

Declare Scope pg_scope.
Delimit Scope pg_scope with pg.
Notation "x <- m ;; k" := (pg.bind m (fun x => k))
  (at level 100, m at next level, right associativity) : pg_scope.

(** ** schema.sql: the rows of the four tables

    A column without NOT NULL is an [option]; NUMERIC(n,2) columns count
    hundredths; JSONB columns hold their text. *)

Module order.
Record row : Type := {
  id : uuid;
  company_id : uuid;
  location_id : uuid;
  customer_id : uuid;
  vehicle_id : option uuid;
  appointment_id : option uuid;
  order_number : option string;
  status : option string;
  priority : option string;
  note : string;
  service_writer_id : option uuid;
  calculated_labor_cents : option Z;
  calculated_parts_cents : option Z;
  calculated_subcontracts_cents : option Z;
  calculated_shop_supplies_cents : option Z;
  calculated_discount_cents : option Z;
  calculated_tax_cents : option Z;
  calculated_subtotal_cents : option Z;
  calculated_total_cents : option Z;
  discount_percent : option Z;
  tax_percent : option Z;
  deferred : option bool;
  deferred_date : option timestamp;
  deferred_reason : option string;
  metadata : option string;
  created_at : option timestamp;
  updated_at : option timestamp;
  completed_date : option timestamp;
  deleted : option bool
}.
End order.

Module order_line_item.
Record row : Type := {
  id : uuid;
  company_id : uuid;
  location_id : uuid;
  order_id : uuid;
  source_service_id : option uuid;
  name : string;
  description : option string;
  category : option string;
  line_item_order : option string;
  pricing : option string;
  ordinal : option Z;
  labor_rate_cents : option Z;
  labor_hours : option Z;
  parts_cost_cents : option Z;
  quantity : option Z;
  fixed_price_cents : option Z;
  lump_sum : option bool;
  discount_cents : option Z;
  discount_percent : option Z;
  discount_value_type : option string;
  tax_cents : option Z;
  tax_percent : option Z;
  tax_value_type : option string;
  total_cents : option Z;
  status : option string;
  hidden : option bool;
  recommended : option bool;
  revived : option bool;
  revived_from_id : option uuid;
  note : string;
  metadata : option string;
  created_at : option timestamp;
  updated_at : option timestamp
}.
End order_line_item.

Module transaction.
Record row : Type := {
  id : uuid;
  company_id : uuid;
  location_id : uuid;
  order_id : uuid;
  customer_id : uuid;
  transaction_type : string;
  status : option string;
  amount_cents : Z;
  payment_method : option string;
  payment_reference : option string;
  applied_date : option timestamp;
  due_date : option timestamp;
  note : option string;
  metadata : option string;
  created_at : option timestamp;
  updated_at : option timestamp
}.
End transaction.

Module authorization.
Record row : Type := {
  id : uuid;
  company_id : uuid;
  location_id : uuid;
  order_id : uuid;
  customer_id : uuid;
  authorized_cost_cents : Z;
  method : string;
  date : timestamp;
  service_authorization_reset : option bool;
  service_writer_id : option uuid;
  note : option string;
  metadata : option string;
  created_at : option timestamp;
  updated_at : option timestamp
}.
End authorization.

(** The database: the four tables, and the primary keys of the [customer]
    and ["user"] tables the foreign keys point to. *)
Record database : Type := {
  customer_ids : list uuid;
  user_ids : list uuid;
  orders : list order.row;
  order_line_items : list order_line_item.row;
  transactions : list transaction.row;
  authorizations : list authorization.row
}.

(** What a call takes from outside the database: the value
    [gen_random_uuid()] gives the new row, the text [uuidv4()] returns in
    the handler, and CURRENT_TIMESTAMP. *)
Record environment : Type := {
  gen_random_uuid : uuid;
  uuidv4 : string;
  CURRENT_TIMESTAMP : timestamp
}.

(** ** HTTP responses *)

Inductive json : Type :=
| error_json (error : string)
| query_error_json (e : pg.error)
| gateway_error_json (message : string)
| order_json (r : order.row)
| line_item_json (r : order_line_item.row)
| transaction_json (r : transaction.row)
| confirm_json (success : bool) (transaction : transaction.row)
    (payment_status : string) (amount : Z).

Record response : Type := { http_status : nat; json_body : json }.

(** [res.status(code).json(body)] *)
Definition respond (code : nat) (body : json) : response :=
  {| http_status := code; json_body := body |}.

(** A query that fails outside a [try] rejects the handler's promise;
    [asyncHandler] hands the error to [next] and the answer is 500 (the
    error has no [status]), the error in its body. *)
Definition query_failed (e : pg.error) : response :=
  respond 500 (query_error_json e).

(** ** Queries *)

Definition with_orders (db : database) (rows : list order.row) : database :=
  {| customer_ids := customer_ids db;
     user_ids := user_ids db;
     orders := rows;
     order_line_items := order_line_items db;
     transactions := transactions db;
     authorizations := authorizations db |}.

Definition with_order_line_items (db : database)
  (rows : list order_line_item.row) : database :=
  {| customer_ids := customer_ids db;
     user_ids := user_ids db;
     orders := orders db;
     order_line_items := rows;
     transactions := transactions db;
     authorizations := authorizations db |}.

Definition with_transactions (db : database) (rows : list transaction.row)
  : database :=
  {| customer_ids := customer_ids db;
     user_ids := user_ids db;
     orders := orders db;
     order_line_items := order_line_items db;
     transactions := rows;
     authorizations := authorizations db |}.

Definition with_authorizations (db : database)
  (rows : list authorization.row) : database :=
  {| customer_ids := customer_ids db;
     user_ids := user_ids db;
     orders := orders db;
     order_line_items := order_line_items db;
     transactions := transactions db;
     authorizations := rows |}.

(** UPDATE t SET ... WHERE [matches] RETURNING *: the new table and the
    returned rows; an error in one row aborts the statement. *)
Fixpoint update_where {R : Type} (matches : R -> bool)
  (set : R -> pg.result R) (rows : list R) : pg.result (list R * list R) :=
  match rows with
  | [] => pg.ok ([], [])
  | r :: rest =>
      if matches r then
        (r' <- set r ;;
         done <- update_where matches set rest ;;
         pg.ok (r' :: fst done, r' :: snd done))%pg
      else
        (done <- update_where matches set rest ;;
         pg.ok (r :: fst done, snd done))%pg
  end.

(** INSERT INTO "transaction" (company_id, location_id, order_id,
    customer_id, transaction_type, amount_cents, payment_method, status,
    note, payment_reference): a column a statement does not list is passed
    as [None]. The parameters are read first, then the row is checked. *)
Definition insert_transaction (db : database) (env : environment)
  (company_id location_id order_id customer_id transaction_type : option string)
  (amount_cents : option Z)
  (payment_method status note payment_reference : option string)
  : pg.result (database * transaction.row) :=
  (company <- pg.uuid_in_opt company_id ;;
   location <- pg.uuid_in_opt location_id ;;
   order <- pg.uuid_in_opt order_id ;;
   customer <- pg.uuid_in_opt customer_id ;;
   amount <- pg.bigint_opt amount_cents ;;
   company <- pg.not_null "company_id" company ;;
   location <- pg.not_null "location_id" location ;;
   order <- pg.not_null "order_id" order ;;
   customer <- pg.not_null "customer_id" customer ;;
   type <- pg.not_null "transaction_type" transaction_type ;;
   type <- pg.varchar 50 type ;;
   status <- pg.varchar_opt 50 status ;;
   amount <- pg.not_null "amount_cents" amount ;;
   method <- pg.varchar_opt 50 payment_method ;;
   reference <- pg.varchar_opt 255 payment_reference ;;
   _ <- pg.primary_key (map transaction.id (transactions db))
          (gen_random_uuid env) ;;
   _ <- pg.references "order_id" (map order.id (orders db)) (Some order) ;;
   _ <- pg.references "customer_id" (customer_ids db) (Some customer) ;;
   let r :=
     {| transaction.id := gen_random_uuid env;
        transaction.company_id := company;
        transaction.location_id := location;
        transaction.order_id := order;
        transaction.customer_id := customer;
        transaction.transaction_type := type;
        transaction.status := status;
        transaction.amount_cents := amount;
        transaction.payment_method := method;
        transaction.payment_reference := reference;
        transaction.applied_date := None;
        transaction.due_date := None;
        transaction.note := note;
        transaction.metadata := None;
        transaction.created_at := Some (CURRENT_TIMESTAMP env);
        transaction.updated_at := Some (CURRENT_TIMESTAMP env) |} in
   pg.ok (with_transactions db (transactions db ++ [r]), r))%pg.

(** INSERT INTO order_line_item (company_id, location_id, order_id, name,
    category, pricing, quantity, fixed_price_cents, labor_hours, note); the
    other columns take their defaults. *)
Definition insert_order_line_item (db : database) (env : environment)
  (company_id location_id order_id name category pricing : option string)
  (quantity fixed_price_cents labor_hours : option Z) (note : option string)
  : pg.result (database * order_line_item.row) :=
  (company <- pg.uuid_in_opt company_id ;;
   location <- pg.uuid_in_opt location_id ;;
   order <- pg.uuid_in_opt order_id ;;
   fixed_price <- pg.bigint_opt fixed_price_cents ;;
   company <- pg.not_null "company_id" company ;;
   location <- pg.not_null "location_id" location ;;
   order <- pg.not_null "order_id" order ;;
   name <- pg.not_null "name" name ;;
   name <- pg.varchar 255 name ;;
   category <- pg.varchar_opt 100 category ;;
   pricing <- pg.varchar_opt 50 pricing ;;
   quantity <- pg.numeric_10_2_opt quantity ;;
   labor_hours <- pg.numeric_10_2_opt labor_hours ;;
   note <- pg.not_null "note" note ;;
   _ <- pg.primary_key (map order_line_item.id (order_line_items db))
          (gen_random_uuid env) ;;
   _ <- pg.references "order_id" (map order.id (orders db)) (Some order) ;;
   let r :=
     {| order_line_item.id := gen_random_uuid env;
        order_line_item.company_id := company;
        order_line_item.location_id := location;
        order_line_item.order_id := order;
        order_line_item.source_service_id := None;
        order_line_item.name := name;
        order_line_item.description := None;
        order_line_item.category := category;
        order_line_item.line_item_order := None;
        order_line_item.pricing := pricing;
        order_line_item.ordinal := Some 0;
        order_line_item.labor_rate_cents := None;
        order_line_item.labor_hours := labor_hours;
        order_line_item.parts_cost_cents := None;
        order_line_item.quantity := quantity;
        order_line_item.fixed_price_cents := fixed_price;
        order_line_item.lump_sum := Some false;
        order_line_item.discount_cents := Some 0;
        order_line_item.discount_percent := Some 0;
        order_line_item.discount_value_type := None;
        order_line_item.tax_cents := Some 0;
        order_line_item.tax_percent := Some 0;
        order_line_item.tax_value_type := None;
        order_line_item.total_cents := Some 0;
        order_line_item.status := Some "pending";
        order_line_item.hidden := Some false;
        order_line_item.recommended := Some false;
        order_line_item.revived := Some false;
        order_line_item.revived_from_id := None;
        order_line_item.note := note;
        order_line_item.metadata := None;
        order_line_item.created_at := Some (CURRENT_TIMESTAMP env);
        order_line_item.updated_at := Some (CURRENT_TIMESTAMP env) |} in
   pg.ok (with_order_line_items db (order_line_items db ++ [r]), r))%pg.

(** SET name = COALESCE($1, name), quantity = COALESCE($2, quantity),
    fixed_price_cents = COALESCE($3, fixed_price_cents),
    labor_hours = COALESCE($4, labor_hours), note = COALESCE($5, note),
    updated_at = CURRENT_TIMESTAMP *)
Definition set_order_line_item (env : environment) (name : option string)
  (quantity fixed_price_cents labor_hours : option Z) (note : option string)
  (r : order_line_item.row) : pg.result order_line_item.row :=
  (name' <- pg.coalesce_into_not_null (pg.varchar 255) name
              (order_line_item.name r) ;;
   quantity' <- pg.coalesce_into pg.numeric_10_2 quantity
                  (order_line_item.quantity r) ;;
   labor_hours' <- pg.coalesce_into pg.numeric_10_2 labor_hours
                     (order_line_item.labor_hours r) ;;
   note' <- pg.coalesce_into_not_null pg.ok note (order_line_item.note r) ;;
   pg.ok
     {| order_line_item.id := order_line_item.id r;
        order_line_item.company_id := order_line_item.company_id r;
        order_line_item.location_id := order_line_item.location_id r;
        order_line_item.order_id := order_line_item.order_id r;
        order_line_item.source_service_id := order_line_item.source_service_id r;
        order_line_item.name := name';
        order_line_item.description := order_line_item.description r;
        order_line_item.category := order_line_item.category r;
        order_line_item.line_item_order := order_line_item.line_item_order r;
        order_line_item.pricing := order_line_item.pricing r;
        order_line_item.ordinal := order_line_item.ordinal r;
        order_line_item.labor_rate_cents := order_line_item.labor_rate_cents r;
        order_line_item.labor_hours := labor_hours';
        order_line_item.parts_cost_cents := order_line_item.parts_cost_cents r;
        order_line_item.quantity := quantity';
        order_line_item.fixed_price_cents :=
          pg.COALESCE fixed_price_cents (order_line_item.fixed_price_cents r);
        order_line_item.lump_sum := order_line_item.lump_sum r;
        order_line_item.discount_cents := order_line_item.discount_cents r;
        order_line_item.discount_percent := order_line_item.discount_percent r;
        order_line_item.discount_value_type :=
          order_line_item.discount_value_type r;
        order_line_item.tax_cents := order_line_item.tax_cents r;
        order_line_item.tax_percent := order_line_item.tax_percent r;
        order_line_item.tax_value_type := order_line_item.tax_value_type r;
        order_line_item.total_cents := order_line_item.total_cents r;
        order_line_item.status := order_line_item.status r;
        order_line_item.hidden := order_line_item.hidden r;
        order_line_item.recommended := order_line_item.recommended r;
        order_line_item.revived := order_line_item.revived r;
        order_line_item.revived_from_id := order_line_item.revived_from_id r;
        order_line_item.note := note';
        order_line_item.metadata := order_line_item.metadata r;
        order_line_item.created_at := order_line_item.created_at r;
        order_line_item.updated_at := Some (CURRENT_TIMESTAMP env) |})%pg.

(** SET status = COALESCE($1, status),
    applied_date = COALESCE($2, applied_date), note = COALESCE($3, note),
    updated_at = CURRENT_TIMESTAMP *)
Definition set_transaction (env : environment) (status : option string)
  (applied_date : option timestamp) (note : option string)
  (r : transaction.row) : pg.result transaction.row :=
  (status' <- pg.coalesce_into (pg.varchar 50) status (transaction.status r) ;;
   pg.ok
     {| transaction.id := transaction.id r;
        transaction.company_id := transaction.company_id r;
        transaction.location_id := transaction.location_id r;
        transaction.order_id := transaction.order_id r;
        transaction.customer_id := transaction.customer_id r;
        transaction.transaction_type := transaction.transaction_type r;
        transaction.status := status';
        transaction.amount_cents := transaction.amount_cents r;
        transaction.payment_method := transaction.payment_method r;
        transaction.payment_reference := transaction.payment_reference r;
        transaction.applied_date :=
          pg.COALESCE applied_date (transaction.applied_date r);
        transaction.due_date := transaction.due_date r;
        transaction.note := pg.COALESCE note (transaction.note r);
        transaction.metadata := transaction.metadata r;
        transaction.created_at := transaction.created_at r;
        transaction.updated_at := Some (CURRENT_TIMESTAMP env) |})%pg.

Definition option_uuid_eqb (a b : option uuid) : bool :=
  match a, b with
  | Some x, Some y => N.eqb x y
  | None, None => true
  | _, _ => false
  end.

(** SET note = COALESCE($1, note), priority = COALESCE($2, priority),
    status = COALESCE($3, status),
    service_writer_id = COALESCE($4, service_writer_id),
    updated_at = CURRENT_TIMESTAMP; the reference to ["user"] is checked when
    the column changes. *)
Definition set_order (db : database) (env : environment)
  (note priority status : option string) (service_writer_id : option uuid)
  (r : order.row) : pg.result order.row :=
  (note' <- pg.coalesce_into_not_null pg.ok note (order.note r) ;;
   priority' <- pg.coalesce_into (pg.varchar 50) priority (order.priority r) ;;
   status' <- pg.coalesce_into (pg.varchar 50) status (order.status r) ;;
   let writer := pg.COALESCE service_writer_id (order.service_writer_id r) in
   _ <- (if option_uuid_eqb writer (order.service_writer_id r) then pg.ok tt
         else pg.references "service_writer_id" (user_ids db) writer) ;;
   pg.ok
     {| order.id := order.id r;
        order.company_id := order.company_id r;
        order.location_id := order.location_id r;
        order.customer_id := order.customer_id r;
        order.vehicle_id := order.vehicle_id r;
        order.appointment_id := order.appointment_id r;
        order.order_number := order.order_number r;
        order.status := status';
        order.priority := priority';
        order.note := note';
        order.service_writer_id := writer;
        order.calculated_labor_cents := order.calculated_labor_cents r;
        order.calculated_parts_cents := order.calculated_parts_cents r;
        order.calculated_subcontracts_cents :=
          order.calculated_subcontracts_cents r;
        order.calculated_shop_supplies_cents :=
          order.calculated_shop_supplies_cents r;
        order.calculated_discount_cents := order.calculated_discount_cents r;
        order.calculated_tax_cents := order.calculated_tax_cents r;
        order.calculated_subtotal_cents := order.calculated_subtotal_cents r;
        order.calculated_total_cents := order.calculated_total_cents r;
        order.discount_percent := order.discount_percent r;
        order.tax_percent := order.tax_percent r;
        order.deferred := order.deferred r;
        order.deferred_date := order.deferred_date r;
        order.deferred_reason := order.deferred_reason r;
        order.metadata := order.metadata r;
        order.created_at := order.created_at r;
        order.updated_at := Some (CURRENT_TIMESTAMP env);
        order.completed_date := order.completed_date r;
        order.deleted := order.deleted r |})%pg.

(** ** The Stripe client *)

Module stripe.

Record metadata : Type := {
  company_id : option string;
  location_id : option string
}.

Record paymentIntent : Type := {
  id : string;
  status : string;
  amount : Z;
  metadata_ : metadata
}.

(** [await stripe.paymentIntents.retrieve(id)]: the intent, or a thrown
    error (an API error, a connection error, a timeout) with its message. *)
Inductive retrieved : Type :=
| resolved (intent : paymentIntent)
| thrown (message : string).

End stripe.

(** ** Handlers *)

(** app.put('/api/orders/:id') *)
Module PUT_api_orders_id.

Record body : Type := {
  note : option string;
  priority : option string;
  status : option string;
  service_writer_id : option string
}.

Definition handler (db : database) (env : environment) (id : string)
  (req : body) : database * response :=
  let result :=
    (writer <- pg.uuid_in_opt (service_writer_id req) ;;
     id' <- pg.uuid_in id ;;
     update_where (fun r => N.eqb (order.id r) id')
       (set_order db env (note req) (priority req) (status req) writer)
       (orders db))%pg in
  match result with
  | inl e => (db, query_failed e)
  | inr (rows, []) =>
      (with_orders db rows,
       respond 404 (error_json "Order not found"))
  | inr (rows, r :: _) =>
      (with_orders db rows,
       respond 200 (order_json r))
  end.

End PUT_api_orders_id.

(** app.post('/api/order-line-items') *)
Module POST_api_order_line_items.

Record body : Type := {
  company_id : option string;
  location_id : option string;
  order_id : option string;
  name : option string;
  category : option string;
  pricing : option string;
  quantity : option Z;
  fixed_price_cents : option Z;
  labor_hours : option Z;
  note : option string
}.

Definition handler (db : database) (env : environment) (req : body)
  : database * response :=
  if negb (js.truthy_string (order_id req))
     || negb (js.truthy_string (name req))
     || negb (js.truthy_string (location_id req))
  then
    (db, respond 400 (error_json "order_id, name, and location_id are required"))
  else
    match
      insert_order_line_item db env
        (Some (js.or_string (company_id req) (uuidv4 env)))
        (location_id req) (order_id req) (name req) (category req)
        (Some (js.or_string (pricing req) "fixed"))
        (quantity req)
        (Some (js.or_number (fixed_price_cents req) 0))
        (labor_hours req)
        (Some (js.or_string (note req) ""))
    with
    | inl e => (db, query_failed e)
    | inr (db', r) => (db', respond 201 (line_item_json r))
    end.

End POST_api_order_line_items.

(** app.put('/api/order-line-items/:id') *)
Module PUT_api_order_line_items_id.

Record body : Type := {
  name : option string;
  quantity : option Z;
  fixed_price_cents : option Z;
  labor_hours : option Z;
  note : option string
}.

Definition handler (db : database) (env : environment) (id : string)
  (req : body) : database * response :=
  let result :=
    (fixed_price <- pg.bigint_opt (fixed_price_cents req) ;;
     id' <- pg.uuid_in id ;;
     update_where (fun r => N.eqb (order_line_item.id r) id')
       (set_order_line_item env (name req) (quantity req) fixed_price
          (labor_hours req) (note req))
       (order_line_items db))%pg in
  match result with
  | inl e => (db, query_failed e)
  | inr (rows, []) =>
      (with_order_line_items db rows,
       respond 404 (error_json "Line item not found"))
  | inr (rows, r :: _) =>
      (with_order_line_items db rows,
       respond 200 (line_item_json r))
  end.

End PUT_api_order_line_items_id.

(** app.post('/api/transactions') *)
Module POST_api_transactions.

(** [status] is a key a caller may send; the handler does not read it. *)
Record body : Type := {
  company_id : option string;
  location_id : option string;
  order_id : option string;
  customer_id : option string;
  transaction_type : option string;
  amount_cents : option Z;
  payment_method : option string;
  note : option string;
  status : option string
}.

Definition handler (db : database) (env : environment) (req : body)
  : database * response :=
  if negb (js.truthy_string (order_id req))
     || negb (js.truthy_string (customer_id req))
     || negb (js.truthy_number (amount_cents req))
     || negb (js.truthy_string (location_id req))
  then
    (db, respond 400 (error_json
              "order_id, customer_id, amount_cents, and location_id are required"))
  else
    match
      insert_transaction db env
        (Some (js.or_string (company_id req) (uuidv4 env)))
        (location_id req) (order_id req) (customer_id req)
        (Some (js.or_string (transaction_type req) "payment"))
        (amount_cents req) (payment_method req)
        (Some "pending")
        (Some (js.or_string (note req) ""))
        None
    with
    | inl e => (db, query_failed e)
    | inr (db', r) =>
        (db', respond 201 (transaction_json r))
    end.

End POST_api_transactions.

(** app.put('/api/transactions/:id') *)
Module PUT_api_transactions_id.

Record body : Type := {
  status : option string;
  applied_date : option timestamp;
  note : option string
}.

Definition handler (db : database) (env : environment) (id : string)
  (req : body) : database * response :=
  let result :=
    (id' <- pg.uuid_in id ;;
     update_where (fun r => N.eqb (transaction.id r) id')
       (set_transaction env (status req) (applied_date req) (note req))
       (transactions db))%pg in
  match result with
  | inl e => (db, query_failed e)
  | inr (rows, []) =>
      (with_transactions db rows,
       respond 404 (error_json "Transaction not found"))
  | inr (rows, r :: _) =>
      (with_transactions db rows,
       respond 200 (transaction_json r))
  end.

End PUT_api_transactions_id.

(** app.post('/api/payments/confirm'); [retrieved] is what
    [stripe.paymentIntents.retrieve(payment_intent_id)] gives this call.
    The query runs inside the [try]: its failure is answered like the
    gateway's. *)
Module POST_api_payments_confirm.

Record body : Type := {
  payment_intent_id : option string;
  order_id : option string;
  customer_id : option string;
  location_id : option string
}.

Definition handler (db : database) (env : environment)
  (retrieved : stripe.retrieved) (req : body) : database * response :=
  if negb (js.truthy_string (payment_intent_id req))
     || negb (js.truthy_string (order_id req))
     || negb (js.truthy_string (customer_id req))
  then
    (db, respond 400 (error_json
              "payment_intent_id, order_id, and customer_id are required"))
  else
    match retrieved with
    | stripe.thrown message =>
        (db, respond 500 (gateway_error_json message))
    | stripe.resolved paymentIntent =>
        if negb (stripe.status paymentIntent =? "succeeded")%string then
          (db, respond 400 (error_json ("Payment not successful. Status: "
                                      ++ stripe.status paymentIntent)))
        else
          match
            insert_transaction db env
              (Some (js.or_string
                       (stripe.company_id (stripe.metadata_ paymentIntent))
                       "default"))
              (js.or_else (location_id req)
                 (stripe.location_id (stripe.metadata_ paymentIntent)))
              (order_id req) (customer_id req)
              (Some "payment")
              (Some (stripe.amount paymentIntent))
              (Some "stripe")
              (Some "paid")
              None
              (Some (stripe.id paymentIntent))
          with
          | inl e => (db, respond 500 (query_error_json e))
          | inr (db', r) =>
              (db', respond 200 (confirm_json true r
                                 (stripe.status paymentIntent)
                                 (stripe.amount paymentIntent)))
          end
    end.

End POST_api_payments_confirm.

(** ** The server as a transition system *)

Inductive request : Type :=
| PUT_order (id : string) (req : PUT_api_orders_id.body)
| POST_order_line_item (req : POST_api_order_line_items.body)
| PUT_order_line_item (id : string) (req : PUT_api_order_line_items_id.body)
| POST_transaction (req : POST_api_transactions.body)
| PUT_transaction (id : string) (req : PUT_api_transactions_id.body)
| POST_payment_confirm (retrieved : stripe.retrieved)
    (req : POST_api_payments_confirm.body).

Definition handle (db : database) (env : environment) (req : request)
  : database * response :=
  match req with
  | PUT_order id b => PUT_api_orders_id.handler db env id b
  | POST_order_line_item b => POST_api_order_line_items.handler db env b
  | PUT_order_line_item id b => PUT_api_order_line_items_id.handler db env id b
  | POST_transaction b => POST_api_transactions.handler db env b
  | PUT_transaction id b => PUT_api_transactions_id.handler db env id b
  | POST_payment_confirm g b => POST_api_payments_confirm.handler db env g b
  end.

(** The database after a sequence of requests, each with its environment. *)
Fixpoint run (db : database) (calls : list (environment * request))
  : database :=
  match calls with
  | [] => db
  | (env, req) :: rest => run (fst (handle db env req)) rest
  end.

(** ** The ledger core of the specification

    [server.js] holds no pricing, rollup or balance code: the tables carry
    the columns only. The operations below follow the specification. *)

(** Modelled from the spec: the typed outcome of the pricing and rollup
    operations, which the repository does not contain ("every operation
    returns a typed outcome"; [InvalidLineItem] is the one error kind of
    sections 4.2 and 4.3). *)
Inductive outcome (A : Type) : Type :=
| Ok (a : A)
| InvalidLineItem.

Arguments Ok {A} a.
Arguments InvalidLineItem {A}.

(** Modelled from the spec: the sequencing of typed outcomes, the first
    error being the result. *)
Definition and_then {A B : Type} (m : outcome A) (k : A -> outcome B)
  : outcome B :=
  match m with
  | Ok a => k a
  | InvalidLineItem => InvalidLineItem
  end.

(** Modelled from the spec: [apply_percent(base_cents, percent)] of the Money
    type (section 4.1), absent from the repository. The percent counts
    hundredths of a percent, as the NUMERIC(5,2) columns hold it; the result
    is rounded half up to the nearest cent. *)
Definition apply_percent (base_cents percent : Z) : Z :=
  (base_cents * percent + 5000) / 10000.

(** Modelled from the spec: the pricing mode of a LineItem (section 3), as
    the Line Item Pricing Engine takes it (section 4.2); the engine is
    absent from the repository. *)
Inductive PricingMode : Type := FixedPrice | LaborRate | PartsCost.

(** Modelled from the spec: the category tag of a line item (section 4.3,
    step 1). *)
Inductive Category : Type := Labor | Parts | Subcontract | ShopSupply.

(** Modelled from the spec: a discount or a tax, "percent or fixed cents,
    mutually exclusive" (section 3). *)
Inductive Adjustment : Type :=
| percent (hundredths : Z)
| cents (amount : Z).

(** Modelled from the spec: the fields of a LineItem (section 3) with the
    category tag and the explicit [taxable] input the engine accepts
    (section 4.2). Quantities and hours count hundredths, as the
    NUMERIC(10,2) columns hold them. *)
Record LineItem : Type := {
  pricing_mode : PricingMode;
  category_tag : Category;
  item_quantity : Z;
  unit_rate_cents : Z;
  item_labor_hours : Z;
  item_fixed_price_cents : Z;
  discount : Adjustment;
  tax : Adjustment;
  taxable : bool;
  item_hidden : bool
}.

(** Modelled from the spec: the amount of a discount or tax on a base, the
    cents as given or [apply_percent] of the base (section 4.2). *)
Definition adjustment_of (a : Adjustment) (base_cents : Z) : Z :=
  match a with
  | percent p => apply_percent base_cents p
  | cents c => c
  end.

(** Modelled from the spec: the base of a line item (section 4.2), absent
    from the repository: the fixed price, or rate times quantity, where
    LaborRate takes the labor hours as quantity. The product with a quantity
    in hundredths is brought back to cents with the Money type's rounding;
    a negative quantity or base is [InvalidLineItem]. *)
Definition line_base (item : LineItem) : outcome Z :=
  let quantity :=
    match pricing_mode item with
    | LaborRate => item_labor_hours item
    | _ => item_quantity item
    end in
  let base :=
    match pricing_mode item with
    | FixedPrice => item_fixed_price_cents item
    | _ => (unit_rate_cents item * quantity + 50) / 100
    end in
  if (quantity <? 0) || (base <? 0) then InvalidLineItem else Ok base.

(** Modelled from the spec: the post-discount amount of a line item
    (section 4.2), absent from the repository: the base less the discount,
    floored at zero. *)
Definition line_post_discount (item : LineItem) : outcome Z :=
  and_then (line_base item) (fun base =>
    Ok (Z.max 0 (base - adjustment_of (discount item) base))).

(** Modelled from the spec: the tax of a line item (section 4.2), absent
    from the repository: computed on the post-discount amount, none when the
    item is not taxable. *)
Definition line_tax (item : LineItem) : outcome Z :=
  and_then (line_post_discount item) (fun post_discount =>
    Ok (if taxable item then adjustment_of (tax item) post_discount else 0)).

(** Modelled from the spec: [compute_line_total(item) -> cents] (section
    4.2), absent from the repository. *)
Definition compute_line_total (item : LineItem) : outcome Z :=
  and_then (line_post_discount item) (fun post_discount =>
  and_then (line_tax item) (fun tax_amount =>
    Ok (post_discount + tax_amount))).

(** Modelled from the spec: the OrderTotals of the Order Rollup Aggregator
    (section 4.3), one field per calculated_* column of ["order"]. *)
Record OrderTotals : Type := {
  labor_cents : Z;
  parts_cents : Z;
  subcontracts_cents : Z;
  shop_supplies_cents : Z;
  discount_cents : Z;
  tax_cents : Z;
  subtotal_cents : Z;
  total_cents : Z
}.

(** Modelled from the spec: equality of category tags. *)
Definition Category_eqb (a b : Category) : bool :=
  match a, b with
  | Labor, Labor | Parts, Parts | Subcontract, Subcontract
  | ShopSupply, ShopSupply => true
  | _, _ => false
  end.

(** Modelled from the spec: the sum of [amount] over line items, or the
    first error (sections 4.2 and 4.3). *)
Fixpoint sum_outcome (amount : LineItem -> outcome Z) (items : list LineItem)
  : outcome Z :=
  match items with
  | [] => Ok 0
  | item :: rest =>
      and_then (amount item) (fun a =>
      and_then (sum_outcome amount rest) (fun s => Ok (a + s)))
  end.

(** Modelled from the spec: [recompute_order_totals(order, line_items)]
    (section 4.3, steps 1 to 5), absent from the repository. The order gives
    its discount_percent and tax_percent; hidden items are left out; the tax
    total is the order tax plus the line taxes. *)
Definition recompute_order_totals (order_discount_percent order_tax_percent : Z)
  (line_items : list LineItem) : outcome OrderTotals :=
  let visible := filter (fun item => negb (item_hidden item)) line_items in
  let of_category c :=
    sum_outcome line_post_discount
      (filter (fun item => Category_eqb (category_tag item) c) visible) in
  and_then (of_category Labor) (fun labor =>
  and_then (of_category Parts) (fun parts =>
  and_then (of_category Subcontract) (fun subcontracts =>
  and_then (of_category ShopSupply) (fun shop_supplies =>
  and_then (sum_outcome line_post_discount visible) (fun subtotal =>
  and_then (sum_outcome line_tax visible) (fun line_taxes =>
    let order_discount :=
      Z.max 0 (Z.min subtotal (apply_percent subtotal order_discount_percent)) in
    let discounted := subtotal - order_discount in
    let order_tax := apply_percent discounted order_tax_percent in
    Ok {| labor_cents := labor;
          parts_cents := parts;
          subcontracts_cents := subcontracts;
          shop_supplies_cents := shop_supplies;
          discount_cents := order_discount;
          tax_cents := order_tax + line_taxes;
          subtotal_cents := subtotal;
          total_cents := discounted + order_tax + line_taxes |})))))).

(** *** The rollup over stored rows *)

Definition or_zero (v : option Z) : Z :=
  match v with
  | Some z => z
  | None => 0
  end.

Definition is_true (v : option bool) : bool :=
  match v with
  | Some b => b
  | None => false
  end.

(** Modelled from the spec: how a stored [order_line_item] row is read as
    the pricing engine's LineItem; the repository has no such reader. The
    pricing column names the mode (['fixed'] is the value the creation
    endpoint defaults to; anything unrecognised is read as fixed price), the
    category column names the category after the calculated_* columns of
    ["order"], a non-zero cents column takes precedence over the percent,
    NULL numbers are read as 0 and [taxable] as the service table's default
    [true]. *)
Definition line_item_of_row (r : order_line_item.row) : LineItem :=
  let mode :=
    match order_line_item.pricing r with
    | Some p =>
        if (p =? "labor")%string then LaborRate
        else if (p =? "parts")%string then PartsCost
        else FixedPrice
    | None => FixedPrice
    end in
  let tag :=
    match order_line_item.category r with
    | Some c =>
        if (c =? "parts")%string then Parts
        else if (c =? "subcontracts")%string then Subcontract
        else if (c =? "shop_supplies")%string then ShopSupply
        else Labor
    | None => Labor
    end in
  let adjustment (amount hundredths : option Z) :=
    if or_zero amount =? 0 then percent (or_zero hundredths)
    else cents (or_zero amount) in
  {| pricing_mode := mode;
     category_tag := tag;
     item_quantity := or_zero (order_line_item.quantity r);
     unit_rate_cents :=
       match mode with
       | LaborRate => or_zero (order_line_item.labor_rate_cents r)
       | _ => or_zero (order_line_item.parts_cost_cents r)
       end;
     item_labor_hours := or_zero (order_line_item.labor_hours r);
     item_fixed_price_cents := or_zero (order_line_item.fixed_price_cents r);
     discount := adjustment (order_line_item.discount_cents r)
                   (order_line_item.discount_percent r);
     tax := adjustment (order_line_item.tax_cents r)
              (order_line_item.tax_percent r);
     taxable := true;
     item_hidden := is_true (order_line_item.hidden r) |}.

(** SELECT * FROM order_line_item WHERE order_id = $1 *)
Definition line_items_of (db : database) (order_id : uuid)
  : list order_line_item.row :=
  filter (fun r => N.eqb (order_line_item.order_id r) order_id)
    (order_line_items db).

(** Modelled from the spec: the rollup of an order of the database over its
    current line items (section 4.3), absent from the repository. *)
Definition rollup_of (db : database) (o : order.row) : outcome OrderTotals :=
  recompute_order_totals
    (or_zero (order.discount_percent o)) (or_zero (order.tax_percent o))
    (map line_item_of_row (line_items_of db (order.id o))).

(** Modelled from the spec: writing the OrderTotals into the calculated_*
    columns of the order row, the single point at which the computed fields
    are set (sections 3 and 4.3); the repository has no such write. *)
Definition store_order_totals (t : OrderTotals) (o : order.row) : order.row :=
  {| order.id := order.id o;
     order.company_id := order.company_id o;
     order.location_id := order.location_id o;
     order.customer_id := order.customer_id o;
     order.vehicle_id := order.vehicle_id o;
     order.appointment_id := order.appointment_id o;
     order.order_number := order.order_number o;
     order.status := order.status o;
     order.priority := order.priority o;
     order.note := order.note o;
     order.service_writer_id := order.service_writer_id o;
     order.calculated_labor_cents := Some (labor_cents t);
     order.calculated_parts_cents := Some (parts_cents t);
     order.calculated_subcontracts_cents := Some (subcontracts_cents t);
     order.calculated_shop_supplies_cents := Some (shop_supplies_cents t);
     order.calculated_discount_cents := Some (discount_cents t);
     order.calculated_tax_cents := Some (tax_cents t);
     order.calculated_subtotal_cents := Some (subtotal_cents t);
     order.calculated_total_cents := Some (total_cents t);
     order.discount_percent := order.discount_percent o;
     order.tax_percent := order.tax_percent o;
     order.deferred := order.deferred o;
     order.deferred_date := order.deferred_date o;
     order.deferred_reason := order.deferred_reason o;
     order.metadata := order.metadata o;
     order.created_at := order.created_at o;
     order.updated_at := order.updated_at o;
     order.completed_date := order.completed_date o;
     order.deleted := order.deleted o |}.

(** Modelled from the spec: one rollup pass (section 4.3), absent from the
    repository: recompute from the order and its line items, store the
    result in the order row. *)
Definition rollup_pass (o : order.row) (line_items : list LineItem)
  : outcome (order.row * OrderTotals) :=
  and_then
    (recompute_order_totals (or_zero (order.discount_percent o))
       (or_zero (order.tax_percent o)) line_items)
    (fun t => Ok (store_order_totals t o, t)).

Definition option_Z_eqb (a b : option Z) : bool :=
  match a, b with
  | Some x, Some y => x =? y
  | None, None => true
  | _, _ => false
  end.

(** Modelled from the spec: the stored calculated_labor_cents,
    calculated_parts_cents, calculated_discount_cents, calculated_tax_cents
    and calculated_total_cents of an order against a rollup output
    (section 3). *)
Definition stored_totals_agree (o : order.row) (t : OrderTotals) : bool :=
  option_Z_eqb (order.calculated_labor_cents o) (Some (labor_cents t))
  && option_Z_eqb (order.calculated_parts_cents o) (Some (parts_cents t))
  && option_Z_eqb (order.calculated_discount_cents o) (Some (discount_cents t))
  && option_Z_eqb (order.calculated_tax_cents o) (Some (tax_cents t))
  && option_Z_eqb (order.calculated_total_cents o) (Some (total_cents t)).

(** Modelled from the spec: the stored computed fields of [o] are those of
    a rollup over the order's current line items (section 3). *)
Definition totals_current (db : database) (o : order.row) : bool :=
  match rollup_of db o with
  | Ok t => stored_totals_agree o t
  | InvalidLineItem => false
  end.

(** The stored computed fields of an order row, all eight. *)
Definition calculated_columns (o : order.row) : list (option Z) :=
  [ order.calculated_labor_cents o;
    order.calculated_parts_cents o;
    order.calculated_subcontracts_cents o;
    order.calculated_shop_supplies_cents o;
    order.calculated_discount_cents o;
    order.calculated_tax_cents o;
    order.calculated_subtotal_cents o;
    order.calculated_total_cents o ].

(** *** The balance of an order against its transactions *)

(** Modelled from the spec: a transaction of status succeeded, of a given
    kind (section 3; the kinds of the balance are payment and refund). *)
Definition is_succeeded (t : transaction.row) : bool :=
  match transaction.status t with
  | Some s => (s =? "succeeded")%string
  | None => false
  end.

Definition is_kind (kind : string) (t : transaction.row) : bool :=
  (transaction.transaction_type t =? kind)%string.

(** Modelled from the spec: the result of [balance] (section 4.4), with
    the credit_cents field of the reconciliation invariant. *)
Record Balance : Type := {
  balance_total_cents : Z;
  paid_cents : Z;
  refunded_cents : Z;
  due_cents : Z;
  credit_cents : Z
}.

(** Modelled from the spec: one transaction added to the running
    (paid, refunded) pair (section 4.4). *)
Definition tally (acc : Z * Z) (t : transaction.row) : Z * Z :=
  if is_succeeded t then
    if is_kind "payment" t then
      (fst acc + transaction.amount_cents t, snd acc)
    else if is_kind "refund" t then
      (fst acc, snd acc + transaction.amount_cents t)
    else acc
  else acc.

(** Modelled from the spec: [balance(order, transactions)] of the Ledger
    Reconciliation Engine (section 4.4), absent from the repository:
    one pass over the transactions; what is paid beyond the total is the
    credit, never a negative amount due. *)
Definition balance (total_cents : Z) (transactions : list transaction.row)
  : Balance :=
  let sums := fold_left tally transactions (0, 0) in
  let open_amount := total_cents - fst sums + snd sums in
  {| balance_total_cents := total_cents;
     paid_cents := fst sums;
     refunded_cents := snd sums;
     due_cents := Z.max 0 open_amount;
     credit_cents := Z.max 0 (- open_amount) |}.

(** Modelled from the spec: the succeeded payments and the succeeded
    refunds (section 4.4). *)
Definition succeeded_payment (t : transaction.row) : bool :=
  is_succeeded t && is_kind "payment" t.

Definition succeeded_refund (t : transaction.row) : bool :=
  is_succeeded t && is_kind "refund" t.

(** The sum of the amounts of the transactions [keep] selects. *)
Definition sum_amounts (keep : transaction.row -> bool)
  (transactions : list transaction.row) : Z :=
  fold_right Z.add 0 (map transaction.amount_cents (filter keep transactions)).

(** SELECT * FROM "transaction" WHERE order_id = $1 *)
Definition transactions_of (db : database) (order_id : uuid)
  : list transaction.row :=
  filter (fun t => N.eqb (transaction.order_id t) order_id) (transactions db).

(** Modelled from the spec: the ceiling [sum(active authorizations)] of an
    order (section 4.4). The ["authorization"] table has no status column:
    every authorization row of the order counts. *)
Definition authorized_ceiling (db : database) (order_id : uuid) : Z :=
  fold_right Z.add 0
    (map authorization.authorized_cost_cents
       (filter (fun a => N.eqb (authorization.order_id a) order_id)
          (authorizations db))).

(** Modelled from the spec: the running paid total of an order after a
    payment of [amount_cents] (section 4.4). *)
Definition running_paid_total (db : database) (order_id : uuid)
  (amount_cents : Z) : Z :=
  paid_cents (balance 0 (transactions_of db order_id)) + amount_cents.

(** The stored transactions carrying a payment reference. *)
Definition with_reference (reference : string) (rows : list transaction.row)
  : list transaction.row :=
  filter (fun t =>
            match transaction.payment_reference t with
            | Some s => (s =? reference)%string
            | None => false
            end) rows.

(** What no statement of the server writes in a stored transaction. *)
Definition ledger_entry (t : transaction.row)
  : uuid * uuid * uuid * string * Z * option string :=
  (transaction.id t, transaction.order_id t, transaction.customer_id t,
   transaction.transaction_type t, transaction.amount_cents t,
   transaction.payment_reference t).

(** The columns of a line item the update statement does not assign: all
    but name, quantity, fixed_price_cents, labor_hours, note, updated_at. *)
Definition unassigned_columns (r : order_line_item.row) :=
  (order_line_item.id r, order_line_item.company_id r,
   order_line_item.location_id r, order_line_item.order_id r,
   order_line_item.source_service_id r, order_line_item.description r,
   order_line_item.category r, order_line_item.line_item_order r,
   order_line_item.pricing r, order_line_item.ordinal r,
   order_line_item.labor_rate_cents r, order_line_item.parts_cost_cents r,
   order_line_item.lump_sum r,
   (order_line_item.discount_cents r, order_line_item.discount_percent r,
    order_line_item.discount_value_type r, order_line_item.tax_cents r,
    order_line_item.tax_percent r, order_line_item.tax_value_type r,
    order_line_item.total_cents r, order_line_item.status r,
    order_line_item.hidden r, order_line_item.recommended r,
    order_line_item.revived r, order_line_item.revived_from_id r,
    order_line_item.metadata r, order_line_item.created_at r)).

(** The identity of an order with its stored computed fields. *)
Definition computed_fields (o : order.row) : uuid * list (option Z) :=
  (order.id o, calculated_columns o).

(** ** A small shop: one customer, one order, one authorization *)

(** The uuid a text denotes (0 for a text that is none). *)
Definition uuid_of (text : string) : uuid :=
  match pg.uuid_in text with
  | inr u => u
  | inl _ => 0%N
  end.

Definition shop_company : string := "44444444-4444-4444-4444-444444444444".
Definition shop_location : string := "33333333-3333-3333-3333-333333333333".
Definition shop_customer : string := "22222222-2222-2222-2222-222222222222".
Definition shop_order : string := "11111111-1111-1111-1111-111111111111".
Definition shop_line_item : string := "55555555-5555-5555-5555-555555555555".
Definition shop_payment : string := "66666666-6666-6666-6666-666666666666".

(** The order, its computed fields as given. *)
Definition order_with_totals (labor subtotal total : Z) : order.row :=
  {| order.id := uuid_of shop_order;
     order.company_id := uuid_of shop_company;
     order.location_id := uuid_of shop_location;
     order.customer_id := uuid_of shop_customer;
     order.vehicle_id := None;
     order.appointment_id := None;
     order.order_number := Some "1001";
     order.status := Some "open";
     order.priority := Some "normal";
     order.note := "";
     order.service_writer_id := None;
     order.calculated_labor_cents := Some labor;
     order.calculated_parts_cents := Some 0;
     order.calculated_subcontracts_cents := Some 0;
     order.calculated_shop_supplies_cents := Some 0;
     order.calculated_discount_cents := Some 0;
     order.calculated_tax_cents := Some 0;
     order.calculated_subtotal_cents := Some subtotal;
     order.calculated_total_cents := Some total;
     order.discount_percent := Some 0;
     order.tax_percent := Some 0;
     order.deferred := Some false;
     order.deferred_date := None;
     order.deferred_reason := None;
     order.metadata := None;
     order.created_at := Some 1000;
     order.updated_at := Some 1000;
     order.completed_date := None;
     order.deleted := Some false |}.

(** An approved, visible fixed-price labor item of $100 on the order. *)
Definition labor_item : order_line_item.row :=
  {| order_line_item.id := uuid_of shop_line_item;
     order_line_item.company_id := uuid_of shop_company;
     order_line_item.location_id := uuid_of shop_location;
     order_line_item.order_id := uuid_of shop_order;
     order_line_item.source_service_id := None;
     order_line_item.name := "Winterize engine";
     order_line_item.description := None;
     order_line_item.category := Some "labor";
     order_line_item.line_item_order := None;
     order_line_item.pricing := Some "fixed";
     order_line_item.ordinal := Some 0;
     order_line_item.labor_rate_cents := None;
     order_line_item.labor_hours := None;
     order_line_item.parts_cost_cents := None;
     order_line_item.quantity := Some 100;
     order_line_item.fixed_price_cents := Some 10000;
     order_line_item.lump_sum := Some false;
     order_line_item.discount_cents := Some 0;
     order_line_item.discount_percent := Some 0;
     order_line_item.discount_value_type := None;
     order_line_item.tax_cents := Some 0;
     order_line_item.tax_percent := Some 0;
     order_line_item.tax_value_type := None;
     order_line_item.total_cents := Some 10000;
     order_line_item.status := Some "approved";
     order_line_item.hidden := Some false;
     order_line_item.recommended := Some false;
     order_line_item.revived := Some false;
     order_line_item.revived_from_id := None;
     order_line_item.note := "";
     order_line_item.metadata := None;
     order_line_item.created_at := Some 1000;
     order_line_item.updated_at := Some 1000 |}.

(** A succeeded payment of $100 on the order. *)
Definition succeeded_payment_row : transaction.row :=
  {| transaction.id := uuid_of shop_payment;
     transaction.company_id := uuid_of shop_company;
     transaction.location_id := uuid_of shop_location;
     transaction.order_id := uuid_of shop_order;
     transaction.customer_id := uuid_of shop_customer;
     transaction.transaction_type := "payment";
     transaction.status := Some "succeeded";
     transaction.amount_cents := 10000;
     transaction.payment_method := Some "cash";
     transaction.payment_reference := None;
     transaction.applied_date := None;
     transaction.due_date := None;
     transaction.note := Some "";
     transaction.metadata := None;
     transaction.created_at := Some 1000;
     transaction.updated_at := Some 1000 |}.

(** The customer's pre-approved ceiling of $200 for the order. *)
Definition ceiling_200 : authorization.row :=
  {| authorization.id := uuid_of "77777777-7777-7777-7777-777777777777";
     authorization.company_id := uuid_of shop_company;
     authorization.location_id := uuid_of shop_location;
     authorization.order_id := uuid_of shop_order;
     authorization.customer_id := uuid_of shop_customer;
     authorization.authorized_cost_cents := 20000;
     authorization.method := "signature";
     authorization.date := 1000;
     authorization.service_authorization_reset := Some false;
     authorization.service_writer_id := None;
     authorization.note := None;
     authorization.metadata := None;
     authorization.created_at := Some 1000;
     authorization.updated_at := Some 1000 |}.

(** The shop with the order and its authorization, nothing else stored. *)
Definition shop : database :=
  {| customer_ids := [uuid_of shop_customer];
     user_ids := [];
     orders := [order_with_totals 0 0 0];
     order_line_items := [];
     transactions := [];
     authorizations := [ceiling_200] |}.

(** The shop with the $100 labor item on the order and the order's computed
    fields as a rollup over that item gives them. *)
Definition shop_rolled_up : database :=
  {| customer_ids := [uuid_of shop_customer];
     user_ids := [];
     orders := [order_with_totals 10000 10000 10000];
     order_line_items := [labor_item];
     transactions := [];
     authorizations := [ceiling_200] |}.

(** The shop with the succeeded $100 payment in the ledger. *)
Definition shop_paid : database :=
  with_transactions shop [succeeded_payment_row].

(** The environment of a call: the new row's id and the clock. *)
Definition at_time (new_id : string) (now : timestamp) : environment :=
  {| gen_random_uuid := uuid_of new_id;
     uuidv4 := "88888888-8888-4888-8888-888888888888";
     CURRENT_TIMESTAMP := now |}.

(** A payment intent of $100 the gateway reports with [status]; its
    metadata names the company. *)
Definition intent_100 (status : string) : stripe.paymentIntent :=
  {| stripe.id := "pi_3NqT1";
     stripe.status := status;
     stripe.amount := 10000;
     stripe.metadata_ :=
       {| stripe.company_id := Some shop_company;
          stripe.location_id := None |} |}.

(** The client's confirmation of that intent for the order. *)
Definition confirm_intent_100 : POST_api_payments_confirm.body :=
  {| POST_api_payments_confirm.payment_intent_id := Some "pi_3NqT1";
     POST_api_payments_confirm.order_id := Some shop_order;
     POST_api_payments_confirm.customer_id := Some shop_customer;
     POST_api_payments_confirm.location_id := Some shop_location |}.

(** A payment of $250 on the order; the body can carry nothing else. *)
Definition payment_250 : POST_api_transactions.body :=
  {| POST_api_transactions.company_id := Some shop_company;
     POST_api_transactions.location_id := Some shop_location;
     POST_api_transactions.order_id := Some shop_order;
     POST_api_transactions.customer_id := Some shop_customer;
     POST_api_transactions.transaction_type := Some "payment";
     POST_api_transactions.amount_cents := Some 25000;
     POST_api_transactions.payment_method := Some "card";
     POST_api_transactions.note := None;
     POST_api_transactions.status := None |}.

(** A line item of quantity -1.00 and price -$50. *)
Definition negative_item : POST_api_order_line_items.body :=
  {| POST_api_order_line_items.company_id := Some shop_company;
     POST_api_order_line_items.location_id := Some shop_location;
     POST_api_order_line_items.order_id := Some shop_order;
     POST_api_order_line_items.name := Some "Impeller";
     POST_api_order_line_items.category := Some "parts";
     POST_api_order_line_items.pricing := None;
     POST_api_order_line_items.quantity := Some (-100);
     POST_api_order_line_items.fixed_price_cents := Some (-5000);
     POST_api_order_line_items.labor_hours := None;
     POST_api_order_line_items.note := None |}.

(** The price of a line item set to $250, nothing else sent. *)
Definition reprice_250 : PUT_api_order_line_items_id.body :=
  {| PUT_api_order_line_items_id.name := None;
     PUT_api_order_line_items_id.quantity := None;
     PUT_api_order_line_items_id.fixed_price_cents := Some 25000;
     PUT_api_order_line_items_id.labor_hours := None;
     PUT_api_order_line_items_id.note := None |}.

(** A transaction's status set, nothing else sent. *)
Definition set_status (status : string) : PUT_api_transactions_id.body :=
  {| PUT_api_transactions_id.status := Some status;
     PUT_api_transactions_id.applied_date := None;
     PUT_api_transactions_id.note := None |}.

(** *** Scenarios *)

(** The client confirms the succeeded intent; the stored transaction is then
    set to 'succeeded'. *)
Definition shop_confirmed : database :=
  run shop
    [ (at_time "aaaaaaaa-0000-4000-8000-000000000001" 2000,
       POST_payment_confirm (stripe.resolved (intent_100 "succeeded"))
         confirm_intent_100);
      (at_time "aaaaaaaa-0000-4000-8000-000000000002" 2001,
       PUT_transaction "aaaaaaaa-0000-4000-8000-000000000001"
         (set_status "succeeded")) ].

(** The client confirms the same intent once more. *)
Definition second_confirmation : database * response :=
  POST_api_payments_confirm.handler shop_confirmed
    (at_time "aaaaaaaa-0000-4000-8000-000000000003" 2002)
    (stripe.resolved (intent_100 "succeeded")) confirm_intent_100.

(** The gateway call of a confirmation times out. *)
Definition timed_out_confirmation : database * response :=
  POST_api_payments_confirm.handler shop
    (at_time "aaaaaaaa-0000-4000-8000-000000000001" 2000)
    (stripe.thrown "Request timed out") confirm_intent_100.

(** The gateway answers that the payment is still processing. *)
Definition processing_confirmation : database * response :=
  POST_api_payments_confirm.handler shop
    (at_time "aaaaaaaa-0000-4000-8000-000000000001" 2000)
    (stripe.resolved (intent_100 "processing")) confirm_intent_100.

(** The $250 payment is recorded against the $200 ceiling. *)
Definition over_ceiling_payment : database * response :=
  POST_api_transactions.handler shop
    (at_time "aaaaaaaa-0000-4000-8000-000000000001" 2000) payment_250.

(** The line item of negative quantity and price is posted. *)
Definition negative_item_posted : database * response :=
  POST_api_order_line_items.handler shop
    (at_time "aaaaaaaa-0000-4000-8000-000000000001" 2000) negative_item.

(** The $100 labor item of the rolled-up shop is repriced to $250. *)
Definition repriced : database * response :=
  PUT_api_order_line_items_id.handler shop_rolled_up
    (at_time "aaaaaaaa-0000-4000-8000-000000000001" 2000)
    shop_line_item reprice_250.

(** A second item is added to the order of the rolled-up shop. *)
Definition item_added : database * response :=
  POST_api_order_line_items.handler shop_rolled_up
    (at_time "aaaaaaaa-0000-4000-8000-000000000001" 2000)
    {| POST_api_order_line_items.company_id := Some shop_company;
       POST_api_order_line_items.location_id := Some shop_location;
       POST_api_order_line_items.order_id := Some shop_order;
       POST_api_order_line_items.name := Some "Haul out";
       POST_api_order_line_items.category := Some "labor";
       POST_api_order_line_items.pricing := Some "fixed";
       POST_api_order_line_items.quantity := Some 100;
       POST_api_order_line_items.fixed_price_cents := Some 5000;
       POST_api_order_line_items.labor_hours := None;
       POST_api_order_line_items.note := None |}.

(** The succeeded $100 payment is voided, then set back to pending. *)
Definition payment_voided : database * response :=
  PUT_api_transactions_id.handler shop_paid
    (at_time "aaaaaaaa-0000-4000-8000-000000000001" 2000)
    shop_payment (set_status "voided").

Definition payment_reopened : database * response :=
  PUT_api_transactions_id.handler (fst payment_voided)
    (at_time "aaaaaaaa-0000-4000-8000-000000000002" 2001)
    shop_payment (set_status "pending").

(** The same line-item request with another quantity, another number of
    labor hours. *)
Definition with_quantity (req : POST_api_order_line_items.body)
  (quantity : option Z) : POST_api_order_line_items.body :=
  {| POST_api_order_line_items.company_id :=
       POST_api_order_line_items.company_id req;
     POST_api_order_line_items.location_id :=
       POST_api_order_line_items.location_id req;
     POST_api_order_line_items.order_id :=
       POST_api_order_line_items.order_id req;
     POST_api_order_line_items.name := POST_api_order_line_items.name req;
     POST_api_order_line_items.category :=
       POST_api_order_line_items.category req;
     POST_api_order_line_items.pricing :=
       POST_api_order_line_items.pricing req;
     POST_api_order_line_items.quantity := quantity;
     POST_api_order_line_items.fixed_price_cents :=
       POST_api_order_line_items.fixed_price_cents req;
     POST_api_order_line_items.labor_hours :=
       POST_api_order_line_items.labor_hours req;
     POST_api_order_line_items.note := POST_api_order_line_items.note req |}.

Definition with_labor_hours (req : POST_api_order_line_items.body)
  (labor_hours : option Z) : POST_api_order_line_items.body :=
  {| POST_api_order_line_items.company_id :=
       POST_api_order_line_items.company_id req;
     POST_api_order_line_items.location_id :=
       POST_api_order_line_items.location_id req;
     POST_api_order_line_items.order_id :=
       POST_api_order_line_items.order_id req;
     POST_api_order_line_items.name := POST_api_order_line_items.name req;
     POST_api_order_line_items.category :=
       POST_api_order_line_items.category req;
     POST_api_order_line_items.pricing :=
       POST_api_order_line_items.pricing req;
     POST_api_order_line_items.quantity :=
       POST_api_order_line_items.quantity req;
     POST_api_order_line_items.fixed_price_cents :=
       POST_api_order_line_items.fixed_price_cents req;
     POST_api_order_line_items.labor_hours := labor_hours;
     POST_api_order_line_items.note := POST_api_order_line_items.note req |}.

(** ** Integrity of the stored tables *)

(** PRIMARY KEY of ["transaction"] and of [order_line_item]. *)
Definition unique_ids (db : database) : Prop :=
  NoDup (map transaction.id (transactions db))
  /\ NoDup (map order_line_item.id (order_line_items db)).

(** The REFERENCES clauses among the modelled tables: a transaction's order
    and customer, a line item's order, an order's customer and service
    writer. *)
Definition references_valid (db : database) : Prop :=
  Forall (fun t => In (transaction.order_id t) (map order.id (orders db))
                   /\ In (transaction.customer_id t) (customer_ids db))
    (transactions db)
  /\ Forall (fun r => In (order_line_item.order_id r)
                        (map order.id (orders db)))
       (order_line_items db)
  /\ Forall (fun o => In (order.customer_id o) (customer_ids db)
                      /\ match order.service_writer_id o with
                         | Some w => In w (user_ids db)
                         | None => True
                         end)
       (orders db).

(** The values the INSERT of the line-item creation endpoint leaves to the
    column defaults, among the columns no statement assigns afterwards. *)
Definition has_creation_defaults (r : order_line_item.row) : Prop :=
  order_line_item.source_service_id r = None
  /\ order_line_item.labor_rate_cents r = None
  /\ order_line_item.parts_cost_cents r = None
  /\ order_line_item.discount_cents r = Some 0
  /\ order_line_item.discount_percent r = Some 0
  /\ order_line_item.tax_cents r = Some 0
  /\ order_line_item.tax_percent r = Some 0
  /\ order_line_item.total_cents r = Some 0
  /\ order_line_item.status r = Some "pending"
  /\ order_line_item.hidden r = Some false.

(** The columns of an order the update statement does not assign: all but
    note, priority, status, service_writer_id and updated_at. *)
Definition order_unassigned_columns (o : order.row) :=
  (order.id o, order.company_id o, order.location_id o, order.customer_id o,
   order.vehicle_id o, order.appointment_id o, order.order_number o,
   calculated_columns o, order.discount_percent o, order.tax_percent o,
   (order.deferred o, order.deferred_date o, order.deferred_reason o,
    order.metadata o, order.created_at o, order.completed_date o,
    order.deleted o)).

(** A text field that is absent, null or empty; an amount that is absent,
    null or 0. *)
Definition missing_text (v : option string) : bool :=
  match v with
  | Some EmptyString | None => true
  | Some (String _ _) => false
  end.

Definition missing_amount (v : option Z) : bool :=
  match v with
  | Some 0 | None => true
  | Some _ => false
  end.

(** The same transaction request with another amount. *)
Definition with_amount (req : POST_api_transactions.body)
  (amount_cents : option Z) : POST_api_transactions.body :=
  {| POST_api_transactions.company_id := POST_api_transactions.company_id req;
     POST_api_transactions.location_id :=
       POST_api_transactions.location_id req;
     POST_api_transactions.order_id := POST_api_transactions.order_id req;
     POST_api_transactions.customer_id :=
       POST_api_transactions.customer_id req;
     POST_api_transactions.transaction_type :=
       POST_api_transactions.transaction_type req;
     POST_api_transactions.amount_cents := amount_cents;
     POST_api_transactions.payment_method :=
       POST_api_transactions.payment_method req;
     POST_api_transactions.note := POST_api_transactions.note req;
     POST_api_transactions.status := POST_api_transactions.status req |}.

(** ** Reading: SELECT, ORDER BY and the read endpoints *)

(** ORDER BY k: NULL sorts after every value; ORDER BY k DESC: the
    reverse, NULL first. [asc a b]: a row of key [a] may stand before a row
    of key [b]. *)
Definition asc (a b : option Z) : bool :=
  match a, b with
  | Some x, Some y => x <=? y
  | None, Some _ => false
  | _, None => true
  end.

Definition desc (a b : option Z) : bool := asc b a.

(** The results SELECT * FROM t WHERE [condition] ORDER BY ... may give: the
    rows of the table that meet the condition, each once, arranged so that
    no row stands before one that must precede it. The order among rows the
    ORDER BY does not tell apart, and every order without ORDER BY, is the
    server's choice. *)
Definition selected {R : Type} (may_precede : R -> R -> bool)
  (condition : R -> bool) (table result : list R) : Prop :=
  Permutation (filter condition table) result
  /\ StronglySorted (fun a b => may_precede a b = true) result.

(** One such result: the selected rows sorted by insertion, rows of equal
    rank in table order. *)
Fixpoint place {R : Type} (may_precede : R -> R -> bool) (r : R)
  (sorted : list R) : list R :=
  match sorted with
  | [] => [r]
  | s :: rest =>
      if may_precede r s then r :: sorted
      else s :: place may_precede r rest
  end.

Definition order_by {R : Type} (may_precede : R -> R -> bool)
  (rows : list R) : list R :=
  fold_right (place may_precede) [] rows.

(** ORDER BY ordinal; ORDER BY created_at DESC. *)
Definition by_ordinal (a b : order_line_item.row) : bool :=
  asc (order_line_item.ordinal a) (order_line_item.ordinal b).

Definition latest_first (a b : transaction.row) : bool :=
  desc (transaction.created_at a) (transaction.created_at b).

Inductive read_json : Type :=
| not_found_json (error : string)
| failed_query_json (e : pg.error)
| line_items_json (rows : list order_line_item.row)
| transactions_json (rows : list transaction.row)
| order_details_json (o : order.row) (line_items : list order_line_item.row)
| revenue_json (total_revenue_cents transaction_count : Z).

(** app.get('/api/orders/:id/line-items'): [result] is an answer the
    endpoint may give. *)
Definition GET_api_orders_id_line_items (db : database) (id : string)
  (result : nat * read_json) : Prop :=
  match pg.uuid_in id with
  | inl e => result = (500%nat, failed_query_json e)
  | inr id' =>
      exists rows,
        selected
          by_ordinal (fun r => N.eqb (order_line_item.order_id r) id')
          (order_line_items db) rows
        /\ result = (200%nat, line_items_json rows)
  end.

(** app.get('/api/orders/:id/payments') *)
Definition GET_api_orders_id_payments (db : database) (id : string)
  (result : nat * read_json) : Prop :=
  match pg.uuid_in id with
  | inl e => result = (500%nat, failed_query_json e)
  | inr id' =>
      exists rows,
        selected
          latest_first (fun t => N.eqb (transaction.order_id t) id')
          (transactions db) rows
        /\ result = (200%nat, transactions_json rows)
  end.

(** WHERE id = $1 AND deleted = false: a NULL flag does not qualify. *)
Definition live_order (id' : uuid) (o : order.row) : bool :=
  N.eqb (order.id o) id'
  && match order.deleted o with
     | Some false => true
     | _ => false
     end.

(** app.get('/api/orders/:id'): the order that is not deleted, with its line
    items; the first row of the first query is answered. *)
Definition GET_api_orders_id (db : database) (id : string)
  (result : nat * read_json) : Prop :=
  match pg.uuid_in id with
  | inl e => result = (500%nat, failed_query_json e)
  | inr id' =>
      exists found,
        selected (fun _ _ => true) (live_order id') (orders db) found
        /\ match found with
           | [] => result = (404%nat, not_found_json "Order not found")
           | o :: _ =>
               exists rows,
                 selected
                   by_ordinal
                   (fun r => N.eqb (order_line_item.order_id r) id')
                   (order_line_items db) rows
                 /\ result = (200%nat, order_details_json o rows)
           end
  end.

(** *** The revenue report *)

(** SQL's three truth values, NULL being [None]. *)
Definition sql_and (a b : option bool) : option bool :=
  match a, b with
  | Some false, _ | _, Some false => Some false
  | Some true, Some true => Some true
  | _, _ => None
  end.

Definition sql_or (a b : option bool) : option bool :=
  match a, b with
  | Some true, _ | _, Some true => Some true
  | Some false, Some false => Some false
  | _, _ => None
  end.

Definition sql_eq_text (a : option string) (b : string) : option bool :=
  option_map (fun s => (s =? b)%string) a.

Definition sql_ge (a : option timestamp) (b : timestamp) : option bool :=
  option_map (fun x => b <=? x) a.

Definition sql_le (a : option timestamp) (b : timestamp) : option bool :=
  option_map (fun x => x <=? b) a.

(** AND [clause] appended to the text when the filter is given. *)
Definition and_if_given {A : Type} (filter : option A)
  (clause : A -> option bool) (condition : option bool) : option bool :=
  match filter with
  | Some v => sql_and condition (clause v)
  | None => condition
  end.

(** The WHERE clause of the report as the server reads its text:
    [t.status = 'completed' OR t.status = 'paid'] with [AND ...] appended
    for each filter given; AND binds tighter than OR, so the appended
    conditions join the second alternative. *)
Definition revenue_where (start_date end_date : option timestamp)
  (location_id : option uuid) (t : transaction.row) : option bool :=
  sql_or (sql_eq_text (transaction.status t) "completed")
    (and_if_given location_id
       (fun l => Some (N.eqb (transaction.location_id t) l))
       (and_if_given end_date (sql_le (transaction.created_at t))
          (and_if_given start_date (sql_ge (transaction.created_at t))
             (sql_eq_text (transaction.status t) "paid")))).

(** A row is counted when the condition is true, not when it is NULL. *)
Definition counted (start_date end_date : option timestamp)
  (location_id : option uuid) (t : transaction.row) : bool :=
  match revenue_where start_date end_date location_id t with
  | Some true => true
  | _ => false
  end.

(** app.get('/api/reports/revenue'), its fields total_revenue_cents
    (SUM(amount_cents), 0 when no row is counted) and transaction_count
    (COUNT( * )); the four amounts the handler formats with [toFixed] are not
    part of the model. A date filter is given as its timestamp, the location
    filter as its text (not used when empty). *)
Definition GET_api_reports_revenue (db : database)
  (start_date end_date : option timestamp) (location_id : option string)
  : nat * read_json :=
  match
    pg.uuid_in_opt (if js.truthy_string location_id then location_id else None)
  with
  | inl e => (500%nat, failed_query_json e)
  | inr location =>
      let rows :=
        filter (counted start_date end_date location) (transactions db) in
      (200%nat,
       revenue_json
         (fold_right Z.add 0 (map transaction.amount_cents rows))
         (Z.of_nat (List.length rows)))
  end.

(** A transaction of a given stored status. *)
Definition has_status (status : string) (t : transaction.row) : bool :=
  match transaction.status t with
  | Some s => (s =? status)%string
  | None => false
  end.

(** A transaction that meets the filters given: created on or after the
    start date, on or before the end date, at the location. *)
Definition within (start_date end_date : option timestamp)
  (location_id : option uuid) (t : transaction.row) : bool :=
  match start_date, transaction.created_at t with
  | Some d, Some c => d <=? c
  | Some _, None => false
  | None, _ => true
  end
  && match end_date, transaction.created_at t with
     | Some d, Some c => c <=? d
     | Some _, None => false
     | None, _ => true
     end
  && match location_id with
     | Some l => N.eqb (transaction.location_id t) l
     | None => true
     end.

(** The report without filters. *)
Definition revenue (db : database) : nat * read_json :=
  GET_api_reports_revenue db None None None.

(** The first confirmation of the succeeded intent in the shop. *)
Definition first_confirmation : database * response :=
  POST_api_payments_confirm.handler shop
    (at_time "aaaaaaaa-0000-4000-8000-000000000001" 2000)
    (stripe.resolved (intent_100 "succeeded")) confirm_intent_100.

(** The shop with its order tombstoned. *)
Definition shop_order_deleted : database :=
  with_orders shop
    (map (fun o =>
            {| order.id := order.id o;
               order.company_id := order.company_id o;
               order.location_id := order.location_id o;
               order.customer_id := order.customer_id o;
               order.vehicle_id := order.vehicle_id o;
               order.appointment_id := order.appointment_id o;
               order.order_number := order.order_number o;
               order.status := order.status o;
               order.priority := order.priority o;
               order.note := order.note o;
               order.service_writer_id := order.service_writer_id o;
               order.calculated_labor_cents := order.calculated_labor_cents o;
               order.calculated_parts_cents := order.calculated_parts_cents o;
               order.calculated_subcontracts_cents :=
                 order.calculated_subcontracts_cents o;
               order.calculated_shop_supplies_cents :=
                 order.calculated_shop_supplies_cents o;
               order.calculated_discount_cents :=
                 order.calculated_discount_cents o;
               order.calculated_tax_cents := order.calculated_tax_cents o;
               order.calculated_subtotal_cents :=
                 order.calculated_subtotal_cents o;
               order.calculated_total_cents := order.calculated_total_cents o;
               order.discount_percent := order.discount_percent o;
               order.tax_percent := order.tax_percent o;
               order.deferred := order.deferred o;
               order.deferred_date := order.deferred_date o;
               order.deferred_reason := order.deferred_reason o;
               order.metadata := order.metadata o;
               order.created_at := order.created_at o;
               order.updated_at := order.updated_at o;
               order.completed_date := order.completed_date o;
               order.deleted := Some true |})
       (orders shop)).

(** A note put on an order, nothing else sent. *)
Definition set_note (note : string) : PUT_api_orders_id.body :=
  {| PUT_api_orders_id.note := Some note;
     PUT_api_orders_id.priority := None;
     PUT_api_orders_id.status := None;
     PUT_api_orders_id.service_writer_id := None |}.

(** A transaction of the order with a status, an amount and a creation
    time. *)
Definition booked (id status : string) (amount_cents : Z)
  (created_at : timestamp) : transaction.row :=
  {| transaction.id := uuid_of id;
     transaction.company_id := uuid_of shop_company;
     transaction.location_id := uuid_of shop_location;
     transaction.order_id := uuid_of shop_order;
     transaction.customer_id := uuid_of shop_customer;
     transaction.transaction_type := "payment";
     transaction.status := Some status;
     transaction.amount_cents := amount_cents;
     transaction.payment_method := Some "cash";
     transaction.payment_reference := None;
     transaction.applied_date := None;
     transaction.due_date := None;
     transaction.note := Some "";
     transaction.metadata := None;
     transaction.created_at := Some created_at;
     transaction.updated_at := Some created_at |}.

(** The books of the shop: $70 completed and $100 paid at time 1000, $30
    paid at time 6000, $20 pending. *)
Definition shop_books : database :=
  with_transactions shop
    [ booked "bbbbbbbb-0000-4000-8000-000000000001" "completed" 7000 1000;
      booked "bbbbbbbb-0000-4000-8000-000000000002" "paid" 10000 1000;
      booked "bbbbbbbb-0000-4000-8000-000000000003" "paid" 3000 6000;
      booked "bbbbbbbb-0000-4000-8000-000000000004" "pending" 2000 6000 ].

(** ** Query utilities of server.js *)

(** A JavaScript number that is an integer, or NaN. The model is exact for
    integers up to 2^53 in size; texts of at most 7 characters, as the
    properties below take them, stay far within it, also when multiplied. *)
Inductive number : Type :=
| NaN
| integer (z : Z).

(** WhiteSpace and LineTerminator among the characters up to U+00FF: TAB,
    LF, VT, FF, CR, SP, NBSP. *)
Definition is_white_space (c : ascii) : bool :=
  let n := nat_of_ascii c in
  ((9 <=? n) && (n <=? 13) || (n =? 32) || (n =? 160))%nat.

Fixpoint trim_start (s : string) : string :=
  match s with
  | String c rest => if is_white_space c then trim_start rest else s
  | EmptyString => s
  end.

(** The value of a digit in a radix, if it is one. *)
Definition radix_digit (radix : Z) (c : ascii) : option Z :=
  let n := Z.of_nat (nat_of_ascii c) in
  let v :=
    if (48 <=? n) && (n <=? 57) then Some (n - 48)
    else if (97 <=? n) && (n <=? 122) then Some (n - 87)
    else if (65 <=? n) && (n <=? 90) then Some (n - 55)
    else None in
  match v with
  | Some d => if d <? radix then Some d else None
  | None => None
  end.

(** The value of the longest prefix of digits; [None] when it is empty. *)
Fixpoint digits (radix : Z) (s : string) (value : option Z) : option Z :=
  match s with
  | String c rest =>
      match radix_digit radix c with
      | Some d =>
          digits radix rest
            (Some (match value with
                   | Some v => v * radix + d
                   | None => d
                   end))
      | None => value
      end
  | EmptyString => value
  end.

(** [parseInt(v)] without a radix: leading white space, a sign, the prefix
    0x or 0X for radix 16, then digits; what follows the digits is ignored;
    NaN without a digit, and for [undefined]. *)
Definition parseInt (v : option string) : number :=
  match v with
  | None => NaN
  | Some text =>
      let s := trim_start text in
      let '(sign, s) :=
        match s with
        | String "-"%char rest => (-1, rest)
        | String "+"%char rest => (1, rest)
        | _ => (1, s)
        end in
      let '(radix, s) :=
        match s with
        | String "0"%char (String "x"%char rest) => (16, rest)
        | String "0"%char (String "X"%char rest) => (16, rest)
        | _ => (10, s)
        end in
      match digits radix s None with
      | Some value => integer (sign * value)
      | None => NaN
      end
  end.

(** [n || d] on numbers: NaN and 0 give way. *)
Definition number_or (n : number) (d : Z) : Z :=
  match n with
  | integer z => if z =? 0 then d else z
  | NaN => d
  end.

Module Query.
Record t : Type := {
  page : option string;
  limit : option string;
  sort : option string;
  order : option string;
  search : option string
}.
End Query.

Module Params.
Record t : Type := {
  page : Z;
  limit : Z;
  offset : Z;
  sort : string;
  order : string;
  search : string
}.
End Params.

(** const parseQueryParams = (req) => ..., on [req.query] *)
Definition parseQueryParams (query : Query.t) : Params.t :=
  let page := number_or (parseInt (Query.page query)) 1 in
  let limit := Z.min (number_or (parseInt (Query.limit query)) 20) 100 in
  let offset := (page - 1) * limit in
  let sort := js.or_string (Query.sort query) "created_at" in
  let order :=
    match Query.order query with
    | Some "asc"%string => "ASC"
    | _ => "DESC"
    end in
  let search := js.or_string (Query.search query) "" in
  {| Params.page := page; Params.limit := limit; Params.offset := offset;
     Params.sort := sort; Params.order := order; Params.search := search |}.

(** A query value of at most 7 characters, or none. *)
Definition short (v : option string) : Prop :=
  match v with
  | Some s => (String.length s <= 7)%nat
  | None => True
  end.

(** The template [$${paramIndex}] *)
Definition placeholder (paramIndex : nat) : string :=
  "$" ++ NilZero.string_of_uint (Nat.to_uint paramIndex).

Module Filters.
Record t : Type := {
  status : option string;
  location_id : option string;
  customer_id : option string;
  technician_id : option string;
  start_date : option string;
  end_date : option string
}.
End Filters.

Module Where.
Record t : Type := {
  where_ : string;
  params : list string;
  nextParamIndex : nat
}.
End Where.

(** if (filters.f) { where += ` AND ... $${paramIndex}`;
    params.push(filters.f); paramIndex++; } *)
Definition add_filter (clause : string) (value : option string)
  (state : Where.t) : Where.t :=
  match value with
  | Some v =>
      if js.truthy_string value then
        {| Where.where_ :=
             Where.where_ state ++ clause
             ++ placeholder (Where.nextParamIndex state);
           Where.params := Where.params state ++ [v];
           Where.nextParamIndex := S (Where.nextParamIndex state) |}
      else state
  | None => state
  end.

(** const buildFilterWhere = (filters) => ... *)
Definition buildFilterWhere (filters : Filters.t) : Where.t :=
  let state :=
    {| Where.where_ := ""; Where.params := []; Where.nextParamIndex := 1 |} in
  let state := add_filter " AND status = " (Filters.status filters) state in
  let state :=
    add_filter " AND location_id = " (Filters.location_id filters) state in
  let state :=
    add_filter " AND customer_id = " (Filters.customer_id filters) state in
  let state :=
    add_filter " AND technician_id = " (Filters.technician_id filters) state in
  let state :=
    add_filter " AND created_at >= " (Filters.start_date filters) state in
  let state :=
    add_filter " AND created_at <= " (Filters.end_date filters) state in
  state.

(** The filters a caller gave, in the order the function reads them, each
    with the text of its clause. *)
Definition given_filters (filters : Filters.t) : list (string * string) :=
  let given clause (value : option string) :=
    match value with
    | Some v => if js.truthy_string value then [(clause, v)] else []
    | None => []
    end in
  (given " AND status = " (Filters.status filters)
   ++ given " AND location_id = " (Filters.location_id filters)
   ++ given " AND customer_id = " (Filters.customer_id filters)
   ++ given " AND technician_id = " (Filters.technician_id filters)
   ++ given " AND created_at >= " (Filters.start_date filters)
   ++ given " AND created_at <= " (Filters.end_date filters))%list.

(** The clauses of a list of filters, numbered from [first]. *)
Fixpoint numbered_clauses (first : nat) (given : list (string * string))
  : string :=
  match given with
  | [] => ""
  | (clause, _) :: rest =>
      clause ++ placeholder first ++ numbered_clauses (S first) rest
  end.

(** ** Inventory parts

    The two endpoints that write [inventory_part] touch no other table; the
    table is their state. *)

Module inventory_part.
Record row : Type := {
  id : uuid;
  company_id : uuid;
  location_id : uuid;
  name : string;
  number : option string;
  sku : option string;
  category_id : option uuid;
  brand_id : option uuid;
  description : option string;
  quantity : Z;
  available_quantity : Z;
  reserved_quantity : Z;
  on_estimate_quantity : Z;
  reorder_quantity : Z;
  min_critical_quantity : option Z;
  max_critical_quantity : option Z;
  retail_cost_cents : Z;
  bin_location : option string;
  taxable : option bool;
  show_cost_and_quantity : option bool;
  show_part_number : option bool;
  show_note : option bool;
  note : option string;
  metadata : option string;
  created_at : option timestamp;
  updated_at : option timestamp;
  deleted : option bool;
  deleted_date : option timestamp
}.
End inventory_part.

Inductive inventory_json : Type :=
| inventory_error_json (error : string)
| inventory_query_error_json (e : pg.error)
| part_json (r : inventory_part.row).

(** INSERT INTO inventory_part (company_id, location_id, name, sku,
    category_id, quantity, available_quantity, retail_cost_cents, taxable);
    the other columns take their defaults. The parameters are read first,
    then the columns are brought to their types, then NOT NULL and the
    primary key are checked. Quantities are counted in hundredths. *)
Definition insert_inventory_part (parts : list inventory_part.row)
  (env : environment)
  (company_id location_id name sku category_id : option string)
  (quantity available_quantity retail_cost_cents : Z) (taxable : bool)
  : pg.result (list inventory_part.row * inventory_part.row) :=
  (company <- pg.uuid_in_opt company_id ;;
   location <- pg.uuid_in_opt location_id ;;
   category <- pg.uuid_in_opt category_id ;;
   retail <- pg.bigint retail_cost_cents ;;
   name <- pg.varchar_opt 255 name ;;
   sku <- pg.varchar_opt 100 sku ;;
   quantity <- pg.numeric_10_2 quantity ;;
   available <- pg.numeric_10_2 available_quantity ;;
   company <- pg.not_null "company_id" company ;;
   location <- pg.not_null "location_id" location ;;
   name <- pg.not_null "name" name ;;
   _ <- pg.primary_key (map inventory_part.id parts) (gen_random_uuid env) ;;
   let r :=
     {| inventory_part.id := gen_random_uuid env;
        inventory_part.company_id := company;
        inventory_part.location_id := location;
        inventory_part.name := name;
        inventory_part.number := None;
        inventory_part.sku := sku;
        inventory_part.category_id := category;
        inventory_part.brand_id := None;
        inventory_part.description := None;
        inventory_part.quantity := quantity;
        inventory_part.available_quantity := available;
        inventory_part.reserved_quantity := 0;
        inventory_part.on_estimate_quantity := 0;
        inventory_part.reorder_quantity := 0;
        inventory_part.min_critical_quantity := None;
        inventory_part.max_critical_quantity := None;
        inventory_part.retail_cost_cents := retail;
        inventory_part.bin_location := None;
        inventory_part.taxable := Some taxable;
        inventory_part.show_cost_and_quantity := Some true;
        inventory_part.show_part_number := Some true;
        inventory_part.show_note := Some true;
        inventory_part.note := None;
        inventory_part.metadata := None;
        inventory_part.created_at := Some (CURRENT_TIMESTAMP env);
        inventory_part.updated_at := Some (CURRENT_TIMESTAMP env);
        inventory_part.deleted := Some false;
        inventory_part.deleted_date := None |} in
   pg.ok ((parts ++ [r])%list, r))%pg.

(** SET name = COALESCE($1, name), sku = COALESCE($2, sku),
    quantity = COALESCE($3, quantity),
    available_quantity = COALESCE($3, available_quantity),
    retail_cost_cents = COALESCE($4, retail_cost_cents),
    bin_location = COALESCE($5, bin_location),
    updated_at = CURRENT_TIMESTAMP *)
Definition set_inventory_part (env : environment) (name sku : option string)
  (quantity retail_cost_cents : option Z) (bin_location : option string)
  (r : inventory_part.row) : pg.result inventory_part.row :=
  (name' <- pg.coalesce_into_not_null (pg.varchar 255) name
              (inventory_part.name r) ;;
   sku' <- pg.coalesce_into (pg.varchar 100) sku (inventory_part.sku r) ;;
   quantity' <- pg.coalesce_into_not_null pg.numeric_10_2 quantity
                  (inventory_part.quantity r) ;;
   available' <- pg.coalesce_into_not_null pg.numeric_10_2 quantity
                   (inventory_part.available_quantity r) ;;
   bin_location' <- pg.coalesce_into (pg.varchar 100) bin_location
                      (inventory_part.bin_location r) ;;
   pg.ok
     {| inventory_part.id := inventory_part.id r;
        inventory_part.company_id := inventory_part.company_id r;
        inventory_part.location_id := inventory_part.location_id r;
        inventory_part.name := name';
        inventory_part.number := inventory_part.number r;
        inventory_part.sku := sku';
        inventory_part.category_id := inventory_part.category_id r;
        inventory_part.brand_id := inventory_part.brand_id r;
        inventory_part.description := inventory_part.description r;
        inventory_part.quantity := quantity';
        inventory_part.available_quantity := available';
        inventory_part.reserved_quantity := inventory_part.reserved_quantity r;
        inventory_part.on_estimate_quantity :=
          inventory_part.on_estimate_quantity r;
        inventory_part.reorder_quantity := inventory_part.reorder_quantity r;
        inventory_part.min_critical_quantity :=
          inventory_part.min_critical_quantity r;
        inventory_part.max_critical_quantity :=
          inventory_part.max_critical_quantity r;
        inventory_part.retail_cost_cents :=
          match retail_cost_cents with
          | Some given => given
          | None => inventory_part.retail_cost_cents r
          end;
        inventory_part.bin_location := bin_location';
        inventory_part.taxable := inventory_part.taxable r;
        inventory_part.show_cost_and_quantity :=
          inventory_part.show_cost_and_quantity r;
        inventory_part.show_part_number := inventory_part.show_part_number r;
        inventory_part.show_note := inventory_part.show_note r;
        inventory_part.note := inventory_part.note r;
        inventory_part.metadata := inventory_part.metadata r;
        inventory_part.created_at := inventory_part.created_at r;
        inventory_part.updated_at := Some (CURRENT_TIMESTAMP env);
        inventory_part.deleted := inventory_part.deleted r;
        inventory_part.deleted_date := inventory_part.deleted_date r |})%pg.

(** app.post('/api/inventory-parts') *)
Module POST_api_inventory_parts.

Record body : Type := {
  company_id : option string;
  location_id : option string;
  name : option string;
  sku : option string;
  category_id : option string;
  quantity : option Z;
  retail_cost_cents : option Z;
  taxable : option bool
}.

Definition handler (parts : list inventory_part.row) (env : environment)
  (req : body) : list inventory_part.row * (nat * inventory_json) :=
  if negb (js.truthy_string (name req))
     || negb (js.truthy_string (location_id req))
  then
    (parts,
     (400%nat, inventory_error_json "Name and location_id are required"))
  else
    match
      insert_inventory_part parts env
        (Some (js.or_string (company_id req) (uuidv4 env)))
        (location_id req) (name req) (sku req) (category_id req)
        (js.or_number (quantity req) 0)
        (js.or_number (quantity req) 0)
        (js.or_number (retail_cost_cents req) 0)
        (match taxable req with
         | Some false => false
         | _ => true
         end)
    with
    | inl e => (parts, (500%nat, inventory_query_error_json e))
    | inr (parts', r) => (parts', (201%nat, part_json r))
    end.

End POST_api_inventory_parts.

(** app.put('/api/inventory-parts/:id') *)
Module PUT_api_inventory_parts_id.

Record body : Type := {
  name : option string;
  sku : option string;
  quantity : option Z;
  retail_cost_cents : option Z;
  bin_location : option string
}.

Definition handler (parts : list inventory_part.row) (env : environment)
  (id : string) (req : body)
  : list inventory_part.row * (nat * inventory_json) :=
  let result :=
    (retail <- pg.bigint_opt (retail_cost_cents req) ;;
     id' <- pg.uuid_in id ;;
     update_where (fun r => N.eqb (inventory_part.id r) id')
       (set_inventory_part env (name req) (sku req) (quantity req) retail
          (bin_location req))
       parts)%pg in
  match result with
  | inl e => (parts, (500%nat, inventory_query_error_json e))
  | inr (rows, []) => (rows, (404%nat, inventory_error_json "Part not found"))
  | inr (rows, r :: _) => (rows, (200%nat, part_json r))
  end.

End PUT_api_inventory_parts_id.

Inductive inventory_request : Type :=
| POST_inventory_part (req : POST_api_inventory_parts.body)
| PUT_inventory_part (id : string) (req : PUT_api_inventory_parts_id.body).

Definition handle_inventory (parts : list inventory_part.row)
  (env : environment) (req : inventory_request)
  : list inventory_part.row * (nat * inventory_json) :=
  match req with
  | POST_inventory_part b => POST_api_inventory_parts.handler parts env b
  | PUT_inventory_part id b => PUT_api_inventory_parts_id.handler parts env id b
  end.

(** The table after a sequence of requests, each with its environment. *)
Fixpoint run_inventory (parts : list inventory_part.row)
  (calls : list (environment * inventory_request))
  : list inventory_part.row :=
  match calls with
  | [] => parts
  | (env, req) :: rest =>
      run_inventory (fst (handle_inventory parts env req)) rest
  end.

(** Every part is available in full. *)
Definition all_available (parts : list inventory_part.row) : Prop :=
  Forall (fun p => inventory_part.available_quantity p
                   = inventory_part.quantity p)
    parts.

Definition oil_filter : string := "77777777-7777-4777-8777-777777777777".

(** Twelve oil filters are taken in. *)
Definition taken_in : environment * inventory_request :=
  (at_time oil_filter 100,
   POST_inventory_part
     {| POST_api_inventory_parts.company_id := None;
        POST_api_inventory_parts.location_id := Some shop_location;
        POST_api_inventory_parts.name := Some "Oil filter";
        POST_api_inventory_parts.sku := Some "OF-12";
        POST_api_inventory_parts.category_id := None;
        POST_api_inventory_parts.quantity := Some 1200;
        POST_api_inventory_parts.retail_cost_cents := Some 899;
        POST_api_inventory_parts.taxable := None |}).

(** They are counted again as nine and a half. *)
Definition recounted : environment * inventory_request :=
  (at_time oil_filter 200,
   PUT_inventory_part oil_filter
     {| PUT_api_inventory_parts_id.name := None;
        PUT_api_inventory_parts_id.sku := None;
        PUT_api_inventory_parts_id.quantity := Some 950;
        PUT_api_inventory_parts_id.retail_cost_cents := None;
        PUT_api_inventory_parts_id.bin_location := Some "A-3" |}).

Definition oil_filters_in_stock : list inventory_part.row :=
  run_inventory [] [taken_in].

(** * Properties *)

(** ** Queries *)

Ltac bind_cases H :=
  repeat match type of H with
         | pg.bind ?m _ = inr _ =>
             let E := fresh "E" in
             destruct m eqn:E; cbn [pg.bind] in H; [discriminate H|]
         end.

Lemma not_null_inr {A : Type} (column : string) (v : option A) (a : A) :
  pg.not_null column v = inr a -> v = Some a.
Proof. destruct v; cbn; intros H; inversion H; reflexivity. Qed.

Lemma bigint_opt_inr (a o : option Z) : pg.bigint_opt a = inr o -> o = a.
Proof.
  destruct a as [z|]; cbn; [|intros H; inversion H; reflexivity].
  unfold pg.bigint. destruct ((- 2 ^ 63 <=? z) && (z <? 2 ^ 63)); cbn;
    intros H; inversion H; reflexivity.
Qed.

Lemma numeric_10_2_opt_inr (a o : option Z) :
  pg.numeric_10_2_opt a = inr o -> o = a.
Proof.
  destruct a as [z|]; cbn; [|intros H; inversion H; reflexivity].
  unfold pg.numeric_10_2. destruct (Z.abs z <? 10 ^ 10); cbn;
    intros H; inversion H; reflexivity.
Qed.

(** What an accepted INSERT INTO "transaction" stored. *)
Lemma insert_transaction_inr db env company location order customer type
  amount method status note reference db' r :
  insert_transaction db env company location order customer type amount
    method status note reference = inr (db', r) ->
  db' = with_transactions db (transactions db ++ [r])
  /\ transaction.id r = gen_random_uuid env
  /\ pg.varchar_opt 50 status = inr (transaction.status r)
  /\ amount = Some (transaction.amount_cents r)
  /\ pg.varchar_opt 255 reference = inr (transaction.payment_reference r)
  /\ transaction.note r = note
  /\ existsb (N.eqb (transaction.id r)) (map transaction.id (transactions db))
     = false.
Proof.
  unfold insert_transaction. intros H. bind_cases H.
  unfold pg.ok in H. inversion H; subst; clear H. cbn.
  repeat match goal with
         | E : pg.bigint_opt _ = inr _ |- _ => apply bigint_opt_inr in E; subst
         | E : pg.not_null _ _ = inr _ |- _ => apply not_null_inr in E; subst
         end.
  repeat split; try reflexivity; try assumption.
  match goal with
  | E : pg.primary_key _ _ = inr _ |- _ =>
      unfold pg.primary_key in E;
      destruct (existsb _ _); [discriminate E|reflexivity]
  end.
Qed.

(** ** POST /api/transactions *)

(** The answers of the creation endpoint: 400 or 500 with nothing stored, or
    201 with one row appended. *)
Lemma post_transaction_cases db env req :
  (fst (POST_api_transactions.handler db env req) = db
   /\ (http_status (snd (POST_api_transactions.handler db env req)) = 400%nat
       \/ http_status (snd (POST_api_transactions.handler db env req)) = 500%nat))
  \/ exists r,
       POST_api_transactions.handler db env req
       = (with_transactions db (transactions db ++ [r]),
          respond 201 (transaction_json r))
       /\ transaction.status r = Some "pending"
       /\ Some (transaction.amount_cents r)
          = POST_api_transactions.amount_cents req.
Proof.
  unfold POST_api_transactions.handler.
  destruct (negb _ || _ || _ || _); [left; cbn; auto|].
  match goal with
  | |- context [insert_transaction ?a ?b ?c ?d ?e ?f ?g ?h ?i ?j ?k ?l] =>
      destruct (insert_transaction a b c d e f g h i j k l) as [e'|[db' r]] eqn:I
  end.
  - left; cbn; auto.
  - right. exists r. apply insert_transaction_inr in I.
    destruct I as (-> & _ & S & A & _). cbn in S. inversion S.
    repeat split; auto.
Qed.

(** C9: a transaction created through POST /api/transactions is stored with
    status 'pending' whatever [status] the request body carries: the handler
    gives the same database and the same answer for any two values of the
    body's [status], and every request either stores nothing (answer 400 or
    500) or appends exactly one row, whose status is 'pending'. *)
Theorem post_transaction_stores_pending :
  forall (db : database) (env : environment)
         (req : POST_api_transactions.body) (sent_status : option string),
    POST_api_transactions.handler db env
      {| POST_api_transactions.company_id :=
           POST_api_transactions.company_id req;
         POST_api_transactions.location_id :=
           POST_api_transactions.location_id req;
         POST_api_transactions.order_id := POST_api_transactions.order_id req;
         POST_api_transactions.customer_id :=
           POST_api_transactions.customer_id req;
         POST_api_transactions.transaction_type :=
           POST_api_transactions.transaction_type req;
         POST_api_transactions.amount_cents :=
           POST_api_transactions.amount_cents req;
         POST_api_transactions.payment_method :=
           POST_api_transactions.payment_method req;
         POST_api_transactions.note := POST_api_transactions.note req;
         POST_api_transactions.status := sent_status |}
    = POST_api_transactions.handler db env req
    /\ ((fst (POST_api_transactions.handler db env req) = db
         /\ (http_status (snd (POST_api_transactions.handler db env req))
             = 400%nat
             \/ http_status (snd (POST_api_transactions.handler db env req))
                = 500%nat))
        \/ exists r : transaction.row,
             POST_api_transactions.handler db env req
             = (with_transactions db (transactions db ++ [r]),
                respond 201 (transaction_json r))
             /\ transaction.status r = Some "pending").
Proof.
  intros db env req sent_status. split.
  - reflexivity.
  - destruct (post_transaction_cases db env req) as [H|(r & H & S & _)].
    + left; exact H.
    + right; exists r; auto.
Qed.

(** ** UPDATE ... WHERE id = $n *)

(** The rows of the new table, one by one against the old: a row the
    condition selects is its [set], any other is itself. *)
Lemma update_where_rows {R : Type} (matches : R -> bool)
  (set : R -> pg.result R) (rows rows' returned : list R) :
  update_where matches set rows = inr (rows', returned) ->
  Forall2 (fun r r' => if matches r then set r = inr r' else r' = r)
    rows rows'.
Proof.
  revert rows' returned.
  induction rows as [|r rest IH]; intros rows' returned H; cbn in H.
  - inversion H. constructor.
  - destruct (matches r) eqn:M.
    + destruct (set r) as [e|r1] eqn:S; cbn in H; [discriminate|].
      destruct (update_where matches set rest) as [e|[t u]] eqn:U;
        cbn in H; [discriminate|].
      inversion H; subst. constructor; [rewrite M; exact S|].
      eapply IH; reflexivity.
    + destruct (update_where matches set rest) as [e|[t u]] eqn:U;
        cbn in H; [discriminate|].
      inversion H; subst. constructor; [rewrite M; reflexivity|].
      eapply IH; reflexivity.
Qed.

(** Nothing returned: no row was selected and the table is as it was. *)
Lemma update_where_none {R : Type} (matches : R -> bool)
  (set : R -> pg.result R) (rows rows' : list R) :
  update_where matches set rows = inr (rows', []) -> rows' = rows.
Proof.
  revert rows'. induction rows as [|r rest IH]; intros rows' H; cbn in H.
  - inversion H; reflexivity.
  - destruct (matches r).
    + destruct (set r); cbn in H; [discriminate|].
      destruct (update_where matches set rest) as [e|[t u]];
        cbn in H; discriminate.
    + destruct (update_where matches set rest) as [e|[t u]] eqn:U;
        cbn in H; [discriminate|].
      inversion H; subst. cbn. f_equal. apply IH. reflexivity.
Qed.

Lemma Forall2_same {R : Type} (P : R -> R -> Prop) (rows : list R) :
  (forall r, P r r) -> Forall2 P rows rows.
Proof. intros H; induction rows; constructor; auto. Qed.

(** ** PUT /api/order-line-items/:id *)

Lemma coalesce_into_omitted {A : Type} (coerce : A -> pg.result A)
  (stored new : option A) :
  pg.coalesce_into coerce None stored = inr new -> new = stored.
Proof. cbn; intros H; inversion H; reflexivity. Qed.

Lemma coalesce_into_not_null_omitted {A : Type} (coerce : A -> pg.result A)
  (stored new : A) :
  pg.coalesce_into_not_null coerce None stored = inr new -> new = stored.
Proof. cbn; intros H; inversion H; reflexivity. Qed.

(** What the SET clause of the line-item update does to a row. *)
Lemma set_order_line_item_frame env name quantity fixed_price labor_hours
  note r r' :
  set_order_line_item env name quantity fixed_price labor_hours note r
  = inr r' ->
  unassigned_columns r' = unassigned_columns r
  /\ order_line_item.updated_at r' = Some (CURRENT_TIMESTAMP env)
  /\ (name = None -> order_line_item.name r' = order_line_item.name r)
  /\ (quantity = None ->
      order_line_item.quantity r' = order_line_item.quantity r)
  /\ (fixed_price = None ->
      order_line_item.fixed_price_cents r'
      = order_line_item.fixed_price_cents r)
  /\ (labor_hours = None ->
      order_line_item.labor_hours r' = order_line_item.labor_hours r)
  /\ (note = None -> order_line_item.note r' = order_line_item.note r).
Proof.
  unfold set_order_line_item. intros H. bind_cases H.
  unfold pg.ok in H. inversion H; subst; clear H. cbn.
  repeat split; intros ->; try reflexivity;
    match goal with
    | E : pg.coalesce_into _ None ?x = inr ?y |- ?y = ?x =>
        exact (coalesce_into_omitted _ _ _ E)
    | E : pg.coalesce_into_not_null _ None ?x = inr ?y |- ?y = ?x =>
        exact (coalesce_into_not_null_omitted _ _ _ E)
    end.
Qed.

(** C10: the partial update of a line item. PUT /api/order-line-items/:id
    changes no table but [order_line_item]; there every row is either left
    exactly as it was, or it is the row with the requested id and then every
    column the statement does not assign (order_id, pricing, discount_cents,
    discount_percent, tax_cents, tax_percent, total_cents, hidden, status
    and the others) keeps its value, each of name, quantity,
    fixed_price_cents, labor_hours and note that the request omits keeps its
    value, and updated_at is the current timestamp. *)
Theorem put_line_item_frame :
  forall (db : database) (env : environment) (id : string)
         (req : PUT_api_order_line_items_id.body),
    customer_ids (fst (PUT_api_order_line_items_id.handler db env id req))
    = customer_ids db
    /\ user_ids (fst (PUT_api_order_line_items_id.handler db env id req))
       = user_ids db
    /\ orders (fst (PUT_api_order_line_items_id.handler db env id req))
       = orders db
    /\ transactions (fst (PUT_api_order_line_items_id.handler db env id req))
       = transactions db
    /\ authorizations (fst (PUT_api_order_line_items_id.handler db env id req))
       = authorizations db
    /\ Forall2
         (fun r r' : order_line_item.row =>
            r' = r
            \/ (pg.uuid_in id = inr (order_line_item.id r)
                /\ unassigned_columns r' = unassigned_columns r
                /\ order_line_item.updated_at r'
                   = Some (CURRENT_TIMESTAMP env)
                /\ (PUT_api_order_line_items_id.name req = None ->
                    order_line_item.name r' = order_line_item.name r)
                /\ (PUT_api_order_line_items_id.quantity req = None ->
                    order_line_item.quantity r' = order_line_item.quantity r)
                /\ (PUT_api_order_line_items_id.fixed_price_cents req = None ->
                    order_line_item.fixed_price_cents r'
                    = order_line_item.fixed_price_cents r)
                /\ (PUT_api_order_line_items_id.labor_hours req = None ->
                    order_line_item.labor_hours r'
                    = order_line_item.labor_hours r)
                /\ (PUT_api_order_line_items_id.note req = None ->
                    order_line_item.note r' = order_line_item.note r)))
         (order_line_items db)
         (order_line_items
            (fst (PUT_api_order_line_items_id.handler db env id req))).
Proof.
  intros db env id req. unfold PUT_api_order_line_items_id.handler.
  destruct (pg.bigint_opt (PUT_api_order_line_items_id.fixed_price_cents req))
    as [e|fixed_price] eqn:B; cbn [pg.bind].
  { cbn. repeat split; auto. apply Forall2_same; auto. }
  apply bigint_opt_inr in B; subst fixed_price.
  destruct (pg.uuid_in id) as [e|id'] eqn:U; cbn [pg.bind].
  { cbn. repeat split; auto. apply Forall2_same; auto. }
  destruct (update_where _ _ (order_line_items db))
    as [e|[rows' returned]] eqn:W.
  { cbn. repeat split; auto. apply Forall2_same; auto. }
  assert (F : Forall2
                (fun r r' : order_line_item.row =>
                   r' = r
                   \/ (inr id' = inr (A:=pg.error) (order_line_item.id r)
                       /\ set_order_line_item env
                            (PUT_api_order_line_items_id.name req)
                            (PUT_api_order_line_items_id.quantity req)
                            (PUT_api_order_line_items_id.fixed_price_cents req)
                            (PUT_api_order_line_items_id.labor_hours req)
                            (PUT_api_order_line_items_id.note req) r
                          = inr r'))
                (order_line_items db) rows').
  { apply update_where_rows in W.
    eapply Forall2_impl; [|exact W]. cbn. intros r r' H.
    destruct (N.eqb (order_line_item.id r) id') eqn:E; [|left; exact H].
    right. apply N.eqb_eq in E. subst id'. auto. }
  assert (G : Forall2
                (fun r r' : order_line_item.row =>
                   r' = r
                   \/ (inr id' = inr (A:=pg.error) (order_line_item.id r)
                       /\ unassigned_columns r' = unassigned_columns r
                       /\ order_line_item.updated_at r'
                          = Some (CURRENT_TIMESTAMP env)
                       /\ (PUT_api_order_line_items_id.name req = None ->
                           order_line_item.name r' = order_line_item.name r)
                       /\ (PUT_api_order_line_items_id.quantity req = None ->
                           order_line_item.quantity r'
                           = order_line_item.quantity r)
                       /\ (PUT_api_order_line_items_id.fixed_price_cents req
                           = None ->
                           order_line_item.fixed_price_cents r'
                           = order_line_item.fixed_price_cents r)
                       /\ (PUT_api_order_line_items_id.labor_hours req = None ->
                           order_line_item.labor_hours r'
                           = order_line_item.labor_hours r)
                       /\ (PUT_api_order_line_items_id.note req = None ->
                           order_line_item.note r' = order_line_item.note r)))
                (order_line_items db) rows').
  { eapply Forall2_impl; [|exact F]. cbn. intros r r' [H|[H S]]; [left; auto|].
    right. split; [exact H|]. eapply set_order_line_item_frame; exact S. }
  destruct returned; cbn; repeat split; auto.
Qed.

(** ** The balance *)

Lemma payment_is_no_refund (t : transaction.row) :
  is_kind "payment" t = true -> is_kind "refund" t = false.
Proof.
  unfold is_kind. intros H. apply String.eqb_eq in H. rewrite H. reflexivity.
Qed.

Lemma tally_step (t : transaction.row) (paid refunded : Z) :
  tally (paid, refunded) t
  = (paid + (if succeeded_payment t then transaction.amount_cents t else 0),
     refunded + (if succeeded_refund t then transaction.amount_cents t else 0)).
Proof.
  unfold tally, succeeded_payment, succeeded_refund. cbn [fst snd].
  destruct (is_succeeded t); cbn [andb]; [|f_equal; lia].
  destruct (is_kind "payment" t) eqn:P.
  - rewrite (payment_is_no_refund t P). f_equal; lia.
  - destruct (is_kind "refund" t); f_equal; lia.
Qed.

(** The single pass adds to the pair what the two filtered sums say. *)
Lemma tally_sums (transactions : list transaction.row) (paid refunded : Z) :
  fold_left tally transactions (paid, refunded)
  = (paid + sum_amounts succeeded_payment transactions,
     refunded + sum_amounts succeeded_refund transactions).
Proof.
  revert paid refunded.
  induction transactions as [|t rest IH]; intros paid refunded.
  - cbn. f_equal; lia.
  - cbn [fold_left]. rewrite tally_step, IH. unfold sum_amounts.
    cbn [filter].
    destruct (succeeded_payment t), (succeeded_refund t);
      cbn [map fold_right]; f_equal; lia.
Qed.

(** C2: the balance of an order against its transactions. paid_cents is the
    sum of the amounts of the succeeded payments, refunded_cents the sum of
    the amounts of the succeeded refunds, due_cents is
    max(0, total_cents - paid_cents + refunded_cents) and so never negative;
    what is paid beyond the total is credit_cents, which is never negative
    either, and due_cents - credit_cents is the signed open amount. *)
Theorem balance_reconciles :
  forall (total_cents : Z) (transactions : list transaction.row),
    paid_cents (balance total_cents transactions)
    = sum_amounts succeeded_payment transactions
    /\ refunded_cents (balance total_cents transactions)
       = sum_amounts succeeded_refund transactions
    /\ due_cents (balance total_cents transactions)
       = Z.max 0 (total_cents
                  - paid_cents (balance total_cents transactions)
                  + refunded_cents (balance total_cents transactions))
    /\ 0 <= due_cents (balance total_cents transactions)
    /\ 0 <= credit_cents (balance total_cents transactions)
    /\ due_cents (balance total_cents transactions)
       - credit_cents (balance total_cents transactions)
       = total_cents - paid_cents (balance total_cents transactions)
         + refunded_cents (balance total_cents transactions)
    /\ Z.min (due_cents (balance total_cents transactions))
             (credit_cents (balance total_cents transactions)) = 0.
Proof.
  intros total_cents transactions. unfold balance.
  rewrite tally_sums. cbn [paid_cents refunded_cents due_cents credit_cents
                           fst snd].
  repeat split; try lia.
Qed.

(** ** The rollup *)

(** The scenario of the specification: $100 fixed price with 8% line tax and
    $50 of parts without tax, 10% order discount: subtotal 15000, discount
    1500, tax 800, total 14300. *)
Example rollup_scenario :
  recompute_order_totals 1000 0
    [ {| pricing_mode := FixedPrice; category_tag := Labor;
         item_quantity := 100; unit_rate_cents := 0; item_labor_hours := 0;
         item_fixed_price_cents := 10000; discount := cents 0;
         tax := percent 800; taxable := true; item_hidden := false |};
      {| pricing_mode := PartsCost; category_tag := Parts;
         item_quantity := 100; unit_rate_cents := 5000; item_labor_hours := 0;
         item_fixed_price_cents := 0; discount := cents 0;
         tax := percent 800; taxable := false; item_hidden := false |} ]
  = Ok {| labor_cents := 10000; parts_cents := 5000; subcontracts_cents := 0;
          shop_supplies_cents := 0; discount_cents := 1500; tax_cents := 800;
          subtotal_cents := 15000; total_cents := 14300 |}.
Proof. reflexivity. Qed.

(** Storing totals leaves what the rollup reads of the order as it was. *)
Lemma store_order_totals_inputs (t : OrderTotals) (o : order.row) :
  order.discount_percent (store_order_totals t o) = order.discount_percent o
  /\ order.tax_percent (store_order_totals t o) = order.tax_percent o.
Proof. split; reflexivity. Qed.

Lemma store_order_totals_twice (t u : OrderTotals) (o : order.row) :
  store_order_totals t (store_order_totals u o) = store_order_totals t o.
Proof. reflexivity. Qed.

(** C8: the rollup is idempotent. For every order and every list of line
    items, a second rollup pass over the same line items, run on the order
    as the first pass stored it, gives the very same order row and the very
    same OrderTotals as the first pass alone (and fails exactly when the
    first does). *)
Theorem rollup_pass_idempotent :
  forall (o : order.row) (line_items : list LineItem),
    and_then (rollup_pass o line_items)
      (fun first => rollup_pass (fst first) line_items)
    = rollup_pass o line_items.
Proof.
  intros o line_items. unfold rollup_pass.
  destruct (recompute_order_totals (or_zero (order.discount_percent o))
              (or_zero (order.tax_percent o)) line_items) as [t|] eqn:R;
    cbn [and_then fst]; [|reflexivity].
  destruct (store_order_totals_inputs t o) as [-> ->].
  rewrite R. cbn [and_then]. rewrite store_order_totals_twice. reflexivity.
Qed.

(** ** The handlers, table by table *)

(** What an accepted INSERT INTO order_line_item stored. *)
Lemma insert_order_line_item_inr db env company location order name category
  pricing quantity fixed_price labor_hours note db' r :
  insert_order_line_item db env company location order name category pricing
    quantity fixed_price labor_hours note = inr (db', r) ->
  db' = with_order_line_items db (order_line_items db ++ [r])
  /\ order_line_item.quantity r = quantity
  /\ order_line_item.fixed_price_cents r = fixed_price
  /\ order_line_item.labor_hours r = labor_hours.
Proof.
  unfold insert_order_line_item. intros H. bind_cases H.
  unfold pg.ok in H. inversion H; subst; clear H. cbn.
  repeat match goal with
         | E : pg.bigint_opt _ = inr _ |- _ => apply bigint_opt_inr in E; subst
         | E : pg.numeric_10_2_opt _ = inr _ |- _ =>
             apply numeric_10_2_opt_inr in E; subst
         end.
  repeat split; reflexivity.
Qed.

(** The answers of the line-item creation endpoint. *)
Lemma post_line_item_cases db env req :
  (fst (POST_api_order_line_items.handler db env req) = db
   /\ (http_status (snd (POST_api_order_line_items.handler db env req))
       = 400%nat
       \/ http_status (snd (POST_api_order_line_items.handler db env req))
          = 500%nat))
  \/ exists r,
       POST_api_order_line_items.handler db env req
       = (with_order_line_items db (order_line_items db ++ [r]),
          respond 201 (line_item_json r))
       /\ order_line_item.quantity r = POST_api_order_line_items.quantity req
       /\ order_line_item.fixed_price_cents r
          = Some (js.or_number
                    (POST_api_order_line_items.fixed_price_cents req) 0)
       /\ order_line_item.labor_hours r
          = POST_api_order_line_items.labor_hours req.
Proof.
  unfold POST_api_order_line_items.handler.
  destruct (negb _ || _ || _); [left; cbn; auto|].
  match goal with
  | |- context [insert_order_line_item ?a ?b ?c ?d ?e ?f ?g ?h ?i ?j ?k ?l] =>
      destruct (insert_order_line_item a b c d e f g h i j k l)
        as [e'|[db' r]] eqn:I
  end.
  - left; cbn; auto.
  - right. exists r. apply insert_order_line_item_inr in I.
    destruct I as (-> & Q & F & L). auto.
Qed.

(** The line-item update writes the line-item table only. *)
Lemma put_line_item_tables db env id req :
  exists rows,
    fst (PUT_api_order_line_items_id.handler db env id req)
    = with_order_line_items db rows.
Proof.
  unfold PUT_api_order_line_items_id.handler.
  destruct (_ <- pg.bigint_opt _ ;; _)%pg as [e|[rows returned]].
  - exists (order_line_items db). destruct db; reflexivity.
  - exists rows. destruct returned; reflexivity.
Qed.

(** The transaction update writes the transaction table only, row by row
    through its SET clause. *)
Lemma put_transaction_tables db env id req :
  exists rows,
    fst (PUT_api_transactions_id.handler db env id req)
    = with_transactions db rows
    /\ Forall2
         (fun r r' =>
            r' = r
            \/ set_transaction env (PUT_api_transactions_id.status req)
                 (PUT_api_transactions_id.applied_date req)
                 (PUT_api_transactions_id.note req) r = inr r')
         (transactions db) rows.
Proof.
  unfold PUT_api_transactions_id.handler.
  destruct (pg.uuid_in id) as [e|id']; cbn [pg.bind].
  { exists (transactions db). split; [destruct db; reflexivity|].
    apply Forall2_same; auto. }
  destruct (update_where _ _ (transactions db)) as [e|[rows returned]] eqn:W.
  { exists (transactions db). split; [destruct db; reflexivity|].
    apply Forall2_same; auto. }
  exists rows. split; [destruct returned; reflexivity|].
  apply update_where_rows in W. eapply Forall2_impl; [|exact W].
  cbn. intros r r' H. destruct (N.eqb (transaction.id r) id'); auto.
Qed.

(** The order update writes the order table only, row by row through its
    SET clause. *)
Lemma put_order_tables db env id req :
  exists rows,
    fst (PUT_api_orders_id.handler db env id req) = with_orders db rows
    /\ Forall2
         (fun r r' =>
            r' = r
            \/ exists writer,
                 set_order db env (PUT_api_orders_id.note req)
                   (PUT_api_orders_id.priority req)
                   (PUT_api_orders_id.status req) writer r = inr r')
         (orders db) rows.
Proof.
  unfold PUT_api_orders_id.handler.
  destruct (pg.uuid_in_opt (PUT_api_orders_id.service_writer_id req))
    as [e|writer]; cbn [pg.bind].
  { exists (orders db). split; [destruct db; reflexivity|].
    apply Forall2_same; auto. }
  destruct (pg.uuid_in id) as [e|id']; cbn [pg.bind].
  { exists (orders db). split; [destruct db; reflexivity|].
    apply Forall2_same; auto. }
  destruct (update_where _ _ (orders db)) as [e|[rows returned]] eqn:W.
  { exists (orders db). split; [destruct db; reflexivity|].
    apply Forall2_same; auto. }
  exists rows. split; [destruct returned; reflexivity|].
  apply update_where_rows in W. eapply Forall2_impl; [|exact W].
  cbn. intros r r' H. destruct (N.eqb (order.id r) id'); eauto.
Qed.

(** The answers of the confirmation endpoint: 400 or 500 with nothing
    stored, or 200 with one row appended, and this only on a retrieved
    intent whose status is 'succeeded'. *)
Lemma confirm_cases db env retrieved req :
  (fst (POST_api_payments_confirm.handler db env retrieved req) = db
   /\ (http_status (snd (POST_api_payments_confirm.handler db env retrieved req))
       = 400%nat
       \/ http_status
            (snd (POST_api_payments_confirm.handler db env retrieved req))
          = 500%nat))
  \/ exists intent r reference,
       retrieved = stripe.resolved intent
       /\ stripe.status intent = "succeeded"
       /\ POST_api_payments_confirm.handler db env retrieved req
          = (with_transactions db (transactions db ++ [r]),
             respond 200
               (confirm_json true r (stripe.status intent)
                  (stripe.amount intent)))
       /\ transaction.status r = Some "paid"
       /\ transaction.amount_cents r = stripe.amount intent
       /\ pg.varchar 255 (stripe.id intent) = inr reference
       /\ transaction.payment_reference r = Some reference
       /\ transaction.id r = gen_random_uuid env
       /\ existsb (N.eqb (transaction.id r))
            (map transaction.id (transactions db)) = false.
Proof.
  unfold POST_api_payments_confirm.handler.
  destruct (negb _ || _ || _); [left; cbn; auto|].
  destruct retrieved as [intent|message]; [|left; cbn; auto].
  destruct (stripe.status intent =? "succeeded")%string eqn:S;
    cbn [negb]; [|left; cbn; auto].
  apply String.eqb_eq in S.
  match goal with
  | |- context [insert_transaction ?a ?b ?c ?d ?e ?f ?g ?h ?i ?j ?k ?l] =>
      destruct (insert_transaction a b c d e f g h i j k l) as [e'|[db' r]] eqn:I
  end.
  - left; cbn; auto.
  - right. apply insert_transaction_inr in I.
    destruct I as (-> & Id & St & A & R & _ & Pk).
    cbn in St. inversion St. inversion A.
    cbn in R.
    destruct (pg.varchar 255 (stripe.id intent)) as [e|reference] eqn:V;
      cbn in R; [discriminate|]. inversion R.
    exists intent, r, reference. repeat split; auto.
Qed.

(** ** POST /api/payments/confirm *)

Lemma with_reference_snoc (reference : string) (rows : list transaction.row)
  (r : transaction.row) :
  transaction.payment_reference r = Some reference ->
  with_reference reference (rows ++ [r])
  = (with_reference reference rows ++ [r])%list.
Proof.
  intros H. unfold with_reference. rewrite filter_app. cbn [filter].
  rewrite H, String.eqb_refl. reflexivity.
Qed.

(** The input syntax of uuid on some texts. *)
Example uuid_in_canonical :
  pg.uuid_in "a0eebc99-9c0b-4ef8-bb6d-6bb9bd380a11"
  = inr 213916071241125512485712096724000442897%N
  /\ pg.uuid_in "{A0EEBC99-9C0B-4EF8-BB6D-6BB9BD380A11}"
     = pg.uuid_in "a0eebc99-9c0b-4ef8-bb6d-6bb9bd380a11"
  /\ pg.uuid_in "a0eebc999c0b4ef8bb6d6bb9bd380a11"
     = pg.uuid_in "a0eebc99-9c0b-4ef8-bb6d-6bb9bd380a11".
Proof. vm_compute. repeat split; reflexivity. Qed.

Lemma default_is_no_uuid :
  pg.uuid_in "default"
  = inl (pg.invalid_text_representation "uuid" "default").
Proof. reflexivity. Qed.

(** An intent whose metadata names no company is never recorded: the
    company_id parameter is then the text 'default', which the UUID column
    refuses, and the failed query is answered like a failed gateway call. *)
Lemma confirm_without_company db env intent req :
  js.truthy_string (stripe.company_id (stripe.metadata_ intent)) = false ->
  fst (POST_api_payments_confirm.handler db env (stripe.resolved intent) req)
  = db.
Proof.
  intros H. unfold POST_api_payments_confirm.handler.
  destruct (negb _ || _ || _); [reflexivity|].
  destruct (negb _); [reflexivity|].
  unfold js.or_string, js.or_else. rewrite H.
  unfold insert_transaction. cbn [pg.uuid_in_opt].
  rewrite default_is_no_uuid. reflexivity.
Qed.

(** C1, as the code has it: the confirmation endpoint does not look for a
    stored transaction with the intent's payment_reference. Every call
    either stores nothing and answers 400 or 500, or (on a retrieved intent
    of status 'succeeded') appends one new row, of a fresh id, status
    'paid' and the intent's id as payment_reference, and answers 200 with
    that new row: the stored rows carrying the reference are those of
    before and the new one. *)
Theorem confirm_appends_a_row :
  forall (db : database) (env : environment) (retrieved : stripe.retrieved)
         (req : POST_api_payments_confirm.body),
    (fst (POST_api_payments_confirm.handler db env retrieved req) = db
     /\ (http_status
           (snd (POST_api_payments_confirm.handler db env retrieved req))
         = 400%nat
         \/ http_status
              (snd (POST_api_payments_confirm.handler db env retrieved req))
            = 500%nat))
    \/ exists (intent : stripe.paymentIntent) (r : transaction.row)
              (reference : string),
         retrieved = stripe.resolved intent
         /\ stripe.status intent = "succeeded"
         /\ POST_api_payments_confirm.handler db env retrieved req
            = (with_transactions db (transactions db ++ [r]),
               respond 200
                 (confirm_json true r (stripe.status intent)
                    (stripe.amount intent)))
         /\ existsb (N.eqb (transaction.id r))
              (map transaction.id (transactions db)) = false
         /\ transaction.status r = Some "paid"
         /\ pg.varchar 255 (stripe.id intent) = inr reference
         /\ transaction.payment_reference r = Some reference
         /\ with_reference reference
              (transactions
                 (fst (POST_api_payments_confirm.handler db env retrieved req)))
            = (with_reference reference (transactions db) ++ [r])%list.
Proof.
  intros db env retrieved req.
  destruct (confirm_cases db env retrieved req)
    as [H|(intent & r & reference & G & S & H & St & A & V & R & Id & Pk)].
  - left; exact H.
  - right. exists intent, r, reference. rewrite H. cbn [fst transactions
      with_transactions]. repeat split; auto using with_reference_snoc.
Qed.

(** C1 fails on the code: the client confirms the same succeeded intent
    twice, and in between the stored transaction is set to 'succeeded'. The
    second confirmation finds a stored transaction of that reference and
    status, is answered 200 with a transaction of another id, and leaves two
    stored transactions with the reference. *)
Lemma confirm_twice_stores_two :
  map (fun t => (transaction.status t, transaction.payment_reference t))
    (transactions shop_confirmed)
  = [(Some "succeeded", Some "pi_3NqT1")]
  /\ http_status (snd second_confirmation) = 200%nat
  /\ map (fun t => (transaction.id t, transaction.payment_reference t))
       (transactions (fst second_confirmation))
     = [(uuid_of "aaaaaaaa-0000-4000-8000-000000000001", Some "pi_3NqT1");
        (uuid_of "aaaaaaaa-0000-4000-8000-000000000003", Some "pi_3NqT1")]
  /\ List.length
       (with_reference "pi_3NqT1" (transactions (fst second_confirmation)))
     = 2%nat
  /\ match json_body (snd second_confirmation) with
     | confirm_json _ t _ _ =>
         transaction.id t = uuid_of "aaaaaaaa-0000-4000-8000-000000000003"
     | _ => False
     end.
Proof. vm_compute. repeat split; reflexivity. Qed.

(** C6, as the code has it: when retrieving the intent throws (an API
    error, a connection failure, a timeout) the confirmation endpoint stores
    nothing and answers with an error; a transaction is stored by this
    endpoint only on a retrieved intent whose status is 'succeeded', and
    then with status 'paid', so the endpoint never stores a pending
    transaction and never stores one on a failed gateway call. *)
Theorem confirm_stores_only_succeeded :
  forall (db : database) (env : environment)
         (req : POST_api_payments_confirm.body),
    (forall message : string,
        fst (POST_api_payments_confirm.handler db env (stripe.thrown message)
               req) = db
        /\ (http_status
              (snd (POST_api_payments_confirm.handler db env
                      (stripe.thrown message) req)) = 400%nat
            \/ snd (POST_api_payments_confirm.handler db env
                      (stripe.thrown message) req)
               = respond 500 (gateway_error_json message)))
    /\ (forall retrieved : stripe.retrieved,
           fst (POST_api_payments_confirm.handler db env retrieved req) = db
           \/ exists (intent : stripe.paymentIntent) (r : transaction.row),
                retrieved = stripe.resolved intent
                /\ stripe.status intent = "succeeded"
                /\ fst (POST_api_payments_confirm.handler db env retrieved req)
                   = with_transactions db (transactions db ++ [r])
                /\ transaction.status r = Some "paid"
                /\ transaction.amount_cents r = stripe.amount intent).
Proof.
  intros db env req. split.
  - intros message. unfold POST_api_payments_confirm.handler.
    destruct (negb _ || _ || _); cbn; auto.
  - intros retrieved.
    destruct (confirm_cases db env retrieved req)
      as [[H _]|(intent & r & reference & G & S & H & St & A & _)].
    + left; exact H.
    + right. exists intent, r. rewrite H. cbn [fst]. auto.
Qed.

(** C6 fails on the code: the gateway call times out, or answers that the
    payment is still processing; either way no transaction is stored, pending
    or other, and the caller gets an error. *)
Lemma confirm_failure_stores_nothing :
  transactions (fst timed_out_confirmation) = []
  /\ snd timed_out_confirmation
     = respond 500 (gateway_error_json "Request timed out")
  /\ transactions (fst processing_confirmation) = []
  /\ snd processing_confirmation
     = respond 400 (error_json "Payment not successful. Status: processing").
Proof. vm_compute. repeat split; reflexivity. Qed.

(** ** POST /api/transactions and the authorizations *)

(** The INSERT reads of the database the transaction and order ids and the
    customer ids; the authorizations it neither reads nor writes. *)
Lemma insert_transaction_authorizations db auths env company location order
  customer type amount method status note reference :
  insert_transaction (with_authorizations db auths) env company location
    order customer type amount method status note reference
  = match
      insert_transaction db env company location order customer type amount
        method status note reference
    with
    | inl e => inl e
    | inr (db', r) => inr (with_authorizations db' auths, r)
    end.
Proof.
  unfold insert_transaction.
  cbn [transactions orders customer_ids with_authorizations].
  repeat match goal with
         | |- context [pg.bind ?m _] =>
             destruct m; cbn [pg.bind]; [reflexivity|]
         end.
  reflexivity.
Qed.

Lemma sum_amounts_snoc (keep : transaction.row -> bool)
  (rows : list transaction.row) (r : transaction.row) :
  sum_amounts keep (rows ++ [r])
  = sum_amounts keep rows
    + (if keep r then transaction.amount_cents r else 0).
Proof.
  unfold sum_amounts. rewrite filter_app, map_app.
  induction (map transaction.amount_cents (filter keep rows)) as [|a l IH].
  - cbn. destruct (keep r); cbn; lia.
  - cbn [app fold_right]. rewrite IH. lia.
Qed.

Lemma paid_cents_sum (total : Z) (rows : list transaction.row) :
  paid_cents (balance total rows) = sum_amounts succeeded_payment rows.
Proof. unfold balance. rewrite tally_sums. reflexivity. Qed.

(** A row that is not succeeded adds nothing to what is paid. *)
Lemma paid_cents_pending (total : Z) (db : database) (order_id : uuid)
  (r : transaction.row) :
  transaction.status r = Some "pending" ->
  paid_cents
    (balance total
       (transactions_of (with_transactions db (transactions db ++ [r]))
          order_id))
  = paid_cents (balance total (transactions_of db order_id)).
Proof.
  intros S. rewrite !paid_cents_sum. unfold transactions_of.
  cbn [transactions with_transactions]. rewrite filter_app. cbn [filter].
  destruct (N.eqb (transaction.order_id r) order_id).
  - rewrite sum_amounts_snoc. unfold succeeded_payment, is_succeeded.
    rewrite S. cbn. lia.
  - rewrite app_nil_r. reflexivity.
Qed.

(** C3, as the code has it: POST /api/transactions never consults the
    authorizations and its body has no override flag. Whatever
    authorizations are stored, the endpoint gives the same answer and the
    same stored transaction; and since the transaction is stored as
    'pending', recording it leaves paid_cents of every order as it was. *)
Theorem post_transaction_ignores_authorizations :
  forall (db : database) (env : environment)
         (req : POST_api_transactions.body),
    (forall auths : list authorization.row,
        POST_api_transactions.handler (with_authorizations db auths) env req
        = (with_authorizations
             (fst (POST_api_transactions.handler db env req)) auths,
           snd (POST_api_transactions.handler db env req)))
    /\ (forall (total : Z) (order_id : uuid),
           paid_cents
             (balance total
                (transactions_of
                   (fst (POST_api_transactions.handler db env req)) order_id))
           = paid_cents (balance total (transactions_of db order_id))).
Proof.
  intros db env req. split.
  - intros auths. unfold POST_api_transactions.handler.
    destruct (negb _ || _ || _ || _); [reflexivity|].
    rewrite insert_transaction_authorizations.
    match goal with
    | |- context [insert_transaction ?a ?b ?c ?d ?e ?f ?g ?h ?i ?j ?k ?l] =>
        destruct (insert_transaction a b c d e f g h i j k l) as [e'|[db' r]]
    end; reflexivity.
  - intros total order_id.
    destruct (post_transaction_cases db env req) as [[H _]|(r & H & S & _)].
    + rewrite H. reflexivity.
    + rewrite H. cbn [fst]. apply paid_cents_pending. exact S.
Qed.

(** C3 fails on the code: the order's authorizations sum to $200 and nothing
    is paid yet; a payment of $250, which would bring the running paid total
    to 25000 > 20000, is not rejected but answered 201 and stored, as
    'pending', so that paid_cents stays 0 and is not 25000. *)
Lemma over_ceiling_payment_recorded :
  authorized_ceiling shop (uuid_of shop_order) = 20000
  /\ running_paid_total shop (uuid_of shop_order) 25000 = 25000
  /\ http_status (snd over_ceiling_payment) = 201%nat
  /\ map (fun t => (transaction.amount_cents t, transaction.status t))
       (transactions (fst over_ceiling_payment))
     = [(25000, Some "pending")]
  /\ paid_cents
       (balance 0
          (transactions_of (fst over_ceiling_payment) (uuid_of shop_order)))
     = 0.
Proof. vm_compute. repeat split; reflexivity. Qed.

(** ** POST /api/order-line-items *)

Ltac same_binds :=
  repeat match goal with
         | |- context [pg.bind ?m _] =>
             destruct m; cbn [pg.bind]; [reflexivity|]
         end.

(** NUMERIC(10,2) takes a value exactly when it takes its opposite. *)
Lemma numeric_10_2_opt_opp (q : Z) :
  pg.numeric_10_2_opt (Some (- q))
  = match pg.numeric_10_2_opt (Some q) with
    | inl e => inl e
    | inr _ => inr (Some (- q))
    end.
Proof.
  unfold pg.numeric_10_2_opt, pg.numeric_10_2. rewrite Z.abs_opp.
  destruct (Z.abs q <? 10 ^ 10); reflexivity.
Qed.

(** The INSERT accepts a quantity exactly when it accepts its opposite, and
    so for the labor hours. *)
Lemma insert_line_item_quantity_sign db env company location order name
  category pricing q fixed_price labor_hours note :
  http_status
    (snd match
           insert_order_line_item db env company location order name category
             pricing (Some q) fixed_price labor_hours note
         with
         | inl e => (db, query_failed e)
         | inr (db', r) => (db', respond 201 (line_item_json r))
         end)
  = http_status
      (snd match
             insert_order_line_item db env company location order name
               category pricing (Some (- q)) fixed_price labor_hours note
           with
           | inl e => (db, query_failed e)
           | inr (db', r) => (db', respond 201 (line_item_json r))
           end).
Proof.
  unfold insert_order_line_item. rewrite (numeric_10_2_opt_opp q).
  same_binds. reflexivity.
Qed.

Lemma insert_line_item_hours_sign db env company location order name
  category pricing quantity fixed_price h note :
  http_status
    (snd match
           insert_order_line_item db env company location order name category
             pricing quantity fixed_price (Some h) note
         with
         | inl e => (db, query_failed e)
         | inr (db', r) => (db', respond 201 (line_item_json r))
         end)
  = http_status
      (snd match
             insert_order_line_item db env company location order name
               category pricing quantity fixed_price (Some (- h)) note
           with
           | inl e => (db, query_failed e)
           | inr (db', r) => (db', respond 201 (line_item_json r))
           end).
Proof.
  unfold insert_order_line_item. rewrite (numeric_10_2_opt_opp h).
  same_binds. reflexivity.
Qed.

(** C7, as the code has it: the creation endpoint validates the presence of
    order_id, name and location_id and nothing else. It answers 400 exactly
    when one of the three is missing or empty; every call either stores
    nothing (answer 400 or 500) or appends one row whose quantity and
    labor_hours are those of the request and whose fixed_price_cents is the
    request's (0 when missing), whatever their sign; and a request is
    answered the same status with a quantity, or a number of labor hours, as
    with its opposite. *)
Theorem post_line_item_checks_presence_only :
  forall (db : database) (env : environment)
         (req : POST_api_order_line_items.body),
    Nat.eqb (http_status (snd (POST_api_order_line_items.handler db env req)))
      400
    = negb (js.truthy_string (POST_api_order_line_items.order_id req))
      || negb (js.truthy_string (POST_api_order_line_items.name req))
      || negb (js.truthy_string (POST_api_order_line_items.location_id req))
    /\ ((fst (POST_api_order_line_items.handler db env req) = db
         /\ (http_status (snd (POST_api_order_line_items.handler db env req))
             = 400%nat
             \/ http_status
                  (snd (POST_api_order_line_items.handler db env req))
                = 500%nat))
        \/ exists r : order_line_item.row,
             POST_api_order_line_items.handler db env req
             = (with_order_line_items db (order_line_items db ++ [r]),
                respond 201 (line_item_json r))
             /\ order_line_item.quantity r
                = POST_api_order_line_items.quantity req
             /\ order_line_item.fixed_price_cents r
                = Some (js.or_number
                          (POST_api_order_line_items.fixed_price_cents req) 0)
             /\ order_line_item.labor_hours r
                = POST_api_order_line_items.labor_hours req)
    /\ (forall q : Z,
           http_status
             (snd (POST_api_order_line_items.handler db env
                     (with_quantity req (Some q))))
           = http_status
               (snd (POST_api_order_line_items.handler db env
                       (with_quantity req (Some (- q))))))
    /\ (forall h : Z,
           http_status
             (snd (POST_api_order_line_items.handler db env
                     (with_labor_hours req (Some h))))
           = http_status
               (snd (POST_api_order_line_items.handler db env
                       (with_labor_hours req (Some (- h)))))).
Proof.
  intros db env req. split; [|split; [|split]].
  - unfold POST_api_order_line_items.handler.
    destruct (negb _ || _ || _); [reflexivity|].
    match goal with
    | |- context [insert_order_line_item ?a ?b ?c ?d ?e ?f ?g ?h ?i ?j ?k ?l] =>
        destruct (insert_order_line_item a b c d e f g h i j k l)
          as [e'|[db' r]]
    end; reflexivity.
  - apply post_line_item_cases.
  - intros q. unfold POST_api_order_line_items.handler, with_quantity.
    cbn [POST_api_order_line_items.order_id POST_api_order_line_items.name
         POST_api_order_line_items.location_id
         POST_api_order_line_items.company_id
         POST_api_order_line_items.category POST_api_order_line_items.pricing
         POST_api_order_line_items.quantity
         POST_api_order_line_items.fixed_price_cents
         POST_api_order_line_items.labor_hours POST_api_order_line_items.note].
    destruct (negb _ || _ || _); [reflexivity|].
    apply insert_line_item_quantity_sign.
  - intros h. unfold POST_api_order_line_items.handler, with_labor_hours.
    cbn [POST_api_order_line_items.order_id POST_api_order_line_items.name
         POST_api_order_line_items.location_id
         POST_api_order_line_items.company_id
         POST_api_order_line_items.category POST_api_order_line_items.pricing
         POST_api_order_line_items.quantity
         POST_api_order_line_items.fixed_price_cents
         POST_api_order_line_items.labor_hours POST_api_order_line_items.note].
    destruct (negb _ || _ || _); [reflexivity|].
    apply insert_line_item_hours_sign.
Qed.

(** C7 fails on the code: a line item of quantity -1.00 and price -$50 is
    not rejected but answered 201 and stored with these values. *)
Lemma negative_item_is_stored :
  http_status (snd negative_item_posted) = 201%nat
  /\ map (fun r => (order_line_item.name r, order_line_item.quantity r,
                    order_line_item.fixed_price_cents r))
       (order_line_items (fst negative_item_posted))
     = [("Impeller", Some (-100), Some (-5000))].
Proof. vm_compute. split; reflexivity. Qed.

(** ** Sequences of requests *)

Lemma set_order_computed_fields db env note priority status writer r r' :
  set_order db env note priority status writer r = inr r' ->
  computed_fields r' = computed_fields r.
Proof.
  unfold set_order. intros H. bind_cases H.
  unfold pg.ok in H. inversion H. reflexivity.
Qed.

Lemma set_transaction_ledger_entry env status applied_date note r r' :
  set_transaction env status applied_date note r = inr r' ->
  ledger_entry r' = ledger_entry r.
Proof.
  unfold set_transaction. intros H. bind_cases H.
  unfold pg.ok in H. inversion H. reflexivity.
Qed.

Lemma Forall2_map_eq {R B : Type} (f : R -> B) (P : R -> R -> Prop)
  (rows rows' : list R) :
  (forall r r', P r r' -> f r' = f r) ->
  Forall2 P rows rows' -> map f rows' = map f rows.
Proof.
  intros H F. induction F as [|r r' l l' Hr _ IH]; cbn; [reflexivity|].
  rewrite (H _ _ Hr), IH. reflexivity.
Qed.

(** One request leaves the computed fields of every stored order alone. *)
Lemma handle_computed_fields db env req :
  map computed_fields (orders (fst (handle db env req)))
  = map computed_fields (orders db).
Proof.
  destruct req as [id b|b|id b|b|id b|g b]; cbn [handle].
  - destruct (put_order_tables db env id b) as (rows & -> & F).
    cbn [orders with_orders]. eapply Forall2_map_eq; [|exact F].
    intros r r' [->|[writer S]]; [reflexivity|].
    eapply set_order_computed_fields; exact S.
  - destruct (post_line_item_cases db env b) as [[-> _]|(r & -> & _)];
      reflexivity.
  - destruct (put_line_item_tables db env id b) as (rows & ->). reflexivity.
  - destruct (post_transaction_cases db env b) as [[-> _]|(r & -> & _)];
      reflexivity.
  - destruct (put_transaction_tables db env id b) as (rows & -> & _).
    reflexivity.
  - destruct (confirm_cases db env g b) as [[-> _]|(i & r & s & _ & _ & -> & _)];
      reflexivity.
Qed.

(** One request keeps the ledger entries stored before it, in place, and
    appends what it records. *)
Lemma handle_ledger db env req :
  exists appended,
    map ledger_entry (transactions (fst (handle db env req)))
    = (map ledger_entry (transactions db) ++ appended)%list.
Proof.
  destruct req as [id b|b|id b|b|id b|g b]; cbn [handle].
  - destruct (put_order_tables db env id b) as (rows & -> & _).
    exists []. rewrite app_nil_r. reflexivity.
  - exists [].
    destruct (post_line_item_cases db env b) as [[-> _]|(r & -> & _)];
      rewrite app_nil_r; reflexivity.
  - destruct (put_line_item_tables db env id b) as (rows & ->).
    exists []. rewrite app_nil_r. reflexivity.
  - destruct (post_transaction_cases db env b) as [[-> _]|(r & -> & _)].
    + exists []. rewrite app_nil_r. reflexivity.
    + exists [ledger_entry r]. cbn [fst transactions with_transactions].
      apply map_app.
  - destruct (put_transaction_tables db env id b) as (rows & -> & F).
    exists []. rewrite app_nil_r. cbn [transactions with_transactions].
    eapply Forall2_map_eq; [|exact F].
    intros r r' [->|S]; [reflexivity|].
    eapply set_transaction_ledger_entry; exact S.
  - destruct (confirm_cases db env g b)
      as [[-> _]|(i & r & s & _ & _ & -> & _)].
    + exists []. rewrite app_nil_r. reflexivity.
    + exists [ledger_entry r]. cbn [fst transactions with_transactions].
      apply map_app.
Qed.

(** C4, as the code has it: no endpoint recomputes or edits the computed
    fields of an order. Creating a line item and updating one leave the
    ["order"] table exactly as it was, and over every sequence of requests
    to the endpoints every stored order keeps the calculated_* values it
    had, whatever happens to its line items. *)
Theorem computed_fields_never_written :
  forall db : database,
    (forall (env : environment) (req : POST_api_order_line_items.body),
        orders (fst (POST_api_order_line_items.handler db env req))
        = orders db)
    /\ (forall (env : environment) (id : string)
               (req : PUT_api_order_line_items_id.body),
           orders (fst (PUT_api_order_line_items_id.handler db env id req))
           = orders db)
    /\ (forall calls : list (environment * request),
           map computed_fields (orders (run db calls))
           = map computed_fields (orders db)).
Proof.
  intros db. split; [|split].
  - intros env req.
    destruct (post_line_item_cases db env req) as [[-> _]|(r & -> & _)];
      reflexivity.
  - intros env id req.
    destruct (put_line_item_tables db env id req) as (rows & ->). reflexivity.
  - intros calls. revert db.
    induction calls as [|[env req] rest IH]; intros db; cbn [run];
      [reflexivity|].
    rewrite IH. apply handle_computed_fields.
Qed.

(** C4 fails on the code: the order's stored computed fields are those of a
    rollup over its one line item of $100. After the item is repriced to
    $250 (answer 200) the stored total is still 10000 while a rollup over
    the current line items gives 25000; after a second item of $50 is added
    instead (answer 201) it is still 10000 while a rollup gives 15000. *)
Lemma stored_totals_go_stale :
  map (totals_current shop_rolled_up) (orders shop_rolled_up) = [true]
  /\ http_status (snd repriced) = 200%nat
  /\ map (totals_current (fst repriced)) (orders (fst repriced)) = [false]
  /\ map order.calculated_total_cents (orders (fst repriced)) = [Some 10000]
  /\ map (fun o => and_then (rollup_of (fst repriced) o)
                     (fun t => Ok (total_cents t)))
       (orders (fst repriced)) = [Ok 25000]
  /\ http_status (snd item_added) = 201%nat
  /\ map (totals_current (fst item_added)) (orders (fst item_added)) = [false]
  /\ map order.calculated_total_cents (orders (fst item_added)) = [Some 10000]
  /\ map (fun o => and_then (rollup_of (fst item_added) o)
                     (fun t => Ok (total_cents t)))
       (orders (fst item_added)) = [Ok 15000].
Proof. vm_compute. repeat split; reflexivity. Qed.

(** C5, as the code has it: the transaction update applies no state machine.
    A supplied status replaces the stored one whatever the stored status and
    the transaction type are (the new status is the supplied text brought to
    VARCHAR(50)). What holds over every sequence of requests is that the
    ledger is append-only in its entries: the stored transactions stay in
    place with their id, order, customer, type, amount_cents and
    payment_reference, and new ones are appended after them. *)
Theorem ledger_entries_append_only :
  (forall (env : environment) (status : string)
          (applied_date : option timestamp) (note : option string)
          (r : transaction.row),
      pg.bind (set_transaction env (Some status) applied_date note r)
        (fun r' => pg.ok (transaction.status r'))
      = pg.bind (pg.varchar 50 status) (fun s => pg.ok (Some s)))
  /\ (forall (db : database) (calls : list (environment * request)),
         exists appended,
           map ledger_entry (transactions (run db calls))
           = (map ledger_entry (transactions db) ++ appended)%list).
Proof.
  split.
  - intros env status applied_date note r. unfold set_transaction.
    cbn [pg.coalesce_into]. destruct (pg.varchar 50 status); reflexivity.
  - intros db calls. revert db.
    induction calls as [|[env req] rest IH]; intros db; cbn [run].
    + exists []. rewrite app_nil_r. reflexivity.
    + destruct (IH (fst (handle db env req))) as [later ->].
      destruct (handle_ledger db env req) as [appended ->].
      exists (appended ++ later)%list. rewrite app_assoc. reflexivity.
Qed.

(** C5 fails on the code: a succeeded payment is voided through the update
    endpoint (answer 200, the stored payment now 'voided'), and the voided
    payment is then set back to 'pending' (answer 200). *)
Lemma succeeded_payment_voided :
  map (fun t => (transaction.transaction_type t, transaction.status t))
    (transactions shop_paid) = [("payment", Some "succeeded")]
  /\ http_status (snd payment_voided) = 200%nat
  /\ map (fun t => (transaction.transaction_type t, transaction.status t))
       (transactions (fst payment_voided)) = [("payment", Some "voided")]
  /\ http_status (snd payment_reopened) = 200%nat
  /\ map (fun t => (transaction.transaction_type t, transaction.status t))
       (transactions (fst payment_reopened)) = [("payment", Some "pending")].
Proof. vm_compute. repeat split; reflexivity. Qed.

(** ** The endpoints on the small shop *)

(** A caller sends status 'succeeded': the transaction is stored pending. *)
Example sent_status_is_not_stored :
  map transaction.status
    (transactions
       (fst (POST_api_transactions.handler shop
               (at_time "aaaaaaaa-0000-4000-8000-000000000001" 2000)
               {| POST_api_transactions.company_id := None;
                  POST_api_transactions.location_id := Some shop_location;
                  POST_api_transactions.order_id := Some shop_order;
                  POST_api_transactions.customer_id := Some shop_customer;
                  POST_api_transactions.transaction_type := None;
                  POST_api_transactions.amount_cents := Some 10000;
                  POST_api_transactions.payment_method := None;
                  POST_api_transactions.note := None;
                  POST_api_transactions.status := Some "succeeded" |})))
  = [Some "pending"].
Proof. vm_compute. reflexivity. Qed.

(** An amount of 0 is answered 400 like a missing one. *)
Example zero_amount_is_missing :
  POST_api_transactions.handler shop
    (at_time "aaaaaaaa-0000-4000-8000-000000000001" 2000)
    {| POST_api_transactions.company_id := None;
       POST_api_transactions.location_id := Some shop_location;
       POST_api_transactions.order_id := Some shop_order;
       POST_api_transactions.customer_id := Some shop_customer;
       POST_api_transactions.transaction_type := None;
       POST_api_transactions.amount_cents := Some 0;
       POST_api_transactions.payment_method := None;
       POST_api_transactions.note := None;
       POST_api_transactions.status := None |}
  = (shop,
     respond 400
       (error_json
          "order_id, customer_id, amount_cents, and location_id are required")).
Proof. vm_compute. reflexivity. Qed.

(** A transaction for an order that does not exist breaks the foreign key:
    500, nothing stored. *)
Example unknown_order_is_refused :
  POST_api_transactions.handler shop
    (at_time "aaaaaaaa-0000-4000-8000-000000000001" 2000)
    {| POST_api_transactions.company_id := None;
       POST_api_transactions.location_id := Some shop_location;
       POST_api_transactions.order_id := Some shop_customer;
       POST_api_transactions.customer_id := Some shop_customer;
       POST_api_transactions.transaction_type := None;
       POST_api_transactions.amount_cents := Some 10000;
       POST_api_transactions.payment_method := None;
       POST_api_transactions.note := None;
       POST_api_transactions.status := None |}
  = (shop, respond 500 (query_error_json (pg.foreign_key_violation "order_id"))).
Proof. vm_compute. reflexivity. Qed.

(** Repricing the labor item assigns its price and updated_at only. *)
Example reprice_assigns_the_price :
  map (fun r => (unassigned_columns r, order_line_item.name r,
                 order_line_item.quantity r, order_line_item.labor_hours r,
                 order_line_item.note r))
    (order_line_items (fst repriced))
  = [(unassigned_columns labor_item, "Winterize engine", Some 100, None, "")]
  /\ map (fun r => (order_line_item.fixed_price_cents r,
                    order_line_item.updated_at r))
       (order_line_items (fst repriced))
     = [(Some 25000, Some 2000)].
Proof. vm_compute. split; reflexivity. Qed.

(** The update of an unknown line item is answered 404. *)
Example unknown_line_item :
  PUT_api_order_line_items_id.handler shop_rolled_up
    (at_time "aaaaaaaa-0000-4000-8000-000000000001" 2000)
    shop_order reprice_250
  = (shop_rolled_up, respond 404 (error_json "Line item not found")).
Proof. vm_compute. reflexivity. Qed.

(** $100 paid, then $30 refunded, on a total of $150: $80 due, no credit;
    $200 paid on the same total: nothing due, $50 credit. *)
Example balance_scenarios :
  balance 15000
    [ succeeded_payment_row;
      {| transaction.id := uuid_of "aaaaaaaa-0000-4000-8000-000000000009";
         transaction.company_id := uuid_of shop_company;
         transaction.location_id := uuid_of shop_location;
         transaction.order_id := uuid_of shop_order;
         transaction.customer_id := uuid_of shop_customer;
         transaction.transaction_type := "refund";
         transaction.status := Some "succeeded";
         transaction.amount_cents := 3000;
         transaction.payment_method := None;
         transaction.payment_reference := None;
         transaction.applied_date := None;
         transaction.due_date := None;
         transaction.note := None;
         transaction.metadata := None;
         transaction.created_at := Some 1001;
         transaction.updated_at := Some 1001 |} ]
  = {| balance_total_cents := 15000; paid_cents := 10000;
       refunded_cents := 3000; due_cents := 8000; credit_cents := 0 |}
  /\ balance 15000 [succeeded_payment_row; succeeded_payment_row]
     = {| balance_total_cents := 15000; paid_cents := 20000;
          refunded_cents := 0; due_cents := 0; credit_cents := 5000 |}.
Proof. vm_compute. split; reflexivity. Qed.

(** * Further properties of the endpoints *)

(** ** What an accepted INSERT has checked *)

Lemma existsb_eqb_In (u : uuid) (ids : list uuid) :
  existsb (N.eqb u) ids = true <-> In u ids.
Proof.
  rewrite existsb_exists. split.
  - intros (x & I & E). apply N.eqb_eq in E. subst. exact I.
  - intros I. exists u. split; [exact I|apply N.eqb_refl].
Qed.

Lemma references_inr column ids u x :
  pg.references column ids (Some u) = inr x -> In u ids.
Proof.
  unfold pg.references. destruct (existsb (N.eqb u) ids) eqn:E;
    [|discriminate]. intros _. apply existsb_eqb_In. exact E.
Qed.

Lemma primary_key_inr ids u x :
  pg.primary_key ids u = inr x -> ~ In u ids.
Proof.
  unfold pg.primary_key. destruct (existsb (N.eqb u) ids) eqn:E;
    [discriminate|]. intros _ I. apply existsb_eqb_In in I. congruence.
Qed.

(** The key of an accepted transaction is new and its references exist. *)
Lemma insert_transaction_constraints db env company location order customer
  type amount method status note reference db' r :
  insert_transaction db env company location order customer type amount
    method status note reference = inr (db', r) ->
  ~ In (transaction.id r) (map transaction.id (transactions db))
  /\ In (transaction.order_id r) (map order.id (orders db))
  /\ In (transaction.customer_id r) (customer_ids db).
Proof.
  unfold insert_transaction. intros H. bind_cases H.
  unfold pg.ok in H. inversion H; subst; clear H. cbn.
  repeat match goal with
         | E : pg.primary_key _ _ = inr _ |- _ => apply primary_key_inr in E
         | E : pg.references _ _ _ = inr _ |- _ => apply references_inr in E
         end.
  auto.
Qed.

(** The key of an accepted line item is new, its order exists, and the
    columns the statement does not list have their defaults. *)
Lemma insert_order_line_item_constraints db env company location order name
  category pricing quantity fixed_price labor_hours note db' r :
  insert_order_line_item db env company location order name category pricing
    quantity fixed_price labor_hours note = inr (db', r) ->
  ~ In (order_line_item.id r) (map order_line_item.id (order_line_items db))
  /\ In (order_line_item.order_id r) (map order.id (orders db))
  /\ has_creation_defaults r.
Proof.
  unfold insert_order_line_item. intros H. bind_cases H.
  unfold pg.ok in H. inversion H; subst; clear H.
  unfold has_creation_defaults. cbn.
  repeat match goal with
         | E : pg.primary_key _ _ = inr _ |- _ => apply primary_key_inr in E
         | E : pg.references _ _ _ = inr _ |- _ => apply references_inr in E
         end.
  repeat split; auto.
Qed.

(** ** One request, table by table *)

(** A request records at most one transaction: the stored rows keep their
    ledger entries, or one row follows them whose key is new and whose order
    and customer exist. *)
Lemma handle_transactions db env req :
  map ledger_entry (transactions (fst (handle db env req)))
  = map ledger_entry (transactions db)
  \/ exists r,
       transactions (fst (handle db env req)) = (transactions db ++ [r])%list
       /\ ~ In (transaction.id r) (map transaction.id (transactions db))
       /\ In (transaction.order_id r) (map order.id (orders db))
       /\ In (transaction.customer_id r) (customer_ids db).
Proof.
  destruct req as [id b|b|id b|b|id b|g b]; cbn [handle].
  - destruct (put_order_tables db env id b) as (rows & -> & _). left; reflexivity.
  - destruct (post_line_item_cases db env b) as [[-> _]|(r & -> & _)];
      left; reflexivity.
  - destruct (put_line_item_tables db env id b) as (rows & ->). left; reflexivity.
  - unfold POST_api_transactions.handler.
    destruct (negb _ || _ || _ || _); [left; reflexivity|].
    match goal with
    | |- context [insert_transaction ?a ?b ?c ?d ?e ?f ?g ?h ?i ?j ?k ?l] =>
        destruct (insert_transaction a b c d e f g h i j k l)
          as [e'|[db' r]] eqn:I
    end; [left; reflexivity|].
    right. exists r. pose proof (insert_transaction_constraints _ _ _ _ _ _ _ _ _ _ _ _ _ _ I).
    apply insert_transaction_inr in I. destruct I as (-> & _). cbn. auto.
  - destruct (put_transaction_tables db env id b) as (rows & -> & F).
    left. cbn [transactions with_transactions].
    eapply Forall2_map_eq; [|exact F].
    intros r r' [->|S]; [reflexivity|].
    eapply set_transaction_ledger_entry; exact S.
  - unfold POST_api_payments_confirm.handler.
    destruct (negb _ || _ || _); [left; reflexivity|].
    destruct g as [intent|message]; [|left; reflexivity].
    destruct (negb _); [left; reflexivity|].
    match goal with
    | |- context [insert_transaction ?a ?b ?c ?d ?e ?f ?g ?h ?i ?j ?k ?l] =>
        destruct (insert_transaction a b c d e f g h i j k l)
          as [e'|[db' r]] eqn:I
    end; [left; reflexivity|].
    right. exists r. pose proof (insert_transaction_constraints _ _ _ _ _ _ _ _ _ _ _ _ _ _ I).
    apply insert_transaction_inr in I. destruct I as (-> & _). cbn. auto.
Qed.

Lemma set_order_line_item_unassigned env name quantity fixed_price
  labor_hours note r r' :
  set_order_line_item env name quantity fixed_price labor_hours note r
  = inr r' ->
  unassigned_columns r' = unassigned_columns r.
Proof. intros H. apply set_order_line_item_frame in H. apply H. Qed.

(** A request creates at most one line item: the stored rows keep the
    columns the update does not assign, or one row follows them whose key is
    new, whose order exists and which has the creation defaults. *)
Lemma handle_order_line_items db env req :
  map unassigned_columns (order_line_items (fst (handle db env req)))
  = map unassigned_columns (order_line_items db)
  \/ exists r,
       order_line_items (fst (handle db env req))
       = (order_line_items db ++ [r])%list
       /\ ~ In (order_line_item.id r)
            (map order_line_item.id (order_line_items db))
       /\ In (order_line_item.order_id r) (map order.id (orders db))
       /\ has_creation_defaults r.
Proof.
  destruct req as [id b|b|id b|b|id b|g b]; cbn [handle].
  - destruct (put_order_tables db env id b) as (rows & -> & _). left; reflexivity.
  - unfold POST_api_order_line_items.handler.
    destruct (negb _ || _ || _); [left; reflexivity|].
    match goal with
    | |- context [insert_order_line_item ?a ?b ?c ?d ?e ?f ?g ?h ?i ?j ?k ?l] =>
        destruct (insert_order_line_item a b c d e f g h i j k l)
          as [e'|[db' r]] eqn:I
    end; [left; reflexivity|].
    right. exists r.
    pose proof (insert_order_line_item_constraints _ _ _ _ _ _ _ _ _ _ _ _ _ _ I).
    apply insert_order_line_item_inr in I. destruct I as (-> & _). cbn. auto.
  - left. unfold PUT_api_order_line_items_id.handler.
    destruct (pg.bigint_opt _) as [e|fixed_price]; cbn [pg.bind];
      [reflexivity|].
    destruct (pg.uuid_in id) as [e|id']; cbn [pg.bind]; [reflexivity|].
    destruct (update_where _ _ (order_line_items db))
      as [e|[rows returned]] eqn:W; [reflexivity|].
    apply update_where_rows in W.
    assert (E : map unassigned_columns rows
                = map unassigned_columns (order_line_items db)).
    { eapply Forall2_map_eq; [|exact W]. cbn. intros r r' H.
      destruct (N.eqb (order_line_item.id r) id'); [|subst; reflexivity].
      eapply set_order_line_item_unassigned; exact H. }
    destruct returned; exact E.
  - destruct (post_transaction_cases db env b) as [[-> _]|(r & -> & _)];
      left; reflexivity.
  - destruct (put_transaction_tables db env id b) as (rows & -> & _).
    left; reflexivity.
  - destruct (confirm_cases db env g b)
      as [[-> _]|(i & r & s & _ & _ & -> & _)]; left; reflexivity.
Qed.

Lemma set_order_unassigned db env note priority status writer r r' :
  set_order db env note priority status writer r = inr r' ->
  order_unassigned_columns r' = order_unassigned_columns r
  /\ match order.service_writer_id r' with
     | Some w =>
         In w (user_ids db)
         \/ order.service_writer_id r' = order.service_writer_id r
     | None => True
     end.
Proof.
  unfold set_order. intros H. bind_cases H.
  unfold pg.ok in H. inversion H; subst; clear H. cbn. split; [reflexivity|].
  match goal with
  | E : (if ?c then _ else _) = inr _ |- _ => destruct c eqn:C
  end.
  - destruct (pg.COALESCE writer (order.service_writer_id r)) as [w|] eqn:W;
      [|exact I].
    right. destruct (order.service_writer_id r) as [w'|]; cbn in C;
      [|discriminate]. apply N.eqb_eq in C. subst. reflexivity.
  - destruct (pg.COALESCE writer (order.service_writer_id r)) as [w|] eqn:W;
      [|exact I].
    left. eapply references_inr. eassumption.
Qed.

(** A request leaves the customers, the users and the authorizations as
    they were, and of every order the columns the update does not assign. *)
Lemma handle_other_tables db env req :
  customer_ids (fst (handle db env req)) = customer_ids db
  /\ user_ids (fst (handle db env req)) = user_ids db
  /\ authorizations (fst (handle db env req)) = authorizations db
  /\ map order_unassigned_columns (orders (fst (handle db env req)))
     = map order_unassigned_columns (orders db).
Proof.
  destruct req as [id b|b|id b|b|id b|g b]; cbn [handle].
  - destruct (put_order_tables db env id b) as (rows & -> & F).
    cbn. repeat split. eapply Forall2_map_eq; [|exact F].
    intros r r' [->|[writer S]]; [reflexivity|].
    eapply set_order_unassigned; exact S.
  - destruct (post_line_item_cases db env b) as [[-> _]|(r & -> & _)];
      cbn; auto.
  - destruct (put_line_item_tables db env id b) as (rows & ->). cbn; auto.
  - destruct (post_transaction_cases db env b) as [[-> _]|(r & -> & _)];
      cbn; auto.
  - destruct (put_transaction_tables db env id b) as (rows & -> & _).
    cbn; auto.
  - destruct (confirm_cases db env g b)
      as [[-> _]|(i & r & s & _ & _ & -> & _)]; cbn; auto.
Qed.

(** ** Invariants of the stored tables *)

Lemma map_through {R B C : Type} (f : R -> B) (g : B -> C)
  (rows rows' : list R) :
  map f rows' = map f rows ->
  map (fun r => g (f r)) rows' = map (fun r => g (f r)) rows.
Proof.
  intros H. rewrite <- (map_map f g rows'), <- (map_map f g rows), H.
  reflexivity.
Qed.

Lemma Forall_through {R B : Type} (f : R -> B) (P : R -> Prop)
  (rows rows' : list R) :
  (forall r r', f r' = f r -> P r -> P r') ->
  map f rows' = map f rows -> Forall P rows -> Forall P rows'.
Proof.
  intros H. revert rows'.
  induction rows as [|r rest IH]; intros [|r' rest'] E F; cbn in E;
    try discriminate; constructor; inversion E; inversion F; subst; eauto.
Qed.

Lemma transaction_ids_of_entries (rows rows' : list transaction.row) :
  map ledger_entry rows' = map ledger_entry rows ->
  map transaction.id rows' = map transaction.id rows.
Proof.
  exact (map_through ledger_entry
           (fun e => fst (fst (fst (fst (fst e))))) rows rows').
Qed.

Lemma line_item_ids_of_columns (rows rows' : list order_line_item.row) :
  map unassigned_columns rows' = map unassigned_columns rows ->
  map order_line_item.id rows' = map order_line_item.id rows.
Proof.
  exact (map_through unassigned_columns
           (fun c => fst (fst (fst (fst (fst (fst (fst (fst (fst (fst
                       (fst (fst (fst c))))))))))))) rows rows').
Qed.

Lemma order_ids_of_columns (rows rows' : list order.row) :
  map order_unassigned_columns rows' = map order_unassigned_columns rows ->
  map order.id rows' = map order.id rows.
Proof.
  exact (map_through order_unassigned_columns
           (fun c => fst (fst (fst (fst (fst (fst (fst (fst (fst
                       (fst c)))))))))) rows rows').
Qed.

Lemma NoDup_snoc {A : Type} (l : list A) (a : A) :
  NoDup l -> ~ In a l -> NoDup (l ++ [a]).
Proof.
  intros N I. apply NoDup_app; [exact N|repeat constructor; intros []|].
  intros x Hx [<-|[]]. exact (I Hx).
Qed.

Lemma handle_unique_ids db env req :
  unique_ids db -> unique_ids (fst (handle db env req)).
Proof.
  intros [T L]. split.
  - destruct (handle_transactions db env req) as [E|(r & E & F & _)].
    + rewrite (transaction_ids_of_entries _ _ E). exact T.
    + rewrite E, map_app. apply NoDup_snoc; assumption.
  - destruct (handle_order_line_items db env req) as [E|(r & E & F & _)].
    + rewrite (line_item_ids_of_columns _ _ E). exact L.
    + rewrite E, map_app. apply NoDup_snoc; assumption.
Qed.

(** X1: the primary keys stay unique. Over every sequence of requests to
    the endpoints, a database in which no two transactions and no two line
    items share an id stays so. *)
Theorem primary_keys_stay_unique :
  forall (db : database) (calls : list (environment * request)),
    unique_ids db -> unique_ids (run db calls).
Proof.
  intros db calls. revert db.
  induction calls as [|[env req] rest IH]; intros db U; cbn [run];
    [exact U|].
  apply IH, handle_unique_ids, U.
Qed.

Lemma confirmed_shop_has_unique_ids :
  unique_ids shop /\ unique_ids shop_confirmed.
Proof.
  assert (U : unique_ids shop) by (split; constructor).
  split; [exact U|].
  exact (primary_keys_stay_unique shop _ U).
Defined.

(** The orders after a request, one by one against those before: the
    customer is the same and a service writer is a stored user or the
    writer of before. *)
Lemma handle_orders db env req :
  Forall2
    (fun o o' =>
       order.customer_id o' = order.customer_id o
       /\ match order.service_writer_id o' with
          | Some w =>
              In w (user_ids db)
              \/ order.service_writer_id o' = order.service_writer_id o
          | None => True
          end)
    (orders db) (orders (fst (handle db env req))).
Proof.
  assert (S : forall rows : list order.row,
             Forall2
               (fun o o' =>
                  order.customer_id o' = order.customer_id o
                  /\ match order.service_writer_id o' with
                     | Some w =>
                         In w (user_ids db)
                         \/ order.service_writer_id o'
                            = order.service_writer_id o
                     | None => True
                     end) rows rows).
  { intros rows. apply Forall2_same. intros o. split; [reflexivity|].
    destruct (order.service_writer_id o); auto. }
  destruct req as [id b|b|id b|b|id b|g b]; cbn [handle].
  - destruct (put_order_tables db env id b) as (rows & -> & F).
    cbn [orders with_orders fst]. eapply Forall2_impl; [|exact F].
    cbn. intros o o' [->|[writer H]].
    + split; [reflexivity|]. destruct (order.service_writer_id o); auto.
    + apply set_order_unassigned in H. destruct H as [U W].
      split; [|exact W]. inversion U. reflexivity.
  - destruct (post_line_item_cases db env b) as [[-> _]|(r & -> & _)];
      apply S.
  - destruct (put_line_item_tables db env id b) as (rows & ->). apply S.
  - destruct (post_transaction_cases db env b) as [[-> _]|(r & -> & _)];
      apply S.
  - destruct (put_transaction_tables db env id b) as (rows & -> & _).
    apply S.
  - destruct (confirm_cases db env g b)
      as [[-> _]|(i & r & s & _ & _ & -> & _)]; apply S.
Qed.

Lemma orders_references (customers users : list uuid)
  (rows rows' : list order.row) :
  Forall (fun o => In (order.customer_id o) customers
                   /\ match order.service_writer_id o with
                      | Some w => In w users
                      | None => True
                      end) rows ->
  Forall2
    (fun o o' =>
       order.customer_id o' = order.customer_id o
       /\ match order.service_writer_id o' with
          | Some w =>
              In w users
              \/ order.service_writer_id o' = order.service_writer_id o
          | None => True
          end) rows rows' ->
  Forall (fun o => In (order.customer_id o) customers
                   /\ match order.service_writer_id o with
                      | Some w => In w users
                      | None => True
                      end) rows'.
Proof.
  intros O F. induction F as [|o o' rest rest' [Ec Ew] _ IH].
  - constructor.
  - inversion O as [|? ? [Hc Hw] Hrest]; subst. constructor; [|auto].
    rewrite Ec. split; [exact Hc|].
    destruct (order.service_writer_id o') as [w|]; [|exact I].
    destruct Ew as [Ew|Ew]; [exact Ew|]. rewrite <- Ew in Hw. exact Hw.
Qed.

Lemma handle_references_valid db env req :
  references_valid db -> references_valid (fst (handle db env req)).
Proof.
  intros (T & L & O).
  destruct (handle_other_tables db env req) as (C & U & _ & Os).
  pose proof (order_ids_of_columns _ _ Os) as Oi.
  unfold references_valid. rewrite C, U, Oi. split; [|split].
  - destruct (handle_transactions db env req) as [E|(r & E & _ & Ro & Rc)].
    + eapply (Forall_through ledger_entry); [|exact E|exact T].
      intros r r' H. inversion H. congruence.
    + rewrite E. apply Forall_app. split; [exact T|].
      constructor; [auto|constructor].
  - destruct (handle_order_line_items db env req) as [E|(r & E & _ & Ro & _)].
    + eapply (Forall_through unassigned_columns); [|exact E|exact L].
      intros r r' H. inversion H. congruence.
    + rewrite E. apply Forall_app. split; [exact L|].
      constructor; [auto|constructor].
  - eapply orders_references; [exact O|apply handle_orders].
Qed.

(** X2: the references stay valid. Over every sequence of requests to the
    endpoints, a database in which every transaction's order and customer,
    every line item's order and every order's customer and service writer
    are stored rows stays so. *)
Theorem references_stay_valid :
  forall (db : database) (calls : list (environment * request)),
    references_valid db -> references_valid (run db calls).
Proof.
  intros db calls. revert db.
  induction calls as [|[env req] rest IH]; intros db V; cbn [run];
    [exact V|].
  apply IH, handle_references_valid, V.
Qed.

Lemma shop_references_valid : references_valid shop.
Proof.
  unfold references_valid, shop. cbn. repeat split; constructor.
  - split; [left; reflexivity|exact I].
  - constructor.
Qed.

Lemma confirmed_shop_references_valid :
  references_valid shop /\ references_valid shop_confirmed.
Proof.
  split; [exact shop_references_valid|].
  exact (references_stay_valid shop _ shop_references_valid).
Defined.

(** ** What the endpoints can never change *)

Lemma has_creation_defaults_of_columns (r r' : order_line_item.row) :
  unassigned_columns r' = unassigned_columns r ->
  has_creation_defaults r -> has_creation_defaults r'.
Proof.
  unfold has_creation_defaults. intros E. inversion E.
  intros (A & B & C & D & F & G & H & J & K & L).
  repeat split; congruence.
Qed.

(** X3: line items are only added, and only with the column defaults. After
    every sequence of requests the line-item table is the stored rows of
    before, in place and with every column the update does not assign
    unchanged (order, pricing, discounts, taxes, total_cents, status,
    hidden, ...), followed by the rows created since; and a created row has
    no labor rate and no parts cost, discounts and taxes of 0, total_cents
    0, status 'pending' and hidden false, whatever was requested for it
    afterwards. *)
Theorem line_items_keep_creation_columns :
  forall (db : database) (calls : list (environment * request)),
    exists kept created : list order_line_item.row,
      order_line_items (run db calls) = (kept ++ created)%list
      /\ map unassigned_columns kept
         = map unassigned_columns (order_line_items db)
      /\ Forall has_creation_defaults created.
Proof.
  intros db calls. revert db.
  induction calls as [|[env req] rest IH]; intros db; cbn [run].
  - exists (order_line_items db), []. rewrite app_nil_r. auto.
  - destruct (IH (fst (handle db env req))) as (kept & created & E & K & D).
    destruct (handle_order_line_items db env req)
      as [H|(r & H & _ & _ & Dr)].
    + exists kept, created. rewrite <- H. auto.
    + rewrite H, map_app in K. apply map_eq_app in K.
      destruct K as (k & last & -> & Kk & Kl).
      destruct last as [|r' [|? ?]]; cbn in Kl; try discriminate.
      assert (Er : unassigned_columns r' = unassigned_columns r)
        by congruence.
      exists k, (r' :: created). rewrite E, <- app_assoc. cbn.
      repeat split; auto. constructor; [|exact D].
      exact (has_creation_defaults_of_columns r r' Er Dr).
Qed.


(** ** The update endpoints on ids that are malformed, unknown, known *)






(** X6: an id that is no uuid is answered 500, not 404, by the three update
    endpoints, and nothing is changed. *)
Theorem put_malformed_id :
  forall (db : database) (env : environment) (id : string) (e : pg.error),
    pg.uuid_in id = inl e ->
    (forall req,
        PUT_api_transactions_id.handler db env id req = (db, query_failed e))
    /\ (forall req,
           fst (PUT_api_order_line_items_id.handler db env id req) = db
           /\ http_status
                (snd (PUT_api_order_line_items_id.handler db env id req))
              = 500%nat)
    /\ (forall req,
           fst (PUT_api_orders_id.handler db env id req) = db
           /\ http_status (snd (PUT_api_orders_id.handler db env id req))
              = 500%nat).
Proof.
  intros db env id e U. repeat split.
  - unfold PUT_api_transactions_id.handler. rewrite U. reflexivity.
  - unfold PUT_api_order_line_items_id.handler. rewrite U.
    destruct (pg.bigint_opt _); reflexivity.
  - unfold PUT_api_order_line_items_id.handler. rewrite U.
    destruct (pg.bigint_opt _); reflexivity.
  - unfold PUT_api_orders_id.handler. rewrite U.
    destruct (pg.uuid_in_opt _); reflexivity.
  - unfold PUT_api_orders_id.handler. rewrite U.
    destruct (pg.uuid_in_opt _); reflexivity.
Qed.

Lemma put_malformed_id_witness :
  PUT_api_transactions_id.handler shop_paid
    (at_time "aaaaaaaa-0000-4000-8000-000000000001" 2000) "42"
    (set_status "voided")
  = (shop_paid,
     query_failed (pg.invalid_text_representation "uuid" "42")).
Proof.
  apply (put_malformed_id shop_paid _ "42"
           (pg.invalid_text_representation "uuid" "42")).
  reflexivity.
Defined.




(** ** What recording a transaction reads of the ledger *)

(** The INSERT reads of the stored transactions their ids only. *)
Lemma insert_transaction_reads_ids db rows env company location order
  customer type amount method status note reference :
  map transaction.id rows = map transaction.id (transactions db) ->
  insert_transaction (with_transactions db rows) env company location
    order customer type amount method status note reference
  = match
      insert_transaction db env company location order customer type amount
        method status note reference
    with
    | inl e => inl e
    | inr (_, r) => inr (with_transactions db (rows ++ [r]), r)
    end.
Proof.
  intros H. unfold insert_transaction.
  cbn [transactions orders customer_ids with_transactions]. rewrite H.
  same_binds. reflexivity.
Qed.

(** X8: recording a transaction never reads what the ledger holds. Both
    recording endpoints give the same answer (the same status and the same
    new row) on two databases that differ in their stored transactions only
    and agree on these rows' ids: the amounts, statuses, types and payment
    references already stored have no influence. *)
Theorem recording_reads_only_ids :
  forall (db : database) (rows : list transaction.row) (env : environment),
    map transaction.id rows = map transaction.id (transactions db) ->
    (forall req,
        snd (POST_api_transactions.handler (with_transactions db rows) env req)
        = snd (POST_api_transactions.handler db env req))
    /\ (forall retrieved req,
           snd (POST_api_payments_confirm.handler
                  (with_transactions db rows) env retrieved req)
           = snd (POST_api_payments_confirm.handler db env retrieved req)).
Proof.
  intros db rows env H. split.
  - intros req. unfold POST_api_transactions.handler.
    destruct (negb _ || _ || _ || _); [reflexivity|].
    rewrite (insert_transaction_reads_ids db rows) by exact H.
    match goal with
    | |- context [insert_transaction ?a ?b ?c ?d ?e ?f ?g ?h ?i ?j ?k ?l] =>
        destruct (insert_transaction a b c d e f g h i j k l) as [e'|[db' r]]
    end; reflexivity.
  - intros retrieved req. unfold POST_api_payments_confirm.handler.
    destruct (negb _ || _ || _); [reflexivity|].
    destruct retrieved as [intent|message]; [|reflexivity].
    destruct (negb _); [reflexivity|].
    rewrite (insert_transaction_reads_ids db rows) by exact H.
    match goal with
    | |- context [insert_transaction ?a ?b ?c ?d ?e ?f ?g ?h ?i ?j ?k ?l] =>
        destruct (insert_transaction a b c d e f g h i j k l) as [e'|[db' r]]
    end; reflexivity.
Qed.

(** The ledger of the confirmed shop, and the same rows with no payment
    reference: the confirmation of the intent is answered alike on both. *)
Lemma recording_reads_only_ids_witness :
  snd (POST_api_payments_confirm.handler
         (with_transactions shop_confirmed
            (map (fun t =>
                    {| transaction.id := transaction.id t;
                       transaction.company_id := transaction.company_id t;
                       transaction.location_id := transaction.location_id t;
                       transaction.order_id := transaction.order_id t;
                       transaction.customer_id := transaction.customer_id t;
                       transaction.transaction_type := "refund";
                       transaction.status := Some "failed";
                       transaction.amount_cents := 1;
                       transaction.payment_method := None;
                       transaction.payment_reference := None;
                       transaction.applied_date := None;
                       transaction.due_date := None;
                       transaction.note := None;
                       transaction.metadata := None;
                       transaction.created_at := None;
                       transaction.updated_at := None |})
               (transactions shop_confirmed)))
         (at_time "aaaaaaaa-0000-4000-8000-000000000003" 2002)
         (stripe.resolved (intent_100 "succeeded")) confirm_intent_100)
  = snd second_confirmation.
Proof.
  apply (recording_reads_only_ids shop_confirmed).
  rewrite map_map. reflexivity.
Defined.

Lemma bigint_opp (a : Z) :
  - 2 ^ 63 < a < 2 ^ 63 ->
  pg.bigint_opt (Some a) = inr (Some a)
  /\ pg.bigint_opt (Some (- a)) = inr (Some (- a)).
Proof.
  intros R. unfold pg.bigint_opt, pg.bigint.
  assert (A : (- 2 ^ 63 <=? a) && (a <? 2 ^ 63) = true).
  { apply andb_true_intro. split; [apply Z.leb_le|apply Z.ltb_lt]; lia. }
  assert (B : (- 2 ^ 63 <=? - a) && (- a <? 2 ^ 63) = true).
  { apply andb_true_intro. split; [apply Z.leb_le|apply Z.ltb_lt]; lia. }
  rewrite A, B. split; reflexivity.
Qed.

(** X9: the amount of a transaction is checked for presence, not for sign.
    The creation endpoint answers 400 exactly when order_id, customer_id or
    location_id is missing or empty or amount_cents is missing or 0 (so a
    transaction of amount 0 cannot be recorded); and a request with a
    non-zero amount within BIGINT is answered the same status as the
    request with the opposite amount. *)
Theorem post_transaction_amount :
  forall (db : database) (env : environment)
         (req : POST_api_transactions.body) (a : Z),
    a <> 0 -> - 2 ^ 63 < a < 2 ^ 63 ->
    Nat.eqb (http_status (snd (POST_api_transactions.handler db env req))) 400
    = missing_text (POST_api_transactions.order_id req)
      || missing_text (POST_api_transactions.customer_id req)
      || missing_amount (POST_api_transactions.amount_cents req)
      || missing_text (POST_api_transactions.location_id req)
    /\ http_status
         (snd (POST_api_transactions.handler db env (with_amount req (Some a))))
       = http_status
           (snd (POST_api_transactions.handler db env
                   (with_amount req (Some (- a))))).
Proof.
  intros db env req a Nz R.
  assert (B : forall v, negb (js.truthy_string v) = missing_text v).
  { intros [[|c s]|]; reflexivity. }
  assert (A : forall v, negb (js.truthy_number v) = missing_amount v).
  { intros [[|p|p]|]; reflexivity. }
  split.
  - rewrite <- !B, <- A. unfold POST_api_transactions.handler.
    destruct (negb _ || _ || _ || _); [reflexivity|].
    match goal with
    | |- context [insert_transaction ?a ?b ?c ?d ?e ?f ?g ?h ?i ?j ?k ?l] =>
        destruct (insert_transaction a b c d e f g h i j k l) as [e'|[db' r]]
    end; reflexivity.
  - unfold POST_api_transactions.handler, with_amount.
    cbn [POST_api_transactions.order_id POST_api_transactions.customer_id
         POST_api_transactions.amount_cents POST_api_transactions.location_id
         POST_api_transactions.company_id
         POST_api_transactions.transaction_type
         POST_api_transactions.payment_method POST_api_transactions.note].
    rewrite !A.
    assert (Ma : missing_amount (Some a) = false)
      by (destruct a; cbn; congruence).
    assert (Mo : missing_amount (Some (- a)) = false)
      by (destruct a; cbn; congruence).
    rewrite Ma, Mo.
    destruct (negb _ || _ || false || _); [reflexivity|].
    unfold insert_transaction.
    destruct (bigint_opp a R) as [-> ->].
    same_binds. reflexivity.
Qed.

Lemma post_transaction_amount_witness :
  Nat.eqb (http_status
             (snd (POST_api_transactions.handler shop
                     (at_time "aaaaaaaa-0000-4000-8000-000000000001" 2000)
                     payment_250))) 400
  = missing_text (POST_api_transactions.order_id payment_250)
    || missing_text (POST_api_transactions.customer_id payment_250)
    || missing_amount (POST_api_transactions.amount_cents payment_250)
    || missing_text (POST_api_transactions.location_id payment_250)
  /\ http_status
       (snd (POST_api_transactions.handler shop
               (at_time "aaaaaaaa-0000-4000-8000-000000000001" 2000)
               (with_amount payment_250 (Some 25000))))
     = http_status
         (snd (POST_api_transactions.handler shop
                 (at_time "aaaaaaaa-0000-4000-8000-000000000001" 2000)
                 (with_amount payment_250 (Some (- 25000))))).
Proof.
  apply (post_transaction_amount shop
           (at_time "aaaaaaaa-0000-4000-8000-000000000001" 2000)
           payment_250 25000); lia.
Defined.

(** ** Reading back what was written *)

Lemma selected_In {R : Type} (may_precede : R -> R -> bool)
  (condition : R -> bool) (table result : list R) (x : R) :
  selected may_precede condition table result ->
  (In x result <-> In x table /\ condition x = true).
Proof.
  intros [P _]. rewrite <- filter_In. split; intros H.
  - eapply Permutation_in; [apply Permutation_sym; exact P|exact H].
  - eapply Permutation_in; [exact P|exact H].
Qed.

Lemma place_permutation {R : Type} (may_precede : R -> R -> bool) (r : R)
  (sorted : list R) :
  Permutation (r :: sorted) (place may_precede r sorted).
Proof.
  induction sorted as [|s rest IH]; cbn; [reflexivity|].
  destruct (may_precede r s); [reflexivity|].
  rewrite perm_swap. constructor. exact IH.
Qed.

Lemma place_sorted {R : Type} (may_precede : R -> R -> bool) (r : R)
  (sorted : list R) :
  (forall a b, may_precede a b = false -> may_precede b a = true) ->
  (forall a b c, may_precede a b = true -> may_precede b c = true ->
                 may_precede a c = true) ->
  StronglySorted (fun a b => may_precede a b = true) sorted ->
  StronglySorted (fun a b => may_precede a b = true)
    (place may_precede r sorted).
Proof.
  intros total trans S. induction S as [|s rest S IH F]; cbn.
  - constructor; constructor.
  - destruct (may_precede r s) eqn:E.
    + constructor; [constructor; assumption|].
      constructor; [exact E|].
      eapply Forall_impl; [|exact F]. intros x Hx. eapply trans; eauto.
    + constructor; [exact IH|].
      assert (P : Forall (fun b => may_precede s b = true) (r :: rest))
        by (constructor; auto).
      eapply Forall_forall. intros x Hx.
      eapply Forall_forall in P; [exact P|].
      eapply Permutation_in;
        [apply Permutation_sym, place_permutation|exact Hx].
Qed.

(** The insertion sort of the selected rows is a result of the query, for a
    ranking that is total and transitive. *)
Lemma order_by_selected {R : Type} (may_precede : R -> R -> bool)
  (condition : R -> bool) (table : list R) :
  (forall a b, may_precede a b = false -> may_precede b a = true) ->
  (forall a b c, may_precede a b = true -> may_precede b c = true ->
                 may_precede a c = true) ->
  selected may_precede condition table
    (order_by may_precede (filter condition table)).
Proof.
  intros total trans. unfold selected, order_by.
  induction (filter condition table) as [|r rest [P S]]; cbn.
  - split; constructor.
  - split.
    + rewrite <- place_permutation. constructor. exact P.
    + apply place_sorted; assumption.
Qed.

Lemma asc_total (a b : option Z) : asc a b = false -> asc b a = true.
Proof.
  destruct a as [x|], b as [y|]; cbn; try congruence.
  intros H. apply Z.leb_gt in H. apply Z.leb_le. lia.
Qed.

Lemma asc_trans (a b c : option Z) :
  asc a b = true -> asc b c = true -> asc a c = true.
Proof.
  destruct a as [x|], b as [y|], c as [z|]; cbn; try congruence.
  intros H1 H2. apply Z.leb_le in H1, H2. apply Z.leb_le. lia.
Qed.

Lemma insert_order_line_item_order db env company location text name
  category pricing quantity fixed_price labor_hours note db' r :
  insert_order_line_item db env company location (Some text) name category
    pricing quantity fixed_price labor_hours note = inr (db', r) ->
  pg.uuid_in text = inr (order_line_item.order_id r).
Proof.
  unfold insert_order_line_item. intros H. bind_cases H.
  unfold pg.ok in H. inversion H; subst; clear H. cbn.
  match goal with
  | E : pg.uuid_in_opt (Some text) = inr _ |- _ =>
      cbn in E; destruct (pg.uuid_in text) as [?|parsed]; cbn in E;
      [discriminate|]; inversion E; subst; clear E
  end.
  match goal with
  | E : pg.not_null "order_id" (Some _) = inr _ |- _ =>
      cbn in E; inversion E; subst; clear E
  end.
  reflexivity.
Qed.

Lemma insert_transaction_order db env company location text customer type
  amount method status note reference db' r :
  insert_transaction db env company location (Some text) customer type amount
    method status note reference = inr (db', r) ->
  pg.uuid_in text = inr (transaction.order_id r).
Proof.
  unfold insert_transaction. intros H. bind_cases H.
  unfold pg.ok in H. inversion H; subst; clear H. cbn.
  match goal with
  | E : pg.uuid_in_opt (Some text) = inr _ |- _ =>
      cbn in E; destruct (pg.uuid_in text) as [?|parsed]; cbn in E;
      [discriminate|]; inversion E; subst; clear E
  end.
  match goal with
  | E : pg.not_null "order_id" (Some _) = inr _ |- _ =>
      cbn in E; inversion E; subst; clear E
  end.
  reflexivity.
Qed.

Lemma by_ordinal_total a b : by_ordinal a b = false -> by_ordinal b a = true.
Proof. apply asc_total. Qed.

Lemma by_ordinal_trans a b c :
  by_ordinal a b = true -> by_ordinal b c = true -> by_ordinal a c = true.
Proof. apply asc_trans. Qed.

Lemma latest_first_total a b :
  latest_first a b = false -> latest_first b a = true.
Proof. apply asc_total. Qed.

Lemma latest_first_trans a b c :
  latest_first a b = true -> latest_first b c = true ->
  latest_first a c = true.
Proof. unfold latest_first, desc. intros H1 H2. eapply asc_trans; eauto. Qed.

(** X10: a created line item is listed. When the creation of a line item
    is answered 201, every answer of GET /api/orders/:id/line-items for the
    order id of the request, on the database after the creation, is a 200
    whose rows hold the created row, and hold besides it exactly the line
    items the order had before. *)
Theorem created_line_item_is_listed :
  forall (db : database) (env : environment)
         (req : POST_api_order_line_items.body) (text : string)
         (result : nat * read_json),
    POST_api_order_line_items.order_id req = Some text ->
    http_status (snd (POST_api_order_line_items.handler db env req))
    = 201%nat ->
    GET_api_orders_id_line_items
      (fst (POST_api_order_line_items.handler db env req)) text result ->
    exists (r : order_line_item.row) (rows : list order_line_item.row),
      snd (POST_api_order_line_items.handler db env req)
      = respond 201 (line_item_json r)
      /\ result = (200%nat, line_items_json rows)
      /\ In r rows
      /\ forall x, In x rows <->
                   x = r
                   \/ (In x (order_line_items db)
                       /\ order_line_item.order_id x
                          = order_line_item.order_id r).
Proof.
  intros db env req text result T S G.
  unfold POST_api_order_line_items.handler in *. rewrite T in *.
  destruct (negb _ || _ || _); [discriminate S|].
  match type of S with
  | context [insert_order_line_item ?a ?b ?c ?d ?e ?f ?g ?h ?i ?j ?k ?l] =>
      destruct (insert_order_line_item a b c d e f g h i j k l)
        as [e'|[db' r]] eqn:I
  end; [discriminate S|].
  pose proof (insert_order_line_item_order _ _ _ _ _ _ _ _ _ _ _ _ _ _ I) as U.
  apply insert_order_line_item_inr in I. destruct I as (-> & _).
  cbn [fst snd] in *. unfold GET_api_orders_id_line_items in G.
  rewrite U in G. destruct G as (rows & Sel & ->).
  exists r, rows. split; [reflexivity|]. split; [reflexivity|].
  assert (M : forall x, In x rows <->
                        x = r
                        \/ (In x (order_line_items db)
                            /\ order_line_item.order_id x
                               = order_line_item.order_id r)).
  { intros x. rewrite (selected_In _ _ _ _ x Sel).
    cbn [order_line_items with_order_line_items].
    rewrite in_app_iff, N.eqb_eq. cbn [In]. split.
    - intros [[H|[H|[]]] E]; [right|left]; auto.
    - intros [->|[H E]]; auto. }
  split; [apply M; left; reflexivity|exact M].
Qed.

Lemma created_line_item_is_listed_witness :
  exists (r : order_line_item.row) (rows : list order_line_item.row),
    snd negative_item_posted = respond 201 (line_item_json r)
    /\ (200%nat,
        line_items_json
          (order_by by_ordinal
             (filter (fun r => N.eqb (order_line_item.order_id r)
                                 (uuid_of shop_order))
                (order_line_items (fst negative_item_posted)))))
       = (200%nat, line_items_json rows)
    /\ In r rows
    /\ forall x, In x rows <->
                 x = r
                 \/ (In x (order_line_items shop)
                     /\ order_line_item.order_id x
                        = order_line_item.order_id r).
Proof.
  apply (created_line_item_is_listed shop
           (at_time "aaaaaaaa-0000-4000-8000-000000000001" 2000)
           negative_item shop_order).
  - reflexivity.
  - vm_compute. reflexivity.
  - unfold GET_api_orders_id_line_items.
    replace (pg.uuid_in shop_order)
      with (inr (A:=pg.error) (uuid_of shop_order))
      by (vm_compute; reflexivity).
    eexists. split; [|reflexivity].
    apply order_by_selected; [apply by_ordinal_total|apply by_ordinal_trans].
Defined.

(** X11: an accepted confirmation is listed and counted. When the payment
    confirmation is answered 200, the stored transaction of the answer has
    status 'paid' and the intent's amount; every answer of
    GET /api/orders/:id/payments for the order id of the request lists it;
    and the revenue report without filters counts one transaction more and
    the intent's amount more than before. *)
Theorem confirmed_payment_is_listed_and_counted :
  forall (db : database) (env : environment) (retrieved : stripe.retrieved)
         (req : POST_api_payments_confirm.body) (text : string)
         (result : nat * read_json),
    POST_api_payments_confirm.order_id req = Some text ->
    http_status (snd (POST_api_payments_confirm.handler db env retrieved req))
    = 200%nat ->
    GET_api_orders_id_payments
      (fst (POST_api_payments_confirm.handler db env retrieved req)) text
      result ->
    exists (r : transaction.row) (rows : list transaction.row)
           (total count : Z),
      json_body (snd (POST_api_payments_confirm.handler db env retrieved req))
      = confirm_json true r "succeeded" (transaction.amount_cents r)
      /\ transaction.status r = Some "paid"
      /\ result = (200%nat, transactions_json rows)
      /\ In r rows
      /\ revenue db = (200%nat, revenue_json total count)
      /\ revenue (fst (POST_api_payments_confirm.handler db env retrieved req))
         = (200%nat,
            revenue_json (total + transaction.amount_cents r) (count + 1)).
Proof.
  intros db env retrieved req text result T S G.
  destruct (confirm_cases db env retrieved req)
    as [[_ [H|H]]|(intent & r & reference & -> & St & H & Sr & A & _)];
    [rewrite H in S; discriminate S|rewrite H in S; discriminate S|].
  assert (U : pg.uuid_in text = inr (transaction.order_id r)).
  { unfold POST_api_payments_confirm.handler in H. rewrite T in H.
    destruct (negb _ || _ || _); [discriminate H|].
    destruct (negb _); [discriminate H|].
    match type of H with
    | context [insert_transaction ?a ?b ?c ?d ?e ?f ?g ?h ?i ?j ?k ?l] =>
        destruct (insert_transaction a b c d e f g h i j k l)
          as [e'|[db' r0]] eqn:I
    end; [discriminate H|].
    apply insert_transaction_order in I. inversion H; subst. exact I. }
  rewrite H in *. cbn [fst snd json_body respond] in *.
  unfold GET_api_orders_id_payments in G. rewrite U in G.
  destruct G as (rows & Sel & ->).
  exists r, rows,
    (fold_right Z.add 0
       (map transaction.amount_cents
          (filter (counted None None None) (transactions db)))),
    (Z.of_nat (List.length (filter (counted None None None) (transactions db)))).
  rewrite St, A. repeat split; auto.
  - apply (selected_In _ _ _ _ r Sel). split.
    + cbn. apply in_or_app. right. left. reflexivity.
    + apply N.eqb_refl.
  - unfold revenue, GET_api_reports_revenue. cbn [js.truthy_string
      pg.uuid_in_opt pg.ok transactions with_transactions].
    rewrite filter_app. cbn [filter].
    assert (C : counted None None None r = true).
    { unfold counted, revenue_where, and_if_given, sql_eq_text. rewrite Sr.
      reflexivity. }
    rewrite C, map_app, length_app. cbn [map List.length].
    f_equal. f_equal; [|lia].
    induction (map transaction.amount_cents
                 (filter (counted None None None) (transactions db)))
      as [|a l IH]; cbn [app fold_right]; [lia|]. rewrite IH. lia.
Qed.

Lemma confirmed_payment_is_listed_and_counted_witness :
  exists (r : transaction.row) (rows : list transaction.row)
         (total count : Z),
    json_body (snd first_confirmation)
    = confirm_json true r "succeeded" (transaction.amount_cents r)
    /\ transaction.status r = Some "paid"
    /\ (200%nat,
        transactions_json
          (order_by latest_first
             (filter (fun t => N.eqb (transaction.order_id t)
                                 (uuid_of shop_order))
                (transactions (fst first_confirmation)))))
       = (200%nat, transactions_json rows)
    /\ In r rows
    /\ revenue shop = (200%nat, revenue_json total count)
    /\ revenue (fst first_confirmation)
       = (200%nat,
          revenue_json (total + transaction.amount_cents r) (count + 1)).
Proof.
  apply (confirmed_payment_is_listed_and_counted shop
           (at_time "aaaaaaaa-0000-4000-8000-000000000001" 2000)
           (stripe.resolved (intent_100 "succeeded")) confirm_intent_100
           shop_order).
  - reflexivity.
  - vm_compute. reflexivity.
  - unfold GET_api_orders_id_payments.
    replace (pg.uuid_in shop_order)
      with (inr (A:=pg.error) (uuid_of shop_order))
      by (vm_compute; reflexivity).
    eexists. split; [|reflexivity].
    apply order_by_selected;
      [apply latest_first_total|apply latest_first_trans].
Defined.

(** ** Tombstoned orders *)

Lemma update_where_returned {R : Type} (matches : R -> bool)
  (set : R -> pg.result R) (rows rows' : list R) :
  update_where matches set rows = inr (rows', []) ->
  forall r, In r rows -> matches r = false.
Proof.
  revert rows'. induction rows as [|t rest IH]; intros rows' H r I;
    [destruct I|]. cbn in H. destruct (matches t) eqn:M.
  - destruct (set t); cbn in H; [discriminate|].
    destruct (update_where matches set rest) as [e|[x y]]; cbn in H;
      discriminate.
  - destruct (update_where matches set rest) as [e|[x y]] eqn:U; cbn in H;
      [discriminate|]. inversion H; subst.
    destruct I as [<-|I]; [exact M|]. eapply IH; eauto.
Qed.

(** X12: a tombstoned order is hidden from reading and open to writing.
    For an id under which orders are stored, none of them with deleted =
    false, GET /api/orders/:id answers 404 "Order not found", while
    PUT /api/orders/:id does not answer 404: it selects the order by id
    alone and updates it (or fails on the values sent). *)
Theorem deleted_order_is_still_updated :
  forall (db : database) (env : environment) (id : string) (o : order.row)
         (req : PUT_api_orders_id.body) (result : nat * read_json),
    pg.uuid_in id = inr (order.id o) ->
    In o (orders db) ->
    (forall o', In o' (orders db) -> order.id o' = order.id o ->
                order.deleted o' <> Some false) ->
    GET_api_orders_id db id result ->
    result = (404%nat, not_found_json "Order not found")
    /\ http_status (snd (PUT_api_orders_id.handler db env id req)) <> 404%nat.
Proof.
  intros db env id o req result U I D G. split.
  - unfold GET_api_orders_id in G. rewrite U in G.
    destruct G as (found & Sel & G). destruct found as [|o' rest];
      [exact G|]. exfalso.
    assert (F : In o' (orders db) /\ live_order (order.id o) o' = true).
    { apply (selected_In _ _ _ _ o' Sel). left; reflexivity. }
    destruct F as [Io L]. unfold live_order in L.
    apply andb_prop in L. destruct L as [E L]. apply N.eqb_eq in E.
    apply (D o' Io E). destruct (order.deleted o') as [[|]|];
      try discriminate. reflexivity.
  - unfold PUT_api_orders_id.handler. rewrite U.
    destruct (pg.uuid_in_opt _) as [e|writer]; cbn [pg.bind];
      [cbn; discriminate|].
    destruct (update_where _ _ (orders db)) as [e|[rows returned]] eqn:W;
      [cbn; discriminate|].
    destruct returned; [|cbn; discriminate]. exfalso.
    pose proof (update_where_returned _ _ _ _ W o I) as M. cbn in M.
    rewrite N.eqb_refl in M. discriminate M.
Qed.

Lemma deleted_order_is_still_updated_witness :
  (404%nat, not_found_json "Order not found")
  = (404%nat, not_found_json "Order not found")
  /\ http_status
       (snd (PUT_api_orders_id.handler shop_order_deleted
               (at_time "aaaaaaaa-0000-4000-8000-000000000001" 2000)
               shop_order (set_note "call the owner")))
     <> 404%nat.
Proof.
  apply (deleted_order_is_still_updated shop_order_deleted
           (at_time "aaaaaaaa-0000-4000-8000-000000000001" 2000)
           shop_order
           (match orders shop_order_deleted with
            | o :: _ => o
            | [] => order_with_totals 0 0 0
            end)).
  - vm_compute. reflexivity.
  - left; reflexivity.
  - intros o' [<-|[]] _. cbn. discriminate.
  - unfold GET_api_orders_id.
    replace (pg.uuid_in shop_order)
      with (inr (A:=pg.error) (uuid_of shop_order))
      by (vm_compute; reflexivity).
    exists []. split; [|reflexivity].
    split; [cbn; constructor|constructor].
Defined.

Example deleted_order_note_is_written :
  http_status
    (snd (PUT_api_orders_id.handler shop_order_deleted
            (at_time "aaaaaaaa-0000-4000-8000-000000000001" 2000)
            shop_order (set_note "call the owner"))) = 200%nat
  /\ map (fun o => (order.note o, order.deleted o))
       (orders
          (fst (PUT_api_orders_id.handler shop_order_deleted
                  (at_time "aaaaaaaa-0000-4000-8000-000000000001" 2000)
                  shop_order (set_note "call the owner"))))
     = [("call the owner", Some true)].
Proof. vm_compute. split; reflexivity. Qed.

(** ** The revenue report *)

(** The WHERE clause, read with SQL's precedence and three truth values,
    counts a transaction exactly when it is completed, or paid and within
    the filters. *)
Lemma counted_cases start_date end_date location_id t :
  counted start_date end_date location_id t
  = has_status "completed" t
    || has_status "paid" t && within start_date end_date location_id t.
Proof.
  unfold counted, revenue_where, and_if_given, has_status, within,
    sql_eq_text, sql_ge, sql_le.
  destruct (transaction.status t) as [s|]; cbn [option_map].
  - destruct (s =? "completed")%string eqn:C.
    + apply String.eqb_eq in C. subst s. cbn.
      destruct location_id, end_date, start_date,
        (transaction.created_at t); cbn;
        repeat match goal with
               | |- context [if ?c then _ else _] => destruct c; cbn
               | |- context [(?a <=? ?b)] => destruct (a <=? b); cbn
               | |- context [N.eqb ?a ?b] => destruct (N.eqb a b); cbn
               end; reflexivity.
    + destruct (s =? "paid")%string;
        destruct location_id, end_date, start_date,
          (transaction.created_at t); cbn;
        repeat match goal with
               | |- context [(?a <=? ?b)] => destruct (a <=? b); cbn
               | |- context [N.eqb ?a ?b] => destruct (N.eqb a b); cbn
               end; reflexivity.
  - destruct location_id, end_date, start_date,
      (transaction.created_at t); cbn;
      repeat match goal with
             | |- context [(?a <=? ?b)] => destruct (a <=? b); cbn
             | |- context [N.eqb ?a ?b] => destruct (N.eqb a b); cbn
             end; reflexivity.
Qed.

(** X13: the filters of the revenue report do not reach the completed
    transactions. With a location filter that is absent, empty or a uuid,
    the report is answered 200 and sums and counts the transactions of
    status 'completed', all of them whatever the dates and the location
    asked for, together with the transactions of status 'paid' that are
    within the filters. *)
Theorem revenue_filters_spare_completed :
  forall (db : database) (start_date end_date : option timestamp)
         (location_id : option string) (location : option uuid),
    pg.uuid_in_opt
      (if js.truthy_string location_id then location_id else None)
    = inr location ->
    GET_api_reports_revenue db start_date end_date location_id
    = (200%nat,
       revenue_json
         (sum_amounts
            (fun t => has_status "completed" t
                      || has_status "paid" t
                         && within start_date end_date location t)
            (transactions db))
         (Z.of_nat
            (List.length
               (filter
                  (fun t => has_status "completed" t
                            || has_status "paid" t
                               && within start_date end_date location t)
                  (transactions db)))))
    /\ forall t, In t (transactions db) ->
                 has_status "completed" t = true ->
                 In t (filter (counted start_date end_date location)
                         (transactions db)).
Proof.
  intros db start_date end_date location_id location L. split.
  - unfold GET_api_reports_revenue. rewrite L. unfold sum_amounts.
    rewrite (filter_ext _ _ (counted_cases start_date end_date location)).
    reflexivity.
  - intros t I C. apply filter_In. split; [exact I|].
    rewrite counted_cases, C. reflexivity.
Qed.

(** The report from time 5000 on: the $30 paid at 6000, and the $70
    completed at 1000. *)
Example revenue_since_5000 :
  GET_api_reports_revenue shop_books (Some 5000) None None
  = (200%nat, revenue_json 10000 2)
  /\ GET_api_reports_revenue shop_books None None None
     = (200%nat, revenue_json 20000 3)
  /\ GET_api_reports_revenue shop_books None None (Some "Tampa")
     = (500%nat,
        failed_query_json (pg.invalid_text_representation "uuid" "Tampa")).
Proof. vm_compute. repeat split; reflexivity. Qed.

Lemma revenue_filters_spare_completed_witness :
  GET_api_reports_revenue shop_books (Some 5000) None (Some "")
  = (200%nat,
     revenue_json
       (sum_amounts
          (fun t => has_status "completed" t
                    || has_status "paid" t && within (Some 5000) None None t)
          (transactions shop_books))
       (Z.of_nat
          (List.length
             (filter
                (fun t => has_status "completed" t
                          || has_status "paid" t
                             && within (Some 5000) None None t)
                (transactions shop_books)))))
  /\ forall t, In t (transactions shop_books) ->
               has_status "completed" t = true ->
               In t (filter (counted (Some 5000) None None)
                       (transactions shop_books)).
Proof.
  apply (revenue_filters_spare_completed shop_books (Some 5000) None
           (Some "") None).
  reflexivity.
Defined.

(** X14: a transaction created through POST /api/transactions is no
    revenue. Whatever the request and the filters, the revenue report on
    the database after the request is the report of before: the stored
    status 'pending' is neither 'completed' nor 'paid'. *)
Theorem posted_transaction_is_no_revenue :
  forall (db : database) (env : environment)
         (req : POST_api_transactions.body)
         (start_date end_date : option timestamp)
         (location_id : option string),
    GET_api_reports_revenue (fst (POST_api_transactions.handler db env req))
      start_date end_date location_id
    = GET_api_reports_revenue db start_date end_date location_id.
Proof.
  intros db env req start_date end_date location_id.
  destruct (post_transaction_cases db env req) as [[-> _]|(r & -> & S & _)];
    [reflexivity|].
  unfold GET_api_reports_revenue. cbn [fst transactions with_transactions].
  destruct (pg.uuid_in_opt _) as [e|location]; [reflexivity|].
  rewrite filter_app. cbn [filter].
  rewrite counted_cases. unfold has_status. rewrite S. cbn.
  rewrite app_nil_r. reflexivity.
Qed.

(** ** parseQueryParams and buildFilterWhere *)

Lemma trim_start_length (s : string) :
  (String.length (trim_start s) <= String.length s)%nat.
Proof.
  induction s as [|c rest IH]; cbn; [lia|].
  destruct (is_white_space c); cbn; lia.
Qed.

Lemma radix_digit_range (radix : Z) (c : ascii) (d : Z) :
  radix_digit radix c = Some d -> 0 <= d < radix.
Proof.
  unfold radix_digit.
  set (n := Z.of_nat (nat_of_ascii c)).
  destruct ((48 <=? n) && (n <=? 57)) eqn:A.
  - apply andb_prop in A. destruct A as [A1 A2]. apply Z.leb_le in A1.
    destruct (n - 48 <? radix) eqn:R; [|discriminate].
    intros H; inversion H; subst. apply Z.ltb_lt in R. lia.
  - destruct ((97 <=? n) && (n <=? 122)) eqn:B.
    + apply andb_prop in B. destruct B as [B1 B2]. apply Z.leb_le in B1.
      destruct (n - 87 <? radix) eqn:R; [|discriminate].
      intros H; inversion H; subst. apply Z.ltb_lt in R. lia.
    + destruct ((65 <=? n) && (n <=? 90)) eqn:C; [|discriminate].
      apply andb_prop in C. destruct C as [C1 C2]. apply Z.leb_le in C1.
      destruct (n - 55 <? radix) eqn:R; [|discriminate].
      intros H; inversion H; subst. apply Z.ltb_lt in R. lia.
Qed.

(** The digits read after a value [v0] give less than
    [(v0 + 1) * radix ^ length]. *)
Lemma digits_bound (radix : Z) (s : string) :
  0 < radix ->
  forall v0 v, 0 <= v0 -> digits radix s (Some v0) = Some v ->
               0 <= v < (v0 + 1) * radix ^ Z.of_nat (String.length s).
Proof.
  intros R. induction s as [|c rest IH]; intros v0 v P H; cbn in H.
  - inversion H; subst. cbn. lia.
  - cbn [String.length]. rewrite Nat2Z.inj_succ, Z.pow_succ_r by lia.
    pose proof (Z.pow_pos_nonneg radix (Z.of_nat (String.length rest)) R
                  (Nat2Z.is_nonneg _)) as Pw.
    destruct (radix_digit radix c) as [d|] eqn:D.
    + apply radix_digit_range in D.
      apply IH in H; [|nia]. split; [lia|].
      destruct H as [_ H]. nia.
    + inversion H; subst. split; [lia|]. nia.
Qed.

Lemma digits_bound_none (radix : Z) (s : string) (v : Z) :
  0 < radix -> digits radix s None = Some v ->
  0 <= v < radix ^ Z.of_nat (String.length s).
Proof.
  intros R H. destruct s as [|c rest]; cbn in H; [discriminate|].
  destruct (radix_digit radix c) as [d|] eqn:D; [|discriminate].
  apply radix_digit_range in D. apply digits_bound in H; [|lia|lia].
  cbn [String.length]. rewrite Nat2Z.inj_succ, Z.pow_succ_r by lia.
  pose proof (Z.pow_pos_nonneg radix (Z.of_nat (String.length rest)) R
                (Nat2Z.is_nonneg _)). nia.
Qed.

Lemma pow_le_7 (radix : Z) (n : nat) :
  0 < radix -> (n <= 7)%nat -> radix ^ Z.of_nat n <= radix ^ 7.
Proof. intros R L. apply Z.pow_le_mono_r; lia. Qed.

(** A text of at most 7 characters is read as less than 10^7 in size. *)
Lemma parseInt_short (v : option string) (z : Z) :
  short v -> parseInt v = integer z -> Z.abs z < 10 ^ 7.
Proof.
  destruct v as [text|]; [|discriminate]. cbn [short]. intros L.
  unfold parseInt. pose proof (trim_start_length text) as T.
  destruct (trim_start text) as [|c s] eqn:Tr; [discriminate|].
  cbn [String.length] in T.
  assert (B : forall sign s',
             (sign = 1 \/ sign = -1) -> (String.length s' <= 7)%nat ->
             match
               (let '(radix, s0) :=
                  match s' with
                  | String "0"%char (String "x"%char rest) => (16, rest)
                  | String "0"%char (String "X"%char rest) => (16, rest)
                  | _ => (10, s')
                  end in
                match digits radix s0 None with
                | Some value => integer (sign * value)
                | None => NaN
                end)
             with
             | integer z' => Z.abs z' < 10 ^ 7
             | NaN => True
             end).
  { intros sign s' Sg Ls.
    assert (D10 : match
                    match digits 10 s' None with
                    | Some value => integer (sign * value)
                    | None => NaN
                    end
                  with
                  | integer z' => Z.abs z' < 10 ^ 7
                  | NaN => True
                  end).
    { destruct (digits 10 s' None) as [value|] eqn:D; [|exact I].
      apply digits_bound_none in D; [|lia].
      pose proof (pow_le_7 10 _ ltac:(lia) Ls). destruct Sg; subst; lia. }
    assert (D16 : forall rest, (String.length rest + 2 <= 7)%nat ->
                  match
                    match digits 16 rest None with
                    | Some value => integer (sign * value)
                    | None => NaN
                    end
                  with
                  | integer z' => Z.abs z' < 10 ^ 7
                  | NaN => True
                  end).
    { intros rest Lr. destruct (digits 16 rest None) as [value|] eqn:D;
        [|exact I]. apply digits_bound_none in D; [|lia].
      assert (16 ^ Z.of_nat (String.length rest) <= 16 ^ 5)
        by (apply Z.pow_le_mono_r; lia).
      destruct Sg; subst; lia. }
    destruct s' as [|a [|b rest]].
    - exact D10.
    - destruct a as [[] [] [] [] [] [] [] []]; exact D10.
    - assert (H16 := D16 rest).
      cbn [String.length] in Ls.
      specialize (H16 ltac:(lia)).
      destruct a as [[] [] [] [] [] [] [] []]; try exact D10;
        destruct b as [[] [] [] [] [] [] [] []]; try exact D10;
          exact H16. }
  intros H.
  assert (G : forall sign s',
             (sign = 1 \/ sign = -1) -> (String.length s' <= 7)%nat ->
             (let '(radix, s0) :=
                match s' with
                | String "0"%char (String "x"%char rest) => (16, rest)
                | String "0"%char (String "X"%char rest) => (16, rest)
                | _ => (10, s')
                end in
              match digits radix s0 None with
              | Some value => integer (sign * value)
              | None => NaN
              end) = integer z -> Z.abs z < 10 ^ 7).
  { intros sign s' Sg Ls E. specialize (B sign s' Sg Ls).
    rewrite E in B. exact B. }
  assert (Ls : (String.length s <= 7)%nat) by lia.
  assert (Lc : forall ch, (String.length (String ch s) <= 7)%nat)
    by (intros ch; cbn [String.length]; lia).
  destruct c as [[] [] [] [] [] [] [] []];
    match type of Tr with
    | _ = String ?ch _ =>
        first [ exact (G (-1) s (or_intror eq_refl) Ls H)
              | exact (G 1 s (or_introl eq_refl) Ls H)
              | exact (G 1 (String ch s) (or_introl eq_refl) (Lc ch) H) ]
    end.
Qed.

Lemma number_or_short (v : option string) (d : Z) :
  short v -> d <> 0 -> Z.abs d < 10 ^ 7 ->
  number_or (parseInt v) d <> 0 /\ Z.abs (number_or (parseInt v) d) < 10 ^ 7.
Proof.
  intros L D B. unfold number_or.
  destruct (parseInt v) as [|z] eqn:P; [auto|].
  destruct (z =? 0) eqn:Z0; [auto|].
  apply Z.eqb_neq in Z0. split; [exact Z0|].
  exact (parseInt_short v z L P).
Qed.

(** X15 (parseQueryParams): for a page and a limit of at most 7 characters
    each, or absent, the page is never 0 and below 10^7 in size, the limit
    is never 0, at most 100 and above -10^7 (it has no lower cap: a negative
    limit stays negative), the offset is exactly (page - 1) * limit and a
    safe integer, it is not negative when page and limit are positive, and
    the order is ASC or DESC whatever the query says. *)
Theorem parseQueryParams_ranges (q : Query.t) :
  short (Query.page q) -> short (Query.limit q) ->
  Params.page (parseQueryParams q) <> 0
  /\ Z.abs (Params.page (parseQueryParams q)) < 10 ^ 7
  /\ Params.limit (parseQueryParams q) <> 0
  /\ - 10 ^ 7 < Params.limit (parseQueryParams q) <= 100
  /\ Params.offset (parseQueryParams q)
     = (Params.page (parseQueryParams q) - 1)
       * Params.limit (parseQueryParams q)
  /\ Z.abs (Params.offset (parseQueryParams q)) < 2 ^ 53
  /\ (0 < Params.page (parseQueryParams q) ->
      0 < Params.limit (parseQueryParams q) ->
      0 <= Params.offset (parseQueryParams q))
  /\ (Params.order (parseQueryParams q) = "ASC"
      \/ Params.order (parseQueryParams q) = "DESC").
Proof.
  intros Lp Ll. unfold parseQueryParams. cbn [Params.page Params.limit
    Params.offset Params.order].
  destruct (number_or_short (Query.page q) 1 Lp ltac:(lia) ltac:(cbn; lia))
    as [P0 Pb].
  destruct (number_or_short (Query.limit q) 20 Ll ltac:(lia) ltac:(cbn; lia))
    as [L0 Lb].
  set (page := number_or (parseInt (Query.page q)) 1) in *.
  set (limit := number_or (parseInt (Query.limit q)) 20) in *.
  assert (E7 : 10 ^ 7 = 10000000) by reflexivity.
  assert (E53 : 2 ^ 53 = 9007199254740992) by reflexivity.
  rewrite E7 in *. rewrite E53.
  repeat split; try lia.
  - nia.
  - intros. nia.
  - repeat match goal with
           | |- context [match ?x with _ => _ end] => destruct x
           end; auto.
Qed.

Lemma parseQueryParams_ranges_witness :
  Params.page
    (parseQueryParams
       {| Query.page := Some "3"; Query.limit := Some "250";
          Query.sort := None; Query.order := Some "asc";
          Query.search := None |}) <> 0.
Proof.
  exact (proj1 (parseQueryParams_ranges
                  {| Query.page := Some "3"; Query.limit := Some "250";
                     Query.sort := None; Query.order := Some "asc";
                     Query.search := None |}
                  ltac:(cbn; lia) ltac:(cbn; lia))).
Defined.

(** A limit below 0 is neither capped nor replaced by the default. *)
Example negative_limit_is_kept :
  parseQueryParams
    {| Query.page := Some " 2"; Query.limit := Some "-5rows";
       Query.sort := None; Query.order := Some "ASC"; Query.search := None |}
  = {| Params.page := 2; Params.limit := -5; Params.offset := -5;
       Params.sort := "created_at"; Params.order := "DESC";
       Params.search := "" |}.
Proof. reflexivity. Qed.

(** X16 (buildFilterWhere): the clauses of the filters that are given (not
    undefined and not empty) are joined in the order of the function, their
    placeholders numbered 1, 2, ... without a gap; the parameters are the
    given values in the same order, so that placeholder k stands for the
    k-th parameter; nextParamIndex is one more than their number. *)
Theorem buildFilterWhere_numbering (filters : Filters.t) :
  Where.where_ (buildFilterWhere filters)
  = numbered_clauses 1 (given_filters filters)
  /\ Where.params (buildFilterWhere filters)
     = map snd (given_filters filters)
  /\ Where.nextParamIndex (buildFilterWhere filters)
     = S (List.length (Where.params (buildFilterWhere filters))).
Proof.
  destruct filters as [f1 f2 f3 f4 f5 f6].
  destruct f1 as [[|c1 s1]|], f2 as [[|c2 s2]|], f3 as [[|c3 s3]|],
           f4 as [[|c4 s4]|], f5 as [[|c5 s5]|], f6 as [[|c6 s6]|];
    repeat split; reflexivity.
Qed.

(** ** The inventory endpoints *)

Lemma insert_inventory_part_available (parts parts' : list inventory_part.row)
  (env : environment) (company_id location_id name sku category_id
    : option string) (quantity retail_cost_cents : Z) (taxable : bool)
  (r : inventory_part.row) :
  insert_inventory_part parts env company_id location_id name sku category_id
    quantity quantity retail_cost_cents taxable = inr (parts', r) ->
  parts' = (parts ++ [r])%list
  /\ inventory_part.available_quantity r = inventory_part.quantity r.
Proof.
  unfold insert_inventory_part. intros H. bind_cases H.
  inversion H; subst. split; [reflexivity|]. cbn. congruence.
Qed.

Lemma set_inventory_part_available (env : environment)
  (name sku : option string) (quantity retail_cost_cents : option Z)
  (bin_location : option string) (r r' : inventory_part.row) :
  inventory_part.available_quantity r = inventory_part.quantity r ->
  set_inventory_part env name sku quantity retail_cost_cents bin_location r
  = inr r' ->
  inventory_part.available_quantity r' = inventory_part.quantity r'.
Proof.
  unfold set_inventory_part. intros A H. bind_cases H.
  inversion H; subst. cbn.
  destruct quantity as [q|]; cbn in *; congruence.
Qed.

Lemma handle_inventory_available (parts : list inventory_part.row)
  (env : environment) (req : inventory_request) :
  all_available parts -> all_available (fst (handle_inventory parts env req)).
Proof.
  intros A. destruct req as [b|id b]; cbn [handle_inventory].
  - unfold POST_api_inventory_parts.handler.
    destruct (negb _ || negb _); [exact A|].
    destruct (insert_inventory_part _ _ _ _ _ _ _ _ _ _ _) as [e|[parts' r]]
      eqn:I; [exact A|].
    apply insert_inventory_part_available in I. destruct I as [-> Er].
    cbn [fst]. apply Forall_app. split; [exact A|]. constructor; auto.
  - unfold PUT_api_inventory_parts_id.handler.
    destruct (pg.bigint_opt _) as [e|retail]; cbn; [exact A|].
    destruct (pg.uuid_in id) as [e|id']; cbn; [exact A|].
    destruct (update_where _ _ parts) as [e|[rows returned]] eqn:U;
      [exact A|].
    apply update_where_rows in U.
    assert (A' : all_available rows).
    { unfold all_available in *. induction U as [|r r' rest rest' S _ IH].
      - constructor.
      - inversion A; subst. constructor; [|apply IH; assumption].
        destruct (N.eqb (inventory_part.id r) id').
        + eapply set_inventory_part_available; eauto.
        + subst. assumption. }
    destruct returned; exact A'.
Qed.

(** X17 (POST /api/inventory-parts, PUT /api/inventory-parts/:id): a table
    in which every part's available_quantity equals its quantity stays so
    under any sequence of the two requests: a new part is available in
    full, and a new quantity overwrites the available quantity with the same
    value, whatever is reserved. *)
Theorem inventory_stays_available (parts : list inventory_part.row)
  (calls : list (environment * inventory_request)) :
  all_available parts -> all_available (run_inventory parts calls).
Proof.
  revert parts. induction calls as [|[env req] rest IH]; intros parts A;
    cbn [run_inventory]; [exact A|].
  apply IH. apply handle_inventory_available. exact A.
Qed.

Lemma inventory_stays_available_witness :
  all_available (run_inventory oil_filters_in_stock [recounted]).
Proof.
  apply (inventory_stays_available oil_filters_in_stock [recounted]).
  vm_compute. constructor; [reflexivity|constructor].
Defined.

(** The recount is written to both columns. *)
Example oil_filters_recounted :
  map (fun p => (inventory_part.quantity p,
                 inventory_part.available_quantity p,
                 inventory_part.bin_location p))
    (run_inventory oil_filters_in_stock [recounted])
  = [(950, 950, Some "A-3")].
Proof. reflexivity. Qed.
